(** * vtds-platform-ubuntu: the per-blade deployment script

    A shallow embedding of
    [vtds_platform_ubuntu/private/scripts/deploy_to_blade.py]:
    the command runner [run_cmd], the [NetworkInstaller] class that
    (re)builds VxLAN tunnels, bridges, the static forwarding mesh and the
    libvirt networks of a blade, and [main] / [entrypoint].

    Python exceptions are values of [exn]; code that raises runs in a
    state-and-exception monad that keeps the state reached when the
    exception was raised, since the objects and the blade mutated so far
    stay mutated.  The blade itself (kernel links, libvirt, files) is
    reached through the [Host] interface; [blade] is a reference
    implementation of it. *)

From Stdlib Require Import List String Ascii ZArith Bool Lia Permutation.
From Stdlib Require Import DecimalString.
Import ListNotations.
Local Open Scope string_scope.
Local Open Scope list_scope.

Set Implicit Arguments.

(** ** Python values used by the script *)

(** [x in xs] on a list of strings. *)
Definition str_in (x : string) (xs : list string) : bool :=
  existsb (String.eqb x) xs.

(** [" ".join([cmd, *args])] *)
Definition cmdline (cmd : string) (args : list string) : string :=
  String.concat " " (cmd :: args).

(** [line[:-1]] *)
Fixpoint drop_last (s : string) : string :=
  match s with
  | EmptyString => EmptyString
  | String c EmptyString => EmptyString
  | String c rest => String c (drop_last rest)
  end.

(** The line feed. *)
Definition newline : string := String (ascii_of_nat 10) EmptyString.

(** [str(n)] for an integer. *)
Definition str_of_int (n : Z) : string := NilZero.string_of_int (Z.to_int n).

(** A Python [dict] keyed by strings: insertion-ordered, one entry per
    key; assigning to an existing key keeps its position. *)
Definition dict (V : Type) : Type := list (string * V).

Fixpoint dict_get {V} (k : string) (d : dict V) : option V :=
  match d with
  | [] => None
  | (k', v) :: rest => if String.eqb k k' then Some v else dict_get k rest
  end.

Definition dict_mem {V} (k : string) (d : dict V) : bool :=
  match dict_get k d with Some _ => true | None => false end.

Fixpoint dict_set {V} (k : string) (v : V) (d : dict V) : dict V :=
  match d with
  | [] => [(k, v)]
  | (k', v') :: rest =>
      if String.eqb k k' then (k, v) :: rest else (k', v') :: dict_set k v rest
  end.

(** [{key(x): val(x) for x in xs}] *)
Definition dict_of {A V} (key : A -> string) (val : A -> V) (xs : list A)
  : dict V :=
  fold_left (fun d x => dict_set (key x) (val x) d) xs [].

Definition dict_keys {V} (d : dict V) : list string := map fst d.

(** [xs.remove(x)]: drops the first occurrence. *)
Fixpoint list_remove (x : string) (xs : list string) : list string :=
  match xs with
  | [] => []
  | y :: rest => if String.eqb x y then rest else y :: list_remove x rest
  end.

(** ** Exceptions *)

(** The messages of [ContextualError], one constructor per raise site. *)
Inductive contextual : Type :=
| CommandFailed (line : string)
    (* "command '%s' failed" *)
| CommandTimedOutKilled (line : string)
    (* "command '%s' timed out and was killed" *)
| CommandNotTerminated (line : string) (seconds : Z)
    (* "'%s' timed out and did not terminate as expected after %d seconds" *)
| ExecutingFailed (line : string) (oserr : string)
    (* "executing '%s' failed - %s" *)
| ConfigLoadFailed (path : string) (oserr : string)
    (* "failed to load blade configuration file '%s' - %s" *)
| TunnelNameConflict (name : string)
    (* "... conflicting non-virtual network interface already exists ..." *)
| BridgeNameConflict (name bridge_name : string)
    (* "... conflicting non-bridge network interface already exists ..." *)
| NoUnderlay (endpoint_ips : list string).
    (* "no network device was found with an IP address matching ..." *)

Inductive exn : Type :=
| ContextualError (e : contextual)
| UsageError (msg : string)
| OSError (msg : string)
| JSONDecodeError
| KeyError (key : string).

(** The error kinds of the design, as the raise sites realise them. *)
Definition is_NameConflictError (e : exn) : bool :=
  match e with
  | ContextualError (TunnelNameConflict _)
  | ContextualError (BridgeNameConflict _ _) => true
  | _ => false
  end.

Definition is_NoUnderlayError (e : exn) : bool :=
  match e with ContextualError (NoUnderlay _) => true | _ => false end.


(** ** State and exception monad *)

Inductive result (A : Type) : Type :=
| Ok (a : A)
| Raise (e : exn).
Arguments Ok {A} a.
Arguments Raise {A} e.

Definition M (St A : Type) : Type := St -> result A * St.

Definition ret {St A} (a : A) : M St A := fun s => (Ok a, s).

Definition raise {St A} (e : exn) : M St A := fun s => (Raise e, s).

Definition bind {St A B} (c : M St A) (k : A -> M St B) : M St B :=
  fun s =>
    match c s with
    | (Ok a, s') => k a s'
    | (Raise e, s') => (Raise e, s')
    end.

Declare Scope py_scope.
Delimit Scope py_scope with py.
Notation "x <- c ;; k" := (bind c (fun x => k))
  (at level 61, c at next level, right associativity) : py_scope.
Notation "c ;; k" := (bind c (fun _ => k))
  (at level 61, right associativity) : py_scope.
Local Open Scope py_scope.

(** [for x in xs: body(x)] *)
Fixpoint for_each {St A} (xs : list A) (body : A -> M St unit) : M St unit :=
  match xs with
  | [] => ret tt
  | x :: rest => body x ;; for_each rest body
  end.

(** ** The command runner, seen from the child process

    [Popen.wait(timeout=5)] either times out, leaving the child running,
    or returns its exit status; [terminate] and [kill] send it signals. *)
Module Runner.

Record process (S : Type) : Type := {
  wait : S -> S + Z;
  terminate : S -> S;
  kill : S -> S
}.

Inductive action : Type := Wait | Terminate | Kill.

(** How the [while True] loop stands when the fuel is spent or the loop
    is left. *)
Inductive loop_end : Type :=
| Polling
| Broke (exitval : Z)
| Raised (e : exn).

(** Truth value of the [timeout] argument: [None] and [0] are false. *)
Definition truthy (timeout : option Z) : bool :=
  match timeout with
  | None => false
  | Some t => negb (t =? 0)%Z
  end.

(** [time > timeout] *)
Definition exceeds (time : Z) (timeout : option Z) : bool :=
  match timeout with
  | None => false
  | Some t => (time >? t)%Z
  end.

Section Loop.
Context {S : Type} (P : process S).
Variables (cmd : string) (args : list string) (timeout : option Z).

(** One iteration of the loop per unit of fuel.  [signaled] is read by
    the loop and never assigned in it, as in the source. *)
Fixpoint poll (fuel : nat) (time : Z) (signaled : bool) (st : S)
  : list action * loop_end :=
  match fuel with
  | O => ([], Polling)
  | Datatypes.S fuel' =>
      match wait P st with
      | inr exitval => ([Wait], Broke exitval)
      | inl st' =>
          let time := (time + 5)%Z in
          if truthy timeout && exceeds time timeout then
            if negb signaled then
              let (log, e) := poll fuel' time signaled (terminate P st') in
              (Wait :: Terminate :: log, e)
            else
              ([Wait; Kill],
               Raised (ContextualError
                         (CommandNotTerminated (cmdline cmd args) time)))
          else
            let (log, e) := poll fuel' time signaled st' in
            (Wait :: log, e)
      end
  end.

End Loop.

(** What [Popen] gives: the child, or [OSError]. *)
Inductive spawned (S : Type) : Type :=
| SpawnFailed (oserr : string)
| Spawned (st : S).
Arguments SpawnFailed {S} oserr.
Arguments Spawned {S} st.

(** The tail of [run_cmd]: the check of [exitval]. *)
Definition check_exit (cmd : string) (args : list string)
           (signaled : bool) (exitval : Z) : result unit :=
  if negb (exitval =? 0)%Z then
    Raise (ContextualError
             (if negb signaled then CommandFailed (cmdline cmd args)
              else CommandTimedOutKilled (cmdline cmd args)))
  else Ok tt.

(** [run_cmd(cmd, args, stdin, timeout)] with the actions taken on the
    child; [None] as a result means the call has not returned within
    [fuel] polls. *)
Definition run_cmd {S} (P : process S) (child : spawned S)
           (cmd : string) (args : list string) (timeout : option Z)
           (fuel : nat) : list action * option (result unit) :=
  match child with
  | SpawnFailed oserr =>
      ([], Some (Raise (ContextualError
                          (ExecutingFailed (cmdline cmd args) oserr))))
  | Spawned st =>
      let time := 0%Z in
      let signaled := false in
      match poll P cmd args timeout fuel time signaled st with
      | (log, Polling) => (log, None)
      | (log, Raised e) => (log, Some (Raise e))
      | (log, Broke exitval) =>
          (log, Some (check_exit cmd args signaled exitval))
      end
  end.

(** The child left alone: its state after [n] polls without a signal,
    or its exit status if it has exited by then. *)
Fixpoint undisturbed {S} (P : process S) (n : nat) (st : S) : S + Z :=
  match n with
  | O => inl st
  | Datatypes.S n' =>
      match wait P st with
      | inr exitval => inr exitval
      | inl st' => undisturbed P n' st'
      end
  end.

(** A child that ignores the termination request and never exits. *)
Definition stubborn : process unit :=
  {| wait := fun _ => inl tt; terminate := fun _ => tt; kill := fun _ => tt |}.

(** A child that runs until it is asked to terminate and then exits
    with status [status] at the next poll. *)
Definition obedient (status : Z) : process bool :=
  {| wait := fun asked : bool =>
               if asked then inr status else inl (false : bool);
     terminate := fun _ => true;
     kill := fun _ => true |}.

End Runner.

(** ** Data read from and given to the blade *)

(** An entry of an interface's ["addr_info"] list. *)
Record addr : Type := { local : option string }.

(** The ["linkinfo"] object of an interface. *)
Record linkinfo_t : Type := { info_kind : option string }.

(** An element of the output of [ip -d --json addr], with the key
    ["fdb_dsts"] that [_get_interfaces] adds to it. *)
Record iface : Type := {
  ifname : string;
  linkinfo : option linkinfo_t;
  addr_info : option (list addr);
  fdb_dsts : option (list string)
}.

(** An element of the output of [bridge --json fdb]. *)
Record fdb_entry : Type := {
  fdb_ifname : string;
  dst : option string
}.

(** What a discovery query gives: [Popen] raises [OSError], or
    [json.loads] rejects the output, or it is parsed. *)
Inductive tool_output (A : Type) : Type :=
| ToolUnavailable (oserr : string)
| NotJSON
| Parsed (a : A).
Arguments ToolUnavailable {A} oserr.
Arguments NotJSON {A}.
Arguments Parsed {A} a.

(** What [virsh net-list --name] gives: [OSError], or its output lines. *)
Inductive tool_lines : Type :=
| LinesUnavailable (oserr : string)
| Lines (lines : list string).

(** Where a command reads its standard input from. *)
Inductive stdin_src : Type :=
| SysStdin
| StdinFile (lines : list string).

(** One call of [run_cmd]. *)
Record invocation : Type := {
  inv_cmd : string;
  inv_args : list string;
  inv_stdin : stdin_src;
  inv_timeout : option Z
}.

(** The libvirt network document that [add_virtual_network] writes:
    <network><name/><forward mode/><bridge name/></network>. *)
Record net_desc : Type := {
  nd_name : string;
  nd_forward_mode : string;
  nd_bridge : string
}.

(** A package entry of the blade configuration. *)
Record package : Type := {
  blade_classes : option (list string);
  preconfig_settings : option (list string);
  packages : option (list string);
  services_disable : option (list string);
  services_enable : option (list string)
}.

(** A network entry of the blade configuration; [None] is an absent key. *)
Record network_config : Type := {
  network_name : option string;
  tunnel_name : option string;
  bridge_name : option string;
  tunnel_id : option Z;
  endpoint_ips : option (list string)
}.

(** The blade configuration file, parsed. *)
Record blade_config : Type := {
  cfg_networks : option (dict network_config);
  cfg_packages : option (dict package);
  cfg_blade_class : option string
}.

Inductive config_file : Type :=
| Unreadable (oserr : string)
| Loaded (config : blade_config).

(** What [NamedTemporaryFile] and the writing of its content give:
    [OSError], or the path of the file. *)
Inductive temp_file : Type :=
| NoTempFile (oserr : string)
| TempFile (path : string).

(** The blade as the script reaches it.  [exec] runs a command to its
    end and gives what [Popen] and the last [wait] gave; the three
    queries are the discovery commands, which read and change nothing.
    [temporary_file] is [TemporaryFile] with the lines written and the
    file rewound: it gives the [OSError] if there is one; [mktemp] is
    [NamedTemporaryFile] with the content written and flushed, and
    [rmtemp] the removal of the file when its block is left.  Closing a
    file that has been written is taken to go well. *)
Class Host : Type := {
  host : Type;
  exec : invocation -> host -> Runner.spawned Z * host;
  ip_addr : host -> tool_output (list iface);
  bridge_fdb : host -> tool_output (list fdb_entry);
  virsh_net_list : host -> tool_lines;
  open_config : string -> host -> config_file;
  temporary_file : list string -> host -> option string;
  mktemp : net_desc -> host -> temp_file * host;
  rmtemp : string -> host -> host
}.

(** The state of [NetworkInstaller] objects. *)
Record NetworkInstaller : Type := {
  interfaces : dict iface;
  vxlans : dict iface;
  bridges : dict iface;
  vnets : list string
}.

Definition set_vnets (f : list string -> list string)
           (self : NetworkInstaller) : NetworkInstaller :=
  {| interfaces := interfaces self;
     vxlans := vxlans self;
     bridges := bridges self;
     vnets := f (vnets self) |}.

(** The kind of an interface, from its link-type metadata. *)
Inductive kind : Type := KVxlan | KBridge | KOther.

Definition iface_kind (i : iface) : kind :=
  match linkinfo i with
  | Some {| info_kind := Some k |} =>
      if String.eqb k "vxlan" then KVxlan
      else if String.eqb k "bridge" then KBridge
      else KOther
  | _ => KOther
  end.

(** ** The script over a host *)
Section Script.
Context {H : Host}.

(** The blade and the calls of [run_cmd] made so far. *)
Record world : Type := {
  w_host : host;
  w_trace : list invocation
}.

(** Free functions and static methods run on the world; methods run on
    the object and the world. *)
Definition Sys (A : Type) : Type := M world A.
Definition Method (A : Type) : Type := M (NetworkInstaller * world) A.

Definition lift {A} (c : Sys A) : Method A :=
  fun s =>
    let (r, w) := c (snd s) in (r, (fst s, w)).

Definition get_self : Method NetworkInstaller :=
  fun s => (Ok (fst s), s).

Definition modify_self (f : NetworkInstaller -> NetworkInstaller)
  : Method unit :=
  fun s => (Ok tt, (f (fst s), snd s)).

(** [run_cmd(cmd, args, stdin, timeout)] for a command that comes to an
    end: the child is spawned and waited for, and its status checked. *)
Definition run_cmd (cmd : string) (args : list string)
           (stdin : stdin_src) (timeout : option Z) : Sys unit :=
  fun w =>
    let inv := {| inv_cmd := cmd; inv_args := args;
                  inv_stdin := stdin; inv_timeout := timeout |} in
    let (child, h) := exec inv (w_host w) in
    let w' := {| w_host := h; w_trace := w_trace w ++ [inv] |} in
    match child with
    | Runner.SpawnFailed oserr =>
        (Raise (ContextualError (ExecutingFailed (cmdline cmd args) oserr)),
         w')
    | Runner.Spawned exitval =>
        (Runner.check_exit cmd args false exitval, w')
    end.

(** [run_cmd(cmd, args)]: both defaults. *)
Definition run_cmd2 (cmd : string) (args : list string) : Sys unit :=
  run_cmd cmd args SysStdin None.

Definition read_config (config_file : string) : Sys blade_config :=
  fun w =>
    match open_config config_file (w_host w) with
    | Loaded config => (Ok config, w)
    | Unreadable oserr =>
        (Raise (ContextualError (ConfigLoadFailed config_file oserr)), w)
    end.

Definition prepare_package_installer : Sys unit :=
  run_cmd2 "apt" ["update"] ;;
  run_cmd2 "apt" ["upgrade"; "-y"].

(** [with TemporaryFile(...) as stdin: writelines(data); seek(0); body]:
    an [OSError] of the three is raised as it is. *)
Definition with_temporary_file {A} (data : list string) (body : Sys A)
  : Sys A :=
  fun w =>
    match temporary_file data (w_host w) with
    | Some oserr => (Raise (OSError oserr), w)
    | None => body w
    end.

Definition preconfigure_packages (settings : list string) : Sys unit :=
  match settings with
  | [] => ret tt
  | _ =>
      let data := map (fun setting => (setting ++ newline)%string) settings in
      with_temporary_file
        data (run_cmd "debconf-set-selections" [] (StdinFile data) None)
  end.

Definition install_packages (pkgs : list string) : Sys unit :=
  run_cmd2 "apt" ("install" :: "-y" :: pkgs).

Definition disable_services (service_names : list string) : Sys unit :=
  for_each service_names
    (fun service_name =>
       run_cmd2 "systemctl" ["disable"; "--now"; service_name]).

Definition enable_services (service_names : list string) : Sys unit :=
  for_each service_names
    (fun service_name =>
       run_cmd2 "systemctl" ["enable"; "--now"; service_name]).

(** [key] is the projection [pack.get(key, [])] reads. *)
Definition list_from_packages (pkgs : dict package)
           (blade_class : option string)
           (key : package -> option (list string)) : list string :=
  flat_map
    (fun item : string * package =>
       let pack := snd item in
       let wanted :=
         match blade_classes pack with
         | None => true
         | Some classes =>
             match blade_class with
             | Some c => str_in c classes
             | None => false
             end
         end in
       if wanted then
         match key pack with Some l => l | None => [] end
       else [])
    pkgs.

Definition setup_packages (pkgs : dict package)
           (blade_class : option string) : Sys unit :=
  prepare_package_installer ;;
  preconfigure_packages
    (list_from_packages pkgs blade_class preconfig_settings) ;;
  install_packages (list_from_packages pkgs blade_class packages) ;;
  disable_services (list_from_packages pkgs blade_class services_disable) ;;
  enable_services (list_from_packages pkgs blade_class services_enable).

(** A pure step that may raise. *)
Definition of_result {St A} (r : result A) : M St A := fun s => (r, s).

(** [json.loads(Popen(...).stdout.read())] *)
Definition popen_json {A} (query : host -> tool_output A) : Sys A :=
  fun w =>
    match query (w_host w) with
    | ToolUnavailable oserr => (Raise (OSError oserr), w)
    | NotJSON => (Raise JSONDecodeError, w)
    | Parsed a => (Ok a, w)
    end.

(** The [for dst in dsts] loop of [_get_interfaces]. *)
Fixpoint fold_fdb_dsts (dsts : list fdb_entry) (ifs : dict iface)
  : result (dict iface) :=
  match dsts with
  | [] => Ok ifs
  | entry :: rest =>
      match dst entry with
      | Some ip =>
          match dict_get (fdb_ifname entry) ifs with
          | None => Raise (KeyError (fdb_ifname entry))
          | Some i =>
              let i' := {| ifname := ifname i;
                           linkinfo := linkinfo i;
                           addr_info := addr_info i;
                           fdb_dsts :=
                             match fdb_dsts i with
                             | None => Some [ip]
                             | Some l => Some (l ++ [ip])
                             end |} in
              fold_fdb_dsts rest (dict_set (fdb_ifname entry) i' ifs)
          end
      | None => fold_fdb_dsts rest ifs
      end
  end.

Definition _get_interfaces : Sys (dict iface) :=
  if_data <- popen_json ip_addr ;;
  fdb_data <- popen_json bridge_fdb ;;
  let ifs := dict_of ifname (fun i => i) if_data in
  let dsts :=
    filter (fun e => match dst e with Some _ => true | None => false end)
           fdb_data in
  of_result (fold_fdb_dsts dsts ifs).

Definition _get_virtual_networks : Sys (list string) :=
  fun w =>
    match virsh_net_list (w_host w) with
    | LinesUnavailable oserr => (Raise (OSError oserr), w)
    | Lines lines =>
        (Ok (map drop_last
               (filter (fun line =>
                          negb (String.eqb (drop_last line) EmptyString))
                       lines)),
         w)
    end.

(** ['linkinfo' in val and val['linkinfo']['info_kind'] == k] *)
Definition has_info_kind (k : string) (val : iface) : result bool :=
  match linkinfo val with
  | None => Ok false
  | Some li =>
      match info_kind li with
      | None => Raise (KeyError "info_kind")
      | Some k' => Ok (String.eqb k' k)
      end
  end.

(** [{key: val for key, val in items if cond(val)}] *)
Fixpoint dict_where (cond : iface -> result bool)
         (items : list (string * iface)) (acc : dict iface)
  : result (dict iface) :=
  match items with
  | [] => Ok acc
  | (key, val) :: rest =>
      match cond val with
      | Raise e => Raise e
      | Ok true => dict_where cond rest (dict_set key val acc)
      | Ok false => dict_where cond rest acc
      end
  end.

(** [NetworkInstaller()] *)
Definition __init__ : Sys NetworkInstaller :=
  ifs <- _get_interfaces ;;
  vx <- of_result (dict_where (has_info_kind "vxlan") ifs []) ;;
  br <- of_result (dict_where (has_info_kind "bridge") ifs []) ;;
  nets <- _get_virtual_networks ;;
  ret {| interfaces := ifs; vxlans := vx; bridges := br; vnets := nets |}.

Definition _check_conflict (name bridge_name : string) : Method unit :=
  self <- get_self ;;
  if dict_mem name (interfaces self) && negb (dict_mem name (vxlans self))
  then raise (ContextualError (TunnelNameConflict name))
  else
    if dict_mem bridge_name (interfaces self)
       && negb (dict_mem bridge_name (bridges self))
    then raise (ContextualError (BridgeNameConflict name bridge_name))
    else ret tt.

(** The inner loop of [_find_underlay]. *)
Fixpoint scan_addr_info (intf : string) (infos : list addr)
         (endpoint_ips : list string) : option (string * string) :=
  match infos with
  | [] => None
  | info :: rest =>
      match local info with
      | Some ip =>
          if str_in ip endpoint_ips then Some (intf, ip)
          else scan_addr_info intf rest endpoint_ips
      | None => scan_addr_info intf rest endpoint_ips
      end
  end.

(** The outer loop of [_find_underlay]. *)
Fixpoint scan_interfaces (items : list (string * iface))
         (endpoint_ips : list string) : option (string * string) :=
  match items with
  | [] => None
  | (intf, if_desc) :: rest =>
      let infos := match addr_info if_desc with Some l => l | None => [] end in
      match scan_addr_info intf infos endpoint_ips with
      | Some found => Some found
      | None => scan_interfaces rest endpoint_ips
      end
  end.

Definition _find_underlay (endpoint_ips : list string)
  : Method (string * string) :=
  self <- get_self ;;
  match scan_interfaces (interfaces self) endpoint_ips with
  | Some found => ret found
  | None => raise (ContextualError (NoUnderlay endpoint_ips))
  end.

Definition remove_link (if_name : string) : Sys unit :=
  run_cmd2 "ip" ["link"; "del"; if_name].

Definition add_new_tunnel (tunnel bridge vxlan_id device : string)
  : Sys unit :=
  run_cmd2 "ip" ["link"; "add"; tunnel; "type"; "vxlan"; "id"; vxlan_id;
                 "dev"; device; "dstport"; "0"] ;;
  run_cmd2 "ip" ["link"; "add"; bridge; "type"; "bridge"] ;;
  run_cmd2 "ip" ["link"; "set"; tunnel; "master"; bridge].

Definition connect_endpoints (tunnel : string) (endpoint_ips : list string)
           (local_ip_addr : string) : Sys unit :=
  let remote_ips :=
    filter (fun ip_addr => negb (String.eqb ip_addr local_ip_addr))
           endpoint_ips in
  for_each remote_ips
    (fun ip_addr =>
       run_cmd2 "bridge" ["fdb"; "append"; "to"; "00:00:00:00:00:00";
                          "dst"; ip_addr; "dev"; tunnel]).

(** [with NamedTemporaryFile(...) as tmpfile: write; flush; body]: an
    [OSError] of the three is raised as it is; the file is gone when the
    block is left, also by an exception. *)
Definition named_temporary_file {A} (content : net_desc)
           (body : string -> Sys A) : Sys A :=
  fun w =>
    match mktemp content (w_host w) with
    | (NoTempFile oserr, h) =>
        (Raise (OSError oserr), {| w_host := h; w_trace := w_trace w |})
    | (TempFile path, h) =>
        let (r, w') := body path {| w_host := h; w_trace := w_trace w |} in
        (r, {| w_host := rmtemp path (w_host w'); w_trace := w_trace w' |})
    end.

Definition add_virtual_network (name bridge : string) : Method unit :=
  let desc := {| nd_name := name; nd_forward_mode := "bridge";
                 nd_bridge := bridge |} in
  lift (named_temporary_file desc
          (fun path => run_cmd2 "virsh" ["net-define"; path])) ;;
  lift (run_cmd2 "virsh" ["net-start"; name]) ;;
  lift (run_cmd2 "virsh" ["net-autostart"; name]) ;;
  modify_self (set_vnets (fun l => l ++ [name])).

Definition remove_virtual_network (name : string) : Method unit :=
  self <- get_self ;;
  if negb (str_in name (vnets self)) then ret tt
  else
    lift (run_cmd2 "virsh" ["net-destroy"; name]) ;;
    lift (run_cmd2 "virsh" ["net-undefine"; name]) ;;
    modify_self (set_vnets (list_remove name)).

(** The five [config.get] lines of [construct_virtual_network]. *)
Definition name_of (config : network_config) : string :=
  match network_name config with Some n => n | None => EmptyString end.

Definition tunnel_of (config : network_config) : string :=
  match tunnel_name config with Some n => n | None => name_of config end.

Definition bridge_of (config : network_config) : string :=
  match bridge_name config with
  | Some n => n
  | None => ("br-" ++ tunnel_of config)%string
  end.

Definition vxlan_id_of (config : network_config) : string :=
  match tunnel_id config with Some n => str_of_int n | None => "0" end.

Definition endpoints_of (config : network_config) : list string :=
  match endpoint_ips config with Some l => l | None => [] end.

Definition when {St} (b : bool) (c : M St unit) : M St unit :=
  if b then c else ret tt.

Definition construct_virtual_network (config : network_config)
  : Method unit :=
  let name := name_of config in
  let tunnel := tunnel_of config in
  let bridge := bridge_of config in
  let vxlan_id := vxlan_id_of config in
  let ips := endpoints_of config in
  _check_conflict tunnel bridge ;;
  self <- get_self ;;
  when (dict_mem tunnel (interfaces self)) (lift (remove_link tunnel)) ;;
  when (dict_mem bridge (interfaces self)) (lift (remove_link bridge)) ;;
  found <- _find_underlay ips ;;
  let device := fst found in
  let local_ip_addr := snd found in
  lift (add_new_tunnel tunnel bridge vxlan_id device) ;;
  lift (connect_endpoints tunnel ips local_ip_addr) ;;
  remove_virtual_network name ;;
  add_virtual_network name bridge.

(** Run a method on an object; the script keeps no reference to it once
    [main] is left. *)
Definition on_object {A} (self : NetworkInstaller) (m : Method A) : Sys A :=
  fun w =>
    let (r, s) := m (self, w) in (r, snd s).

(** The last three lines of [main]. *)
Definition install_networks (networks : dict network_config) : Method unit :=
  remove_virtual_network "default" ;;
  for_each networks (fun item => construct_virtual_network (snd item)).

(** [config.get('networks', {})] and [config.get('packages', {})].  A
    key that is there holds a mapping: a key with no value, on which
    [.items()] would raise, is not among the configurations that
    [blade_config] has. *)
Definition networks_of (config : blade_config) : dict network_config :=
  match cfg_networks config with Some d => d | None => [] end.

Definition packages_of (config : blade_config) : dict package :=
  match cfg_packages config with Some d => d | None => [] end.

Definition main (argv : list string) : Sys unit :=
  match argv with
  | [] => raise (UsageError "too few arguments")
  | config_path :: _ =>
      config <- read_config config_path ;;
      let networks := networks_of config in
      let pkgs := packages_of config in
      let blade_class := cfg_blade_class config in
      setup_packages pkgs blade_class ;;
      network_installer <- __init__ ;;
      on_object network_installer (install_networks networks)
  end.

(** How the process ends: [main_func] returned, [sys.exit(status)] after
    a message on stderr, or an exception left to the caller. *)
Inductive ending : Type :=
| Returned
| Exited (status : Z) (message : string)
| Uncaught (e : exn).

Definition entrypoint (usage_msg : string)
           (main_func : list string -> Sys unit) (argv : list string)
  : world -> ending * world :=
  fun w =>
    match main_func argv w with
    | (Ok _, w') => (Returned, w')
    | (Raise (ContextualError _), w') => (Exited 1 "ERROR", w')
    | (Raise (UsageError _), w') => (Exited 1 usage_msg, w')
    | (Raise e, w') => (Uncaught e, w')
    end.

(** The operations on the list of registered networks, for stating what
    any sequence of them keeps. *)
Inductive vnet_op : Type :=
| Remove (name : string)
| Construct (config : network_config).

Definition run_op (o : vnet_op) : Method unit :=
  match o with
  | Remove name => remove_virtual_network name
  | Construct config => construct_virtual_network config
  end.

(** The local addresses of a snapshot with their devices, in the order
    of enumeration: interfaces, then the address records of each. *)
Definition local_addrs (items : list (string * iface))
  : list (string * string) :=
  flat_map
    (fun item : string * iface =>
       flat_map
         (fun info : addr =>
            match local info with
            | Some ip => [(fst item, ip)]
            | None => []
            end)
         (match addr_info (snd item) with Some l => l | None => [] end))
    items.

(** The first local address that is an endpoint IP, as the design states
    the result of the Underlay Resolver. *)
Definition first_endpoint (items : list (string * iface))
           (endpoint_ips : list string) : option (string * string) :=
  find (fun p => str_in (snd p) endpoint_ips) (local_addrs items).


(** The removals [construct_virtual_network] performs before it looks
    for the underlay. *)
Definition ip_link_del (if_name : string) : invocation :=
  {| inv_cmd := "ip"; inv_args := ["link"; "del"; if_name];
     inv_stdin := SysStdin; inv_timeout := None |}.

Definition removals (self : NetworkInstaller) (config : network_config)
  : list invocation :=
  (if dict_mem (tunnel_of config) (interfaces self)
   then [ip_link_del (tunnel_of config)] else [])
  ++ (if dict_mem (bridge_of config) (interfaces self)
      then [ip_link_del (bridge_of config)] else []).

Definition virsh (verb name : string) : invocation :=
  {| inv_cmd := "virsh"; inv_args := [verb; name];
     inv_stdin := SysStdin; inv_timeout := None |}.

(** The destination a [bridge fdb append] call programs. *)
Definition fdb_append (ip_addr tunnel : string) : invocation :=
  {| inv_cmd := "bridge";
     inv_args := ["fdb"; "append"; "to"; "00:00:00:00:00:00";
                  "dst"; ip_addr; "dev"; tunnel];
     inv_stdin := SysStdin; inv_timeout := None |}.

(** A name is free for a kind when no interface bears it or the one that
    does has that kind. *)
Definition free_for (k : kind) (name : string) (self : NetworkInstaller)
  : Prop :=
  dict_get name (interfaces self) = None
  \/ exists i, dict_get name (interfaces self) = Some i /\ iface_kind i = k.

Definition taken_against (k : kind) (name : string) (self : NetworkInstaller)
  : Prop :=
  exists i, dict_get name (interfaces self) = Some i /\ iface_kind i <> k.

(** The two ways a command makes [run_cmd] raise. *)
Definition command_failure (e : exn) : Prop :=
  (exists line, e = ContextualError (CommandFailed line))
  \/ (exists line oserr, e = ContextualError (ExecutingFailed line oserr)).

(** A call of [run_cmd] that passes no timeout. *)
Definition untimed (inv : invocation) : Prop := inv_timeout inv = None.

(** [c] only adds calls that satisfy [Q] to the trace [tr] of its state. *)
Definition appends {St A} (tr : St -> list invocation)
           (Q : invocation -> Prop) (c : M St A) : Prop :=
  forall s, exists new, tr (snd (c s)) = tr s ++ new /\ Forall Q new.

Definition method_trace (s : NetworkInstaller * world) : list invocation :=
  w_trace (snd s).

(** The exceptions [entrypoint] does not report. *)
Definition unclassified (e : exn) : Prop :=
  match e with
  | OSError _ | JSONDecodeError | KeyError _ => True
  | ContextualError _ | UsageError _ => False
  end.

End Script.


(** ** A reference blade

    Kernel links with their kind, master, addresses and forwarding
    destinations; libvirt networks; the one temporary file of the script.
    The commands act as [ip], [bridge] and [virsh] do on the cases the
    script exercises; every other command succeeds and changes nothing.
    The blade is more willing than a kernel: it refuses a name in use, a
    device or a master that is missing and a network that is unknown or
    in the wrong state, but not a VNI out of range or in use nor a name
    too long, and it deletes a link without the devices stacked on it.
    What is proved on it is therefore stated of the runs that succeed on
    it. *)
Module Blade.

Inductive link_kind : Type :=
| Plain
| Vxlan (vni dev : string)
| Bridge.

Record link : Type := {
  l_name : string;
  l_kind : link_kind;
  l_master : option string;
  l_addrs : list string;
  l_fdb : list string
}.

Record vnet : Type := {
  v_name : string;
  v_bridge : string;
  v_active : bool;
  v_persistent : bool;
  v_autostart : bool
}.

Record state : Type := {
  links : list link;
  nets : list vnet;
  tmpfile : option net_desc;
  config_path : string;
  config : blade_config
}.

Definition with_links (f : list link -> list link) (h : state) : state :=
  {| links := f (links h); nets := nets h; tmpfile := tmpfile h;
     config_path := config_path h; config := config h |}.

Definition with_nets (f : list vnet -> list vnet) (h : state) : state :=
  {| links := links h; nets := f (nets h); tmpfile := tmpfile h;
     config_path := config_path h; config := config h |}.

Definition with_tmpfile (t : option net_desc) (h : state) : state :=
  {| links := links h; nets := nets h; tmpfile := t;
     config_path := config_path h; config := config h |}.

(** The commands the blade understands. *)
Inductive op : Type :=
| LinkDel (name : string)
| LinkAddVxlan (name vni dev : string)
| LinkAddBridge (name : string)
| LinkSetMaster (name master : string)
| FdbAppend (ip dev : string)
| NetDefine (path : string)
| NetStart (name : string)
| NetAutostart (name : string)
| NetDestroy (name : string)
| NetUndefine (name : string)
| Unmodelled.

Fixpoint all_eq (pairs : list (string * string)) : bool :=
  match pairs with
  | [] => true
  | (a, b) :: rest => String.eqb a b && all_eq rest
  end.

Definition parse (inv : invocation) : op :=
  let c := inv_cmd inv in
  match inv_args inv with
  | [a1; a2] =>
      if all_eq [(c, "virsh"); (a1, "net-define")] then NetDefine a2
      else if all_eq [(c, "virsh"); (a1, "net-start")] then NetStart a2
      else if all_eq [(c, "virsh"); (a1, "net-autostart")] then NetAutostart a2
      else if all_eq [(c, "virsh"); (a1, "net-destroy")] then NetDestroy a2
      else if all_eq [(c, "virsh"); (a1, "net-undefine")] then NetUndefine a2
      else Unmodelled
  | [a1; a2; n] =>
      if all_eq [(c, "ip"); (a1, "link"); (a2, "del")] then LinkDel n
      else Unmodelled
  | [a1; a2; n; a3; a4] =>
      if all_eq [(c, "ip"); (a1, "link"); (a2, "add"); (a3, "type");
                 (a4, "bridge")]
      then LinkAddBridge n
      else if all_eq [(c, "ip"); (a1, "link"); (a2, "set"); (a3, "master")]
      then LinkSetMaster n a4
      else Unmodelled
  | [a1; a2; a3; a4; a5; ip; a6; n] =>
      if all_eq [(c, "bridge"); (a1, "fdb"); (a2, "append"); (a3, "to");
                 (a4, "00:00:00:00:00:00"); (a5, "dst"); (a6, "dev")]
      then FdbAppend ip n
      else Unmodelled
  | [a1; a2; n; a3; a4; a5; vni; a6; dev; a7; a8] =>
      if all_eq [(c, "ip"); (a1, "link"); (a2, "add"); (a3, "type");
                 (a4, "vxlan"); (a5, "id"); (a6, "dev"); (a7, "dstport");
                 (a8, "0")]
      then LinkAddVxlan n vni dev
      else Unmodelled
  | _ => Unmodelled
  end.

Definition named (n : string) (l : link) : bool := String.eqb (l_name l) n.

Definition has_link (n : string) (ls : list link) : bool :=
  existsb (named n) ls.

Definition set_master (m : option string) (l : link) : link :=
  {| l_name := l_name l; l_kind := l_kind l; l_master := m;
     l_addrs := l_addrs l; l_fdb := l_fdb l |}.

Definition set_fdb (f : list string) (l : link) : link :=
  {| l_name := l_name l; l_kind := l_kind l; l_master := l_master l;
     l_addrs := l_addrs l; l_fdb := f |}.

Definition mastered_by (n : string) (l : link) : bool :=
  match l_master l with Some m => String.eqb m n | None => false end.

(** Deleting a link releases the links it masters. *)
Definition del_link (n : string) (ls : list link) : list link :=
  map (fun l => if mastered_by n l then set_master None l else l)
      (filter (fun l => negb (named n l)) ls).

Definition is_bridge (l : link) : bool :=
  match l_kind l with Bridge => true | _ => false end.

Definition is_vxlan (l : link) : bool :=
  match l_kind l with Vxlan _ _ => true | _ => false end.

(** [bridge fdb append] of a destination the device already floods to
    adds nothing. *)
Definition fdb_add (ip : string) (l : link) : link :=
  if str_in ip (l_fdb l) then l else set_fdb (l_fdb l ++ [ip]) l.

Definition net_named (n : string) (v : vnet) : bool := String.eqb (v_name v) n.

Definition has_net (n : string) (vs : list vnet) : bool :=
  existsb (net_named n) vs.

Definition tmp_path : string := "/tmp/tmpnet.xml".

Definition set_net (active persistent autostart : bool) (v : vnet) : vnet :=
  {| v_name := v_name v; v_bridge := v_bridge v; v_active := active;
     v_persistent := persistent; v_autostart := autostart |}.

(** The links and networks the commands of the script create. *)
Definition new_vxlan (n vni dev : string) : link :=
  {| l_name := n; l_kind := Vxlan vni dev; l_master := None;
     l_addrs := []; l_fdb := [] |}.

Definition new_bridge (n : string) : link :=
  {| l_name := n; l_kind := Bridge; l_master := None;
     l_addrs := []; l_fdb := [] |}.

Definition defined_net (d : net_desc) : vnet :=
  {| v_name := nd_name d; v_bridge := nd_bridge d; v_active := false;
     v_persistent := true; v_autostart := false |}.

(** [virsh net-start], [net-autostart], [net-destroy], [net-undefine]
    on the list of networks: a transient network is gone once destroyed,
    an inactive one once undefined. *)
Definition net_start (n : string) (vs : list vnet) : list vnet :=
  map (fun v => if net_named n v
                then set_net true (v_persistent v) (v_autostart v) v
                else v) vs.

Definition net_autostart (n : string) (vs : list vnet) : list vnet :=
  map (fun v => if net_named n v
                then set_net (v_active v) (v_persistent v) true v
                else v) vs.

Definition net_destroy (n : string) (vs : list vnet) : list vnet :=
  map (fun v => if net_named n v
                then set_net false (v_persistent v) (v_autostart v) v
                else v)
      (filter (fun v => negb (net_named n v) || v_persistent v) vs).

Definition net_undefine (n : string) (vs : list vnet) : list vnet :=
  map (fun v => if net_named n v then set_net (v_active v) false false v
                else v)
      (filter (fun v => negb (net_named n v) || v_active v) vs).

Definition enslave (n m : string) (ls : list link) : list link :=
  map (fun l => if named n l then set_master (Some m) l else l) ls.

Definition ok (h : state) : Runner.spawned Z * state :=
  (Runner.Spawned 0%Z, h).

Definition failed (status : Z) (h : state) : Runner.spawned Z * state :=
  (Runner.Spawned status, h).

Definition apply (o : op) (h : state) : Runner.spawned Z * state :=
  match o with
  | LinkDel n =>
      if has_link n (links h) then ok (with_links (del_link n) h)
      else failed 1 h
  | LinkAddVxlan n vni dev =>
      if has_link n (links h) || negb (has_link dev (links h))
      then failed 2 h
      else ok (with_links (fun ls => ls ++ [new_vxlan n vni dev]) h)
  | LinkAddBridge n =>
      if has_link n (links h) then failed 2 h
      else ok (with_links (fun ls => ls ++ [new_bridge n]) h)
  | LinkSetMaster n m =>
      if has_link n (links h)
         && existsb (fun l => named m l && is_bridge l) (links h)
      then ok (with_links (enslave n m) h)
      else failed 2 h
  | FdbAppend ip n =>
      if existsb (fun l => named n l && is_vxlan l) (links h)
      then ok (with_links
                 (map (fun l => if named n l then fdb_add ip l else l)) h)
      else failed 255 h
  | NetDefine path =>
      match tmpfile h with
      | Some d =>
          if String.eqb path tmp_path && negb (has_net (nd_name d) (nets h))
          then ok (with_nets (fun vs => vs ++ [defined_net d]) h)
          else failed 1 h
      | None => failed 1 h
      end
  | NetStart n =>
      if existsb (fun v => net_named n v && negb (v_active v)) (nets h)
      then ok (with_nets (net_start n) h)
      else failed 1 h
  | NetAutostart n =>
      if existsb (fun v => net_named n v && v_persistent v) (nets h)
      then ok (with_nets (net_autostart n) h)
      else failed 1 h
  | NetDestroy n =>
      if existsb (fun v => net_named n v && v_active v) (nets h)
      then ok (with_nets (net_destroy n) h)
      else failed 1 h
  | NetUndefine n =>
      if existsb (fun v => net_named n v && v_persistent v) (nets h)
      then ok (with_nets (net_undefine n) h)
      else failed 1 h
  | Unmodelled => ok h
  end.

(** [ip -d --json addr]: a plain link that is a port of a bridge carries
    a ["linkinfo"] with the kind of its master only. *)
Definition iface_of (l : link) : iface :=
  {| ifname := l_name l;
     linkinfo :=
       match l_kind l with
       | Vxlan _ _ => Some {| info_kind := Some "vxlan" |}
       | Bridge => Some {| info_kind := Some "bridge" |}
       | Plain =>
           match l_master l with
           | Some _ => Some {| info_kind := None |}
           | None => None
           end
       end;
     addr_info := Some (map (fun a => {| local := Some a |}) (l_addrs l));
     fdb_dsts := None |}.

(** [bridge --json fdb]: one entry with a destination per flooded peer. *)
Definition fdb_of (l : link) : list fdb_entry :=
  map (fun ip => {| fdb_ifname := l_name l; dst := Some ip |}) (l_fdb l).

(** [virsh net-list --name]: the active networks, then an empty line. *)
Definition net_lines (vs : list vnet) : list string :=
  map (fun v => (v_name v ++ newline)%string) (filter v_active vs)
  ++ [newline].

#[export] Instance blade : Host :=
  {| host := state;
     exec := fun inv h => apply (parse inv) h;
     ip_addr := fun h => Parsed (map iface_of (links h));
     bridge_fdb := fun h => Parsed (flat_map fdb_of (links h));
     virsh_net_list := fun h => Lines (net_lines (nets h));
     open_config := fun path h =>
       if String.eqb path (config_path h) then Loaded (config h)
       else Unreadable "No such file or directory";
     temporary_file := fun _ _ => None;
     mktemp := fun d h => (TempFile tmp_path, with_tmpfile (Some d) h);
     rmtemp := fun _ h => with_tmpfile None h |}.

Fixpoint distinct (xs : list string) : bool :=
  match xs with
  | [] => true
  | x :: rest => negb (str_in x rest) && distinct rest
  end.

(** Links bear distinct names, and every master named by a link is a
    bridge of the blade. *)
Definition well_formed (h : state) : bool :=
  distinct (map l_name (links h))
  && forallb (fun l =>
                match l_master l with
                | Some m =>
                    existsb (fun b => named m b && is_bridge b) (links h)
                | None => true
                end) (links h).

(** The tunnel as [add_new_tunnel] and [connect_endpoints] leave it. *)
Definition flood (ips : list string) (l : link) : link :=
  fold_left (fun l ip => fdb_add ip l) ips l.

Definition tunnel_link (config : network_config) (found : string * string)
  : link :=
  flood (filter (fun ip => negb (String.eqb ip (snd found)))
                (endpoints_of config))
        (set_master (Some (bridge_of config))
                    (new_vxlan (tunnel_of config) (vxlan_id_of config)
                               (fst found))).

(** The network as [add_virtual_network] leaves it. *)
Definition registered (config : network_config) : vnet :=
  {| v_name := name_of config; v_bridge := bridge_of config;
     v_active := true; v_persistent := true; v_autostart := true |}.

(** The Underlay Resolver on the links themselves. *)
Definition underlay (ls : list link) (endpoint_ips : list string)
  : option (string * string) :=
  scan_interfaces (map (fun l => (l_name l, iface_of l)) ls) endpoint_ips.

(** The script running on the blade, with the calls made so far. *)
Definition running (h : state) (tr : list invocation) : @world blade :=
  {| w_host := h; w_trace := tr |}.

(** One reconciliation of a network on the blade as it stands: a fresh
    [NetworkInstaller], then [construct_virtual_network]. *)
Definition reconcile (config : network_config) (h : state)
  : result unit * state :=
  let w := running h [] in
  match __init__ w with
  | (Raise e, w') => (Raise e, w_host w')
  | (Ok installer, w') =>
      let (r, s) := construct_virtual_network config (installer, w') in
      (r, w_host (snd s))
  end.

(** The forwarding destinations of the device named [n]. *)
Definition fdb_dsts_of (n : string) (h : state) : list string :=
  match find (named n) (links h) with
  | Some l => l_fdb l
  | None => []
  end.

(** The links left once [construct_virtual_network] has removed what the
    snapshot [self] says is there, and the networks left once it has
    removed the registration the snapshot says is there. *)
Definition cleared (self : NetworkInstaller) (config : network_config)
           (ls : list link) : list link :=
  let ls1 :=
    if dict_mem (tunnel_of config) (interfaces self)
    then del_link (tunnel_of config) ls else ls in
  if dict_mem (bridge_of config) (interfaces self)
  then del_link (bridge_of config) ls1 else ls1.

Definition unregistered (self : NetworkInstaller) (config : network_config)
           (vs : list vnet) : list vnet :=
  if str_in (name_of config) (vnets self)
  then net_undefine (name_of config) (net_destroy (name_of config) vs)
  else vs.

(** The blade once the network has been built over the links [ls] and
    the networks [vs]. *)
Definition rebuilt (net : network_config) (found : string * string)
           (ls : list link) (vs : list vnet) (h : state) : state :=
  {| links := ls ++ [tunnel_link net found; new_bridge (bridge_of net)];
     nets := vs ++ [registered net];
     tmpfile := None;
     config_path := config_path h;
     config := config h |}.

End Blade.

(** ** A blade to try things on *)
Module Example.

Definition lo : Blade.link :=
  {| Blade.l_name := "lo"; Blade.l_kind := Blade.Plain;
     Blade.l_master := None; Blade.l_addrs := ["127.0.0.1"];
     Blade.l_fdb := [] |}.

Definition eth0 : Blade.link :=
  {| Blade.l_name := "eth0"; Blade.l_kind := Blade.Plain;
     Blade.l_master := None; Blade.l_addrs := ["10.0.0.2"];
     Blade.l_fdb := [] |}.

Definition fabric0 : network_config :=
  {| network_name := Some "fabric0"; tunnel_name := None;
     bridge_name := None; tunnel_id := Some 42%Z;
     endpoint_ips := Some ["10.0.0.1"; "10.0.0.2"; "10.0.0.3"] |}.

(** The same network with an endpoint list that misses the blade. *)
Definition misaddressed : network_config :=
  {| network_name := Some "fabric0"; tunnel_name := None;
     bridge_name := None; tunnel_id := Some 42%Z;
     endpoint_ips := Some ["10.9.9.1"; "10.9.9.3"] |}.

Definition libvirt : package :=
  {| blade_classes := None; preconfig_settings := None;
     packages := Some ["libvirt-daemon-system"];
     services_disable := None; services_enable := Some ["libvirtd"] |}.

Definition blade_yaml : blade_config :=
  {| cfg_networks := Some [("fabric0", fabric0)];
     cfg_packages := Some [("libvirt", libvirt)];
     cfg_blade_class := Some "compute" |}.

Definition bare_yaml : blade_config :=
  {| cfg_networks := None; cfg_packages := None; cfg_blade_class := None |}.

Definition default_net : Blade.vnet :=
  {| Blade.v_name := "default"; Blade.v_bridge := "virbr0";
     Blade.v_active := true; Blade.v_persistent := true;
     Blade.v_autostart := true |}.

Definition with_links (ls : list Blade.link) (config : blade_config)
  : Blade.state :=
  {| Blade.links := ls; Blade.nets := [default_net]; Blade.tmpfile := None;
     Blade.config_path := "/root/blade.yaml"; Blade.config := config |}.

(** A blade not yet touched. *)
Definition fresh : Blade.state := with_links [lo; eth0] blade_yaml.

(** The same blade with no network and no package declared. *)
Definition bare : Blade.state := with_links [lo; eth0] bare_yaml.

(** A blade where a plain interface bears the name of the tunnel. *)
Definition squatted : Blade.state :=
  with_links
    [lo; eth0;
     {| Blade.l_name := "fabric0"; Blade.l_kind := Blade.Plain;
        Blade.l_master := None; Blade.l_addrs := [];
        Blade.l_fdb := [] |}]
    blade_yaml.

(** A blade on which the network has been built before. *)
Definition built : Blade.state :=
  with_links
    [lo; eth0;
     {| Blade.l_name := "fabric0";
        Blade.l_kind := Blade.Vxlan "42" "eth0";
        Blade.l_master := Some "br-fabric0"; Blade.l_addrs := [];
        Blade.l_fdb := ["10.0.0.1"; "10.0.0.3"] |};
     Blade.new_bridge "br-fabric0"]
    blade_yaml.

(** A blade on which the tunnel and the bridge have just been created. *)
Definition tunnelled : Blade.state :=
  with_links
    [lo; eth0;
     {| Blade.l_name := "fabric0";
        Blade.l_kind := Blade.Vxlan "42" "eth0";
        Blade.l_master := Some "br-fabric0"; Blade.l_addrs := [];
        Blade.l_fdb := [] |};
     Blade.new_bridge "br-fabric0"]
    blade_yaml.

Definition no_installer : NetworkInstaller :=
  {| interfaces := []; vxlans := []; bridges := []; vnets := [] |}.

(** The [NetworkInstaller] built on a blade. *)
Definition snapshot (h : Blade.state) : NetworkInstaller :=
  match __init__ (Blade.running h []) with
  | (Ok self, _) => self
  | (Raise _, _) => no_installer
  end.


(** The blade once [Example.fabric0] has been reconciled on [fresh]. *)
Definition reconciled : Blade.state :=
  snd (Blade.reconcile fabric0 fresh).

(** An endpoint list that names a peer twice. *)
Definition repeated_ips : list string :=
  ["10.0.0.1"; "10.0.0.2"; "10.0.0.3"; "10.0.0.1"].

(** The calls [connect_endpoints] makes for it on the blade 10.0.0.2. *)
Definition mesh_calls : list invocation :=
  [fdb_append "10.0.0.1" "fabric0"; fdb_append "10.0.0.3" "fabric0";
   fdb_append "10.0.0.1" "fabric0"].


End Example.

(** ** The commands of a run, as plans *)
Section Plans.
Context {H : Host}.

(** A call of [run_cmd] with both defaults. *)
Definition call (cmd : string) (args : list string) : invocation :=
  {| inv_cmd := cmd; inv_args := args; inv_stdin := SysStdin;
     inv_timeout := None |}.

(** The calls of a list made one after the other. *)
Definition run_plan (plan : list invocation) : Sys unit :=
  for_each plan
    (fun inv => run_cmd (inv_cmd inv) (inv_args inv) (inv_stdin inv)
                        (inv_timeout inv)).

(** What [run_cmd] raises when the call [inv] fails with exit status or
    spawn result [child]. *)
Definition failure_of (inv : invocation) (child : Runner.spawned Z)
  : option exn :=
  match child with
  | Runner.SpawnFailed oserr =>
      Some (ContextualError
              (ExecutingFailed (cmdline (inv_cmd inv) (inv_args inv)) oserr))
  | Runner.Spawned exitval =>
      if (exitval =? 0)%Z then None
      else Some (ContextualError
                   (CommandFailed (cmdline (inv_cmd inv) (inv_args inv))))
  end.

(** The calls [setup_packages] makes when none fails. *)
Definition package_plan (pkgs : dict package) (blade_class : option string)
  : list invocation :=
  let settings := list_from_packages pkgs blade_class preconfig_settings in
  [call "apt" ["update"]; call "apt" ["upgrade"; "-y"]]
  ++ match settings with
     | [] => []
     | _ =>
         [{| inv_cmd := "debconf-set-selections"; inv_args := [];
             inv_stdin :=
               StdinFile (map (fun setting => (setting ++ newline)%string)
                              settings);
             inv_timeout := None |}]
     end
  ++ [call "apt"
           ("install" :: "-y" :: list_from_packages pkgs blade_class packages)]
  ++ map (fun service_name =>
            call "systemctl" ["disable"; "--now"; service_name])
         (list_from_packages pkgs blade_class services_disable)
  ++ map (fun service_name =>
            call "systemctl" ["enable"; "--now"; service_name])
         (list_from_packages pkgs blade_class services_enable).

(** The calls [add_new_tunnel] makes when none fails. *)
Definition tunnel_plan (tunnel bridge vxlan_id device : string)
  : list invocation :=
  [call "ip" ["link"; "add"; tunnel; "type"; "vxlan"; "id"; vxlan_id;
              "dev"; device; "dstport"; "0"];
   call "ip" ["link"; "add"; bridge; "type"; "bridge"];
   call "ip" ["link"; "set"; tunnel; "master"; bridge]].

(** The calls [connect_endpoints] makes when none fails. *)
Definition mesh_plan (tunnel : string) (endpoint_ips : list string)
           (local_ip_addr : string) : list invocation :=
  map (fun ip_addr => fdb_append ip_addr tunnel)
      (filter (fun ip_addr => negb (String.eqb ip_addr local_ip_addr))
              endpoint_ips).

(** The calls [remove_virtual_network] makes when none fails. *)
Definition unregister_plan (self : NetworkInstaller) (name : string)
  : list invocation :=
  if str_in name (vnets self)
  then [virsh "net-destroy" name; virsh "net-undefine" name]
  else [].

(** The calls of [construct_virtual_network] up to the definition of the
    network, when none fails and the underlay is [found]. *)
Definition build_plan (self : NetworkInstaller) (config : network_config)
           (found : string * string) : list invocation :=
  removals self config
  ++ tunnel_plan (tunnel_of config) (bridge_of config) (vxlan_id_of config)
                 (fst found)
  ++ mesh_plan (tunnel_of config) (endpoints_of config) (snd found)
  ++ unregister_plan self (name_of config).

(** Commands of the package phase and of the network phase of [main]. *)
Definition package_command (inv : invocation) : Prop :=
  In (inv_cmd inv) ["apt"; "debconf-set-selections"; "systemctl"].

Definition network_command (inv : invocation) : Prop :=
  In (inv_cmd inv) ["ip"; "bridge"; "virsh"].

(** Whether the package entry [pack] applies to the blade class. *)
Definition applies (pack : package) (blade_class : option string) : Prop :=
  blade_classes pack = None
  \/ exists classes c,
      blade_classes pack = Some classes /\ blade_class = Some c
      /\ In c classes.

(** The destinations of the forwarding entries of [entries] for the
    interface [n], in their order. *)
Definition dsts_for (n : string) (entries : list fdb_entry) : list string :=
  flat_map (fun e =>
              match dst e with
              | Some ip => if String.eqb (fdb_ifname e) n then [ip] else []
              | None => []
              end) entries.

(** An interface with the destinations [l] folded in. *)
Definition with_fdb (l : list string) (i : iface) : iface :=
  match l with
  | [] => i
  | _ =>
      {| ifname := ifname i; linkinfo := linkinfo i;
         addr_info := addr_info i;
         fdb_dsts := Some (match fdb_dsts i with Some l0 => l0 | None => [] end
                           ++ l) |}
  end.

End Plans.

(** ** The platform deployment script

    [vtds_platform_ubuntu/private/scripts/deploy_platform_to_blade.py]:
    its [run_cmd] takes a [check] flag and returns the exit status, its
    [prepare_package_installer] makes one more call, and its [main] takes
    the blade class as an argument and sets up packages only.
    [read_config] and [entrypoint] are those of the other script. *)
Module PlatformScript.

(** The tail of [run_cmd]: [exitval != 0 and check]. *)
Definition check_status (cmd : string) (args : list string)
           (signaled check : bool) (exitval : Z) : result Z :=
  if negb (exitval =? 0)%Z && check then
    Raise (ContextualError
             (if negb signaled then CommandFailed (cmdline cmd args)
              else CommandTimedOutKilled (cmdline cmd args)))
  else Ok exitval.

(** [run_cmd(cmd, args, stdin, timeout, check)] seen from the child. *)
Definition run_child {S} (P : Runner.process S) (child : Runner.spawned S)
           (cmd : string) (args : list string) (timeout : option Z)
           (check : bool) (fuel : nat)
  : list Runner.action * option (result Z) :=
  match child with
  | Runner.SpawnFailed oserr =>
      ([], Some (Raise (ContextualError
                          (ExecutingFailed (cmdline cmd args) oserr))))
  | Runner.Spawned st =>
      let time := 0%Z in
      let signaled := false in
      match Runner.poll P cmd args timeout fuel time signaled st with
      | (log, Runner.Polling) => (log, None)
      | (log, Runner.Raised e) => (log, Some (Raise e))
      | (log, Runner.Broke exitval) =>
          (log, Some (check_status cmd args signaled check exitval))
      end
  end.

Section Script.
Context {H : Host}.

(** [run_cmd(cmd, args, stdin, timeout, check)] for a command that comes
    to an end. *)
Definition run_cmd (cmd : string) (args : list string)
           (stdin : stdin_src) (timeout : option Z) (check : bool) : Sys Z :=
  fun w =>
    let inv := {| inv_cmd := cmd; inv_args := args;
                  inv_stdin := stdin; inv_timeout := timeout |} in
    let (child, h) := exec inv (w_host w) in
    let w' := {| w_host := h; w_trace := w_trace w ++ [inv] |} in
    match child with
    | Runner.SpawnFailed oserr =>
        (Raise (ContextualError (ExecutingFailed (cmdline cmd args) oserr)),
         w')
    | Runner.Spawned exitval =>
        (check_status cmd args false check exitval, w')
    end.

(** [run_cmd(cmd, args)]: all defaults, the status dropped. *)
Definition run_cmd2 (cmd : string) (args : list string) : Sys unit :=
  run_cmd cmd args SysStdin None true ;; ret tt.

Definition prepare_package_installer : Sys unit :=
  run_cmd2 "apt" ["update"] ;;
  run_cmd2 "apt" ["upgrade"; "-y"] ;;
  run_cmd "apt" ["install"; "-y"; "apt-utils"; "apt"] SysStdin None false ;;
  ret tt.

Definition preconfigure_packages (settings : list string) : Sys unit :=
  match settings with
  | [] => ret tt
  | _ =>
      let data := map (fun setting => (setting ++ newline)%string) settings in
      with_temporary_file
        data
        (run_cmd "debconf-set-selections" [] (StdinFile data) None true ;;
         ret tt)
  end.

Definition install_packages (pkgs : list string) : Sys unit :=
  run_cmd2 "apt" ("install" :: "-y" :: pkgs).

Definition disable_services (service_names : list string) : Sys unit :=
  for_each service_names
    (fun service_name =>
       run_cmd2 "systemctl" ["disable"; "--now"; service_name]).

Definition enable_services (service_names : list string) : Sys unit :=
  for_each service_names
    (fun service_name =>
       run_cmd2 "systemctl" ["enable"; "--now"; service_name]).

Definition setup_packages (pkgs : dict package)
           (blade_class : option string) : Sys unit :=
  prepare_package_installer ;;
  preconfigure_packages
    (list_from_packages pkgs blade_class preconfig_settings) ;;
  install_packages (list_from_packages pkgs blade_class packages) ;;
  disable_services (list_from_packages pkgs blade_class services_disable) ;;
  enable_services (list_from_packages pkgs blade_class services_enable).

Definition main (argv : list string) : Sys unit :=
  match argv with
  | [] => raise (UsageError "no arguments provided")
  | [_] => raise (UsageError "too few arguments")
  | [blade_class; config_path] =>
      config <- read_config config_path ;;
      let pkgs := packages_of config in
      setup_packages pkgs (Some blade_class)
  | _ => raise (UsageError "too many arguments")
  end.

(** The unchecked call of [prepare_package_installer]. *)
Definition apt_utils : invocation :=
  call "apt" ["install"; "-y"; "apt-utils"; "apt"].

End Script.

End PlatformScript.

(** ** The platform layer

    [vtds_platform_ubuntu/private/private_platform.py],
    [vtds_platform_ubuntu/platform.py] and
    [vtds_platform_common/private/private_platform.py]: the layer that
    computes the endpoint IPs of every network, writes the blade
    configuration and runs the deployment script on every blade.  Its
    [ContextualError] is the one of [vtds_base], not the one of the
    scripts. *)
Module Layer.

(** The messages of the layer's [ContextualError]. *)
Inductive complaint : Type :=
| NoInterconnect
    (* "network configuration '%s' does not specify 'blade_interconnect'" *)
| CannotValidate
    (* "cannot validate an unprepared platform, call prepare() first" *)
| CannotDeploy
    (* "cannot deploy an unprepared platform, call prepare() first" *)
| NoPlatformConfiguration
    (* "no platform configuration found in top level configuration" *)
| Reported (msg : string).
    (* raised by [vtds_base.run] *)

Inductive error : Type :=
| Contextual (c : complaint)
| OS (oserr : string)
| Attribute (name : string).

Inductive outcome (A : Type) : Type :=
| Done (a : A)
| Failed (e : error).
Arguments Done {A} a.
Arguments Failed {A} e.

(** A network of the platform configuration: the keys the layer reads,
    and those the blade script reads, ['endpoint_ips'] among them. *)
Record network : Type := {
  n_interconnect : option string;
  n_classes : option (list string);
  n_spec : network_config
}.

(** The platform configuration, which is also what is written for the
    blades. *)
Record platform_config : Type := {
  p_networks : option (dict network);
  p_packages : option (dict package);
  p_blade_class : option string
}.

(** A connection to a blade, as the provider layer gives it. *)
Record connection : Type := {
  conn_blade_type : string;
  conn_local_ip : string;
  conn_local_port : Z;
  conn_blade_hostname : string
}.

(** The virtual blades of the provider layer. *)
Record virtual_blades : Type := {
  blade_types : list string;
  blade_count : string -> nat;
  blade_ip : string -> nat -> string -> string;
  connect_blade : Z -> string -> nat -> connection;
  blade_ssh_key_paths : string -> string * string
}.

(** One call of [vtds_base.run]: the command and the two log paths. *)
Definition run_call : Type := (list string * (string * string))%type.

(** What the layer uses of its surroundings: [vtds_base.run], the file
    it writes with [safe_dump], and the console. *)
Class Base : Type := {
  env : Type;
  run : list string -> string * string -> env -> outcome unit * env;
  dump : string -> platform_config -> env -> outcome unit * env
}.

(** [network['endpoint_ips'] = ips] *)
Definition set_endpoint_ips (ips : list string) (n : network) : network :=
  {| n_interconnect := n_interconnect n;
     n_classes := n_classes n;
     n_spec :=
       {| network_name := network_name (n_spec n);
          tunnel_name := tunnel_name (n_spec n);
          bridge_name := bridge_name (n_spec n);
          tunnel_id := tunnel_id (n_spec n);
          endpoint_ips := Some ips |} |}.

(** The list [__add_endpoint_ips] computes. *)
Definition all_endpoint_ips (vb : virtual_blades)
           (blade_classes : list string) (interconnect : string)
  : list string :=
  flat_map
    (fun blade_class =>
       map (fun instance => blade_ip vb blade_class instance interconnect)
           (seq 0 (blade_count vb blade_class)))
    blade_classes.

(** [PrivatePlatform.__add_endpoint_ips], with the virtual blades of
    [self.provider_api]. *)
Definition __add_endpoint_ips (vb : virtual_blades) (n : network)
  : outcome network :=
  match n_interconnect n with
  | None => Failed (Contextual NoInterconnect)
  | Some interconnect =>
      let blade_classes :=
        match n_classes n with
        | None => blade_types vb
        | Some l => l
        end in
      Done (set_endpoint_ips
              (all_endpoint_ips vb blade_classes interconnect) n)
  end.

(** The dictionary comprehension of [prepare]: the networks are changed
    in place one after the other, up to the first that fails. *)
Fixpoint add_all (vb : virtual_blades) (items : list (string * network))
  : list (string * network) * option error :=
  match items with
  | [] => ([], None)
  | (key, n) :: rest =>
      match __add_endpoint_ips vb n with
      | Failed e => ((key, n) :: rest, Some e)
      | Done n' =>
          let (rest', r) := add_all vb rest in
          ((key, n') :: rest', r)
      end
  end.

(** The state of the ubuntu [PrivatePlatform]. *)
Record platform : Type := {
  config : platform_config;
  provider_api : option virtual_blades;
  build_dir : string;
  blade_config_path : string;
  prepared : bool
}.

Definition with_networks (nets : option (dict network)) (c : platform_config)
  : platform_config :=
  {| p_networks := nets; p_packages := p_packages c;
     p_blade_class := p_blade_class c |}.

Definition with_config (c : platform_config) (self : platform) : platform :=
  {| config := c; provider_api := provider_api self;
     build_dir := build_dir self;
     blade_config_path := blade_config_path self;
     prepared := prepared self |}.

Definition with_provider (vb : virtual_blades) (self : platform) : platform :=
  {| config := config self; provider_api := Some vb;
     build_dir := build_dir self;
     blade_config_path := blade_config_path self;
     prepared := prepared self |}.

Definition with_prepared (b : bool) (self : platform) : platform :=
  {| config := config self; provider_api := provider_api self;
     build_dir := build_dir self;
     blade_config_path := blade_config_path self;
     prepared := b |}.

(** The operations of the layer, for stating what sequences of them do. *)
Inductive operation : Type := Prepare | Validate | Deploy | Remove.

Section Ubuntu.
Context {B : Base}.

(** [os.path.join], [vtds_base.log_paths], the two constants of the
    package and the virtual blades of the stack's provider layer. *)
Variable path_join : string -> string -> string.
Variable log_paths : string -> string -> string * string.
Variables DEPLOY_SCRIPT_PATH DEPLOY_SCRIPT_NAME : string.
Variable stack : virtual_blades.

(** The layer object, its surroundings, and the calls of [run] made. *)
Record world : Type := {
  self : platform;
  surroundings : env;
  runs : list run_call;
  console : list string
}.

Definition with_self (f : platform -> platform) (w : world) : world :=
  {| self := f (self w); surroundings := surroundings w; runs := runs w;
     console := console w |}.

(** [PrivatePlatform(stack, config, build_dir)] *)
Definition new (platform_cfg : platform_config) (dir : string) : platform :=
  {| config := platform_cfg; provider_api := None; build_dir := dir;
     blade_config_path := path_join dir "blade_config.yaml";
     prepared := false |}.

Definition prepare (w : world) : outcome unit * world :=
  let w1 := with_self (with_provider stack) w in
  let blade_config := config (self w1) in
  let present := p_networks blade_config in
  let networks := match present with Some d => d | None => [] end in
  match add_all stack networks with
  | (changed, Some e) =>
      (Failed e,
       with_self
         (with_config
            (with_networks
               (match present with Some _ => Some changed | None => None end)
               blade_config))
         w1)
  | (changed, None) =>
      let written := with_networks (Some (dict_of fst snd changed))
                                   blade_config in
      let w2 := with_self (with_config written) w1 in
      match dump (blade_config_path (self w2)) written (surroundings w2) with
      | (Failed e, sur) =>
          (Failed e,
           {| self := self w2; surroundings := sur; runs := runs w2;
              console := console w2 |})
      | (Done _, sur) =>
          (Done tt,
           {| self := with_prepared true (self w2); surroundings := sur;
              runs := runs w2; console := console w2 |})
      end
  end.

Definition validate (w : world) : outcome unit * world :=
  if negb (prepared (self w)) then (Failed (Contextual CannotValidate), w)
  else (Done tt, w).

Definition remove (w : world) : outcome unit * world :=
  if negb (prepared (self w)) then (Failed (Contextual CannotDeploy), w)
  else (Done tt, w).

(** One call of [run], recorded. *)
Definition run_logged (cmd : list string) (logs : string * string)
           (w : world) : outcome unit * world :=
  let (r, sur) := run cmd logs (surroundings w) in
  (r, {| self := self w; surroundings := sur;
         runs := runs w ++ [(cmd, logs)]; console := console w |}).

Definition info_msg (msg : string) (w : world) : world :=
  {| self := self w; surroundings := surroundings w; runs := runs w;
     console := console w ++ [("INFO: " ++ msg)%string] |}.

(** The three calls [deploy] makes for a blade. *)
Definition copy_config (dir config_path : string) (c : connection)
           (key : string) (options : list string) : run_call :=
  ("scp" :: "-i" :: key :: options
   ++ [config_path;
       ("root@" ++ conn_local_ip c ++ ":blade_config.yaml")%string],
   log_paths dir ("copy-config-to-" ++ conn_blade_hostname c)%string).

Definition copy_script (dir : string) (c : connection)
           (key : string) (options : list string) : run_call :=
  ("scp" :: "-i" :: key :: options
   ++ [DEPLOY_SCRIPT_PATH;
       ("root@" ++ conn_local_ip c ++ ":" ++ DEPLOY_SCRIPT_NAME)%string],
   log_paths dir ("copy-deploy-script-to-" ++ conn_blade_hostname c)%string).

Definition run_script (dir : string) (c : connection)
           (key : string) (options : list string) : run_call :=
  ("ssh" :: "-i" :: key :: options
   ++ [("root@" ++ conn_local_ip c)%string;
       ("chmod 755 ./" ++ DEPLOY_SCRIPT_NAME ++ "; python3 ./"
        ++ DEPLOY_SCRIPT_NAME ++ " " ++ conn_blade_type c
        ++ " blade_config.yaml")%string],
   log_paths dir ("run-deploy-script-on-" ++ conn_blade_hostname c)%string).

Definition ssh_options (c : connection) : list string :=
  ["-o"; "BatchMode=yes";
   "-o"; "NoHostAuthenticationForLocalhost=yes";
   "-o"; "StrictHostKeyChecking=no";
   "-o"; ("Port=" ++ str_of_int (conn_local_port c))%string].

(** The body of the [with ... as connection] block. *)
Definition deploy_blade (vb : virtual_blades) (c : connection) (w : world)
  : outcome unit * world :=
  let blade_type := conn_blade_type c in
  let key := snd (blade_ssh_key_paths vb blade_type) in
  let options := ssh_options c in
  let dir := build_dir (self w) in
  let call1 := copy_config dir (blade_config_path (self w)) c key options in
  match run_logged (fst call1) (snd call1) w with
  | (Failed e, w1) => (Failed e, w1)
  | (Done _, w1) =>
      let call2 := copy_script dir c key options in
      match run_logged (fst call2) (snd call2) w1 with
      | (Failed e, w2) => (Failed e, w2)
      | (Done _, w2) =>
          let w3 :=
            info_msg ("setting up platform on '" ++ conn_blade_hostname c
                      ++ "'")%string w2 in
          let call3 := run_script dir c key options in
          run_logged (fst call3) (snd call3) w3
      end
  end.

(** The inner loop of [deploy]: [blade_type] is assigned from the
    connection in the block and read by the next iteration. *)
Fixpoint deploy_instances (vb : virtual_blades) (blade_type : string)
         (instances : list nat) (w : world) : outcome unit * world :=
  match instances with
  | [] => (Done tt, w)
  | instance :: rest =>
      let c := connect_blade vb 22%Z blade_type instance in
      match deploy_blade vb c w with
      | (Failed e, w') => (Failed e, w')
      | (Done _, w') => deploy_instances vb (conn_blade_type c) rest w'
      end
  end.

(** The outer loop of [deploy]. *)
Fixpoint deploy_types (vb : virtual_blades) (types : list string) (w : world)
  : outcome unit * world :=
  match types with
  | [] => (Done tt, w)
  | blade_type :: rest =>
      match deploy_instances vb blade_type
                             (seq 0 (blade_count vb blade_type)) w with
      | (Failed e, w') => (Failed e, w')
      | (Done _, w') => deploy_types vb rest w'
      end
  end.

Definition deploy (w : world) : outcome unit * world :=
  if negb (prepared (self w)) then (Failed (Contextual CannotDeploy), w)
  else
    match provider_api (self w) with
    | None => (Failed (Attribute "'NoneType' object"), w)
    | Some vb => deploy_types vb (blade_types vb) w
    end.

(** [LayerAPI(stack, config, build_dir)] of [platform.py]: [platform_cfg]
    is [config.get('platform', None)]. *)
Definition LayerAPI (platform_cfg : option platform_config) (dir : string)
  : outcome platform :=
  match platform_cfg with
  | None => Failed (Contextual NoPlatformConfiguration)
  | Some c => Done (new c dir)
  end.

(** A method of [LayerAPI], which hands over to the private object. *)
Definition perform (o : operation) (w : world) : outcome unit * world :=
  match o with
  | Prepare => prepare w
  | Validate => validate w
  | Deploy => deploy w
  | Remove => remove w
  end.

(** Operations performed one after the other by a caller that goes on
    after a failure, with their outcomes. *)
Fixpoint perform_all (ops : list operation) (w : world)
  : list (outcome unit) * world :=
  match ops with
  | [] => ([], w)
  | o :: rest =>
      let (r, w1) := perform o w in
      let (rs, w2) := perform_all rest w1 in
      (r :: rs, w2)
  end.

(** The calls [deploy] makes for the blades of one type, then of all,
    when none fails. *)
Fixpoint instance_calls (vb : virtual_blades) (dir config_path : string)
         (blade_type : string) (instances : list nat) : list run_call :=
  match instances with
  | [] => []
  | instance :: rest =>
      let c := connect_blade vb 22%Z blade_type instance in
      let key := snd (blade_ssh_key_paths vb (conn_blade_type c)) in
      [copy_config dir config_path c key (ssh_options c);
       copy_script dir c key (ssh_options c);
       run_script dir c key (ssh_options c)]
      ++ instance_calls vb dir config_path (conn_blade_type c) rest
  end.

Definition deploy_calls (vb : virtual_blades) (dir config_path : string)
  : list run_call :=
  flat_map (fun blade_type =>
              instance_calls vb dir config_path blade_type
                             (seq 0 (blade_count vb blade_type)))
           (blade_types vb).

End Ubuntu.

(** The common [PrivatePlatform]: a flag and what it prints. *)
Module Common.

Record platform : Type := {
  prepared : bool;
  printed : list string
}.

Definition new : platform := {| prepared := false; printed := [] |}.

Definition print (line : string) (self : platform) : platform :=
  {| prepared := prepared self; printed := printed self ++ [line] |}.

Definition prepare (self : platform) : outcome unit * platform :=
  (Done tt,
   print "Preparing vtds-platform-common"
         {| prepared := true; printed := printed self |}).

Definition validate (self : platform) : outcome unit * platform :=
  if negb (prepared self) then (Failed (Contextual CannotValidate), self)
  else (Done tt, print "Validating vtds-platform-common" self).

Definition deploy (self : platform) : outcome unit * platform :=
  if negb (prepared self) then (Failed (Contextual CannotDeploy), self)
  else (Done tt, print "Deploying vtds-platform-common" self).

Definition remove (self : platform) : outcome unit * platform :=
  if negb (prepared self) then (Failed (Contextual CannotDeploy), self)
  else (Done tt, print "Removing vtds-platform-common" self).

Definition perform (o : operation) (self : platform)
  : outcome unit * platform :=
  match o with
  | Prepare => prepare self
  | Validate => validate self
  | Deploy => deploy self
  | Remove => remove self
  end.

Fixpoint perform_all (ops : list operation) (self : platform)
  : list (outcome unit) * platform :=
  match ops with
  | [] => ([], self)
  | o :: rest =>
      let (r, s1) := perform o self in
      let (rs, s2) := perform_all rest s1 in
      (r :: rs, s2)
  end.

End Common.

End Layer.

(** ** Notions for stating what the scripts do *)

(** The exceptions a computation may raise. *)
Definition only_raises {St A} (P : exn -> Prop) (c : M St A) : Prop :=
  forall s e, fst (c s) = Raise e -> P e.

(** The entry [ip] printed last under the name [n]: the one the
    dictionary of [_get_interfaces] keeps. *)
Definition listed (n : string) (if_data : list iface) : option iface :=
  find (fun i => String.eqb (ifname i) n) (rev if_data).

(** [bool(name)] for a string. *)
Definition nonempty (name : string) : bool :=
  negb (String.eqb name EmptyString).

(** A test double: canned discovery output, and commands that exit with
    the status [status] gives them. *)
Definition exiting (status : invocation -> Z) (ifs : list iface)
           (config : config_file) : Host :=
  {| host := unit;
     exec := fun inv h => (Runner.Spawned (status inv), h);
     ip_addr := fun _ => Parsed ifs;
     bridge_fdb := fun _ => Parsed [];
     virsh_net_list := fun _ => Lines [newline];
     open_config := fun _ _ => config;
     temporary_file := fun _ _ => None;
     mktemp := fun _ h => (TempFile "/tmp/net.xml", h);
     rmtemp := fun _ h => h |}.

(** ** More blades to try things on *)
Module Scenario.

(** A blade whose [eth1] is a port of a bridge of its own. *)
Definition ported : Blade.state :=
  Example.with_links
    [Example.lo; Example.eth0;
     Blade.new_bridge "br0";
     {| Blade.l_name := "eth1"; Blade.l_kind := Blade.Plain;
        Blade.l_master := Some "br0"; Blade.l_addrs := [];
        Blade.l_fdb := [] |}]
    Example.blade_yaml.

(** [apt] cannot install [apt-utils]; everything else works. *)
Definition no_apt_utils : Host :=
  exiting (fun inv =>
             if String.eqb (cmdline (inv_cmd inv) (inv_args inv))
                           "apt install -y apt-utils apt"
             then 100%Z else 0%Z)
          [Blade.iface_of Example.eth0] (Loaded Example.blade_yaml).

Definition at_rest : @world no_apt_utils :=
  @Build_world no_apt_utils (tt <: @host no_apt_utils) [].

(** Another tunnel, a port of the bridge of [Example.fabric0]. *)
Definition vxlan7 : Blade.link :=
  {| Blade.l_name := "vxlan7"; Blade.l_kind := Blade.Vxlan "7" "eth0";
     Blade.l_master := Some "br-fabric0"; Blade.l_addrs := [];
     Blade.l_fdb := ["10.0.0.9"] |}.

(** The blade of [Example.built] with that tunnel attached. *)
Definition attached : Blade.state :=
  Example.with_links (Blade.links Example.built ++ [vxlan7])
                     Example.blade_yaml.

End Scenario.

(** ** Notions for stating what the platform layer does *)

(** The blade classes a network connects: the ones it names, or all. *)
Definition classes_of (vb : Layer.virtual_blades) (n : Layer.network)
  : list string :=
  match Layer.n_classes n with
  | None => Layer.blade_types vb
  | Some l => l
  end.

(** The networks of a platform configuration. *)
Definition networks_in (c : Layer.platform_config)
  : dict Layer.network :=
  match Layer.p_networks c with Some d => d | None => [] end.

(** A network and what [__add_endpoint_ips] has made of it. *)
Definition listed_endpoints (vb : Layer.virtual_blades)
           (before after : string * Layer.network) : Prop :=
  fst after = fst before
  /\ exists interconnect,
      Layer.n_interconnect (snd before) = Some interconnect
      /\ snd after
         = Layer.set_endpoint_ips
             (Layer.all_endpoint_ips vb (classes_of vb (snd before))
                                     interconnect)
             (snd before).

(** A step of the layer that leaves the object alone and makes the calls
    [calls] of [run], up to the first that fails. *)
Definition makes_calls {B : Layer.Base} (calls : list Layer.run_call)
           (w : Layer.world) (r : Layer.outcome unit * Layer.world) : Prop :=
  Layer.self (snd r) = Layer.self w
  /\ (fst r = Layer.Done tt -> Layer.runs (snd r) = Layer.runs w ++ calls)
  /\ (forall e, fst r = Layer.Failed e ->
                exists issued failing rest,
                  calls = issued ++ failing :: rest
                  /\ Layer.runs (snd r)
                     = Layer.runs w ++ issued ++ [failing]).

(** ** A site to try the layer on *)
Module Site.

(** Surroundings that record what is written, and where every command
    succeeds. *)
Definition recording : Layer.Base :=
  {| Layer.env := list (string * Layer.platform_config);
     Layer.run := fun _ _ written => (Layer.Done tt, written);
     Layer.dump := fun path c written =>
                     (Layer.Done tt, written ++ [(path, c)]) |}.

(** Three blades of one class, addressed 10.0.0.1 to 10.0.0.3. *)
Definition blades : Layer.virtual_blades :=
  {| Layer.blade_types := ["compute"];
     Layer.blade_count := fun _ => 3%nat;
     Layer.blade_ip := fun _ instance _ =>
                         ("10.0.0." ++ str_of_int (Z.of_nat (S instance)))
                           %string;
     Layer.connect_blade :=
       fun _ blade_type instance =>
         {| Layer.conn_blade_type := blade_type;
            Layer.conn_local_ip := "127.0.0.1";
            Layer.conn_local_port := 2200 + Z.of_nat instance;
            Layer.conn_blade_hostname :=
              (blade_type ++ "-" ++ str_of_int (Z.of_nat instance))%string |};
     Layer.blade_ssh_key_paths := fun _ => ("/keys/id.pub", "/keys/id") |}.

(** The network of [Example.fabric0] as the platform configuration has
    it, before the endpoints are known. *)
Definition fabric : Layer.network :=
  {| Layer.n_interconnect := Some "interconnect0";
     Layer.n_classes := None;
     Layer.n_spec :=
       {| network_name := Some "fabric0"; tunnel_name := None;
          bridge_name := None; tunnel_id := Some 42%Z;
          endpoint_ips := None |} |}.

(** A network that names no interconnect. *)
Definition loose : Layer.network :=
  {| Layer.n_interconnect := None;
     Layer.n_classes := None;
     Layer.n_spec :=
       {| network_name := Some "loose0"; tunnel_name := None;
          bridge_name := None; tunnel_id := Some 43%Z;
          endpoint_ips := None |} |}.

Definition platform_yaml : Layer.platform_config :=
  {| Layer.p_networks := Some [("fabric0", fabric)];
     Layer.p_packages := Some [("libvirt", Example.libvirt)];
     Layer.p_blade_class := None |}.

Definition faulty_yaml : Layer.platform_config :=
  {| Layer.p_networks := Some [("fabric0", fabric); ("loose0", loose)];
     Layer.p_packages := None;
     Layer.p_blade_class := None |}.

Definition path_join (dir file : string) : string :=
  (dir ++ "/" ++ file)%string.

Definition log_paths (dir name : string) : string * string :=
  ((dir ++ "/" ++ name ++ ".out")%string,
   (dir ++ "/" ++ name ++ ".err")%string).

(** The layer just constructed on a configuration. *)
Definition start (c : Layer.platform_config) : @Layer.world recording :=
  @Layer.Build_world recording (Layer.new path_join c "/build")
                     (@nil (string * Layer.platform_config)
                      <: @Layer.env recording) [] [].

End Site.

(** ** Blades on which a network can be built *)

(** No plain link is a port of a bridge: [ip] gives every interface that
    has a ["linkinfo"] an ["info_kind"]. *)
Definition no_plain_port (h : Blade.state) : bool :=
  forallb (fun l =>
             match Blade.l_kind l, Blade.l_master l with
             | Blade.Plain, Some _ => false
             | _, _ => true
             end) (Blade.links h).

(** The links named [n], if any, are of the kind [kind]. *)
Definition name_kept_for (n : string) (kind : Blade.link -> bool)
           (h : Blade.state) : bool :=
  forallb (fun l => negb (Blade.named n l) || kind l) (Blade.links h).

(** An address of the blade is an endpoint, and the first device that
    has one is neither the tunnel nor the bridge of the network. *)
Definition underlay_apart (config : network_config) (h : Blade.state)
  : bool :=
  match Blade.underlay (Blade.links h) (endpoints_of config) with
  | Some found =>
      negb (String.eqb (fst found) (tunnel_of config))
      && negb (String.eqb (fst found) (bridge_of config))
  | None => false
  end.

(** The network has a name, libvirt knows no two networks by one name,
    and a network it knows by that name is active and persistent. *)
Definition registry_ready (config : network_config) (h : Blade.state)
  : bool :=
  nonempty (name_of config)
  && Blade.distinct (map Blade.v_name (Blade.nets h))
  && forallb (fun v =>
                negb (Blade.net_named (name_of config) v)
                || (Blade.v_active v && Blade.v_persistent v))
             (Blade.nets h).

Definition buildable (config : network_config) (h : Blade.state) : bool :=
  Blade.well_formed h
  && no_plain_port h
  && name_kept_for (tunnel_of config) Blade.is_vxlan h
  && name_kept_for (bridge_of config) Blade.is_bridge h
  && negb (String.eqb (tunnel_of config) (bridge_of config))
  && underlay_apart config h
  && registry_ready config h.

(** A link as the removal of the links named [t] and [b] leaves it. *)
Definition released (t b : string) (l : Blade.link) : Blade.link :=
  if Blade.mastered_by t l || Blade.mastered_by b l
  then Blade.set_master None l else l.

(** * Properties *)

(** Split a conjunction into its parts, and nothing else. *)
Ltac splits := repeat match goal with |- _ /\ _ => split end.

(** ** Strings, lists and dictionaries *)

Lemma str_in_In (x : string) (xs : list string) :
  str_in x xs = true <-> In x xs.
Proof.
  unfold str_in. rewrite existsb_exists. split.
  - intros [y [Hy Heq]]. apply String.eqb_eq in Heq. now subst.
  - intros Hin. exists x. split; [assumption | apply String.eqb_refl].
Qed.

Lemma str_in_false (x : string) (xs : list string) :
  str_in x xs = false <-> ~ In x xs.
Proof.
  rewrite <- str_in_In. destruct (str_in x xs); split; congruence.
Qed.

Lemma find_app {A} (f : A -> bool) (l1 l2 : list A) :
  find f (l1 ++ l2) =
  match find f l1 with Some a => Some a | None => find f l2 end.
Proof.
  induction l1 as [|a l1 IH]; simpl; [reflexivity|].
  destruct (f a); [reflexivity | exact IH].
Qed.

Lemma dict_mem_keys {V} (k : string) (d : dict V) :
  dict_mem k d = true <-> In k (dict_keys d).
Proof.
  unfold dict_mem. induction d as [|[k' v] d IH]; simpl.
  - split; [discriminate | tauto].
  - destruct (String.eqb_spec k k') as [->|Hne].
    + split; auto.
    + rewrite IH. split; [auto | intros [Heq|Hin]; congruence].
Qed.

Lemma dict_get_In {V} (k : string) (v : V) (d : dict V) :
  dict_get k d = Some v -> In (k, v) d.
Proof.
  induction d as [|[k' v'] d IH]; simpl; [discriminate|].
  destruct (String.eqb_spec k k') as [->|Hne].
  - intros [= ->]. now left.
  - intros Hget. right. now apply IH.
Qed.

Lemma In_dict_get {V} (k : string) (v : V) (d : dict V) :
  NoDup (dict_keys d) -> In (k, v) d -> dict_get k d = Some v.
Proof.
  induction d as [|[k' v'] d IH]; simpl; [tauto|].
  intros Hnd [Heq|Hin].
  - injection Heq as -> ->. now rewrite String.eqb_refl.
  - inversion Hnd as [|? ? Hnotin Hnd']; subst.
    destruct (String.eqb_spec k k') as [->|Hne].
    + exfalso. apply Hnotin. unfold dict_keys.
      change k' with (fst (k', v)). now apply in_map.
    + now apply IH.
Qed.

Lemma dict_set_keys_present {V} (k : string) (v : V) (d : dict V) :
  In k (dict_keys d) -> dict_keys (dict_set k v d) = dict_keys d.
Proof.
  induction d as [|[k' v'] d IH]; simpl; [tauto|].
  intros Hin. destruct (String.eqb_spec k k') as [->|Hne]; simpl.
  - reflexivity.
  - f_equal. apply IH. destruct Hin; congruence.
Qed.

Lemma dict_set_keys_absent {V} (k : string) (v : V) (d : dict V) :
  ~ In k (dict_keys d) -> dict_keys (dict_set k v d) = dict_keys d ++ [k].
Proof.
  induction d as [|[k' v'] d IH]; simpl; [reflexivity|].
  intros Hnotin. destruct (String.eqb_spec k k') as [->|Hne]; simpl.
  - exfalso. auto.
  - f_equal. apply IH. auto.
Qed.

Lemma dict_set_NoDup {V} (k : string) (v : V) (d : dict V) :
  NoDup (dict_keys d) -> NoDup (dict_keys (dict_set k v d)).
Proof.
  intros Hnd. destruct (in_dec string_dec k (dict_keys d)) as [Hin|Hnotin].
  - now rewrite dict_set_keys_present.
  - rewrite dict_set_keys_absent by assumption.
    apply NoDup_app; [assumption | repeat constructor; simpl; tauto |].
    intros x Hx [<-|[]]. contradiction.
Qed.

Lemma dict_set_mem {V} (k k' : string) (v : V) (d : dict V) :
  In k (dict_keys (dict_set k' v d)) <-> k = k' \/ In k (dict_keys d).
Proof.
  destruct (in_dec string_dec k' (dict_keys d)) as [Hin|Hnotin].
  - rewrite dict_set_keys_present by assumption.
    split; [auto | intros [->|?]; assumption].
  - rewrite dict_set_keys_absent by assumption.
    rewrite in_app_iff. simpl. intuition auto.
Qed.

Lemma dict_of_spec {A V} (key : A -> string) (val : A -> V) (xs : list A) :
  NoDup (dict_keys (dict_of key val xs))
  /\ forall k, In k (dict_keys (dict_of key val xs)) <-> In k (map key xs).
Proof.
  unfold dict_of.
  assert (Hgen : forall acc : dict V,
             NoDup (dict_keys acc) ->
             NoDup (dict_keys
                      (fold_left (fun d x => dict_set (key x) (val x) d)
                                 xs acc))
             /\ forall k,
                 In k (dict_keys
                         (fold_left (fun d x => dict_set (key x) (val x) d)
                                    xs acc))
                 <-> In k (dict_keys acc) \/ In k (map key xs)).
  { induction xs as [|x xs IH]; intros acc Hnd; simpl.
    - split; [assumption | intros k; tauto].
    - destruct (IH (dict_set (key x) (val x) acc)) as [Hnd' Hmem].
      { now apply dict_set_NoDup. }
      split; [assumption|]. intros k. rewrite Hmem, dict_set_mem.
      split; intros; intuition auto. }
  destruct (Hgen [] (NoDup_nil _)) as [Hnd Hmem].
  split; [assumption|]. intros k. rewrite Hmem. simpl. tauto.
Qed.

Lemma list_remove_incl (x y : string) (xs : list string) :
  In y (list_remove x xs) -> In y xs.
Proof.
  induction xs as [|z xs IH]; simpl; [tauto|].
  destruct (String.eqb x z); simpl; intuition auto.
Qed.

Lemma list_remove_NoDup (x : string) (xs : list string) :
  NoDup xs -> NoDup (list_remove x xs) /\ ~ In x (list_remove x xs).
Proof.
  induction xs as [|z xs IH]; simpl; intros Hnd.
  - split; [constructor | tauto].
  - inversion Hnd as [|? ? Hnotin Hnd']; subst.
    destruct (String.eqb_spec x z) as [->|Hne].
    + split; assumption.
    + destruct (IH Hnd') as [Hnd'' Hout]. split.
      * constructor; [|assumption].
        intros Hin. apply Hnotin. eapply list_remove_incl, Hin.
      * simpl. intros [Heq|Hin]; [congruence | contradiction].
Qed.

(** ** The command runner *)

Lemma poll_unsignaled_no_kill {S} (P : Runner.process S)
      (cmd : string) (args : list string) (timeout : option Z)
      (fuel : nat) (time : Z) (st : S) :
  ~ In Runner.Kill (fst (Runner.poll P cmd args timeout fuel time false st))
  /\ forall e, snd (Runner.poll P cmd args timeout fuel time false st)
               <> Runner.Raised e.
Proof.
  revert time st. induction fuel as [|fuel IH]; intros time st; simpl.
  - split; [tauto | discriminate].
  - destruct (Runner.wait P st) as [st'|exitval]; simpl.
    + destruct (Runner.truthy timeout && Runner.exceeds (time + 5) timeout).
      * specialize (IH (time + 5)%Z (Runner.terminate P st')).
        destruct (Runner.poll P cmd args timeout fuel (time + 5) false
                              (Runner.terminate P st')) as [log e].
        simpl in *. destruct IH as [Hk He]. split; [|exact He].
        intros [Hw|[Ht|Hin]]; try discriminate. contradiction.
      * specialize (IH (time + 5)%Z st').
        destruct (Runner.poll P cmd args timeout fuel (time + 5) false st')
          as [log e].
        simpl in *. destruct IH as [Hk He]. split; [|exact He].
        intros [Hw|Hin]; try discriminate. contradiction.
    + split; [|discriminate]. intros [Hw|[]]. discriminate.
Qed.

Lemma poll_no_timeout {S} (P : Runner.process S)
      (cmd : string) (args : list string) (timeout : option Z)
      (fuel : nat) (time : Z) (signaled : bool) (st : S) :
  Runner.truthy timeout = false ->
  let run := Runner.poll P cmd args timeout fuel time signaled st in
  Forall (fun a => a = Runner.Wait) (fst run)
  /\ match snd run with
     | Runner.Polling => exists st', Runner.undisturbed P fuel st = inl st'
     | Runner.Broke exitval =>
         exists n, (n <= fuel)%nat
                   /\ Runner.undisturbed P n st = inr exitval
     | Runner.Raised _ => False
     end.
Proof.
  intros Hfalse. revert time st.
  induction fuel as [|fuel IH]; intros time st; simpl.
  - split; [constructor | now exists st].
  - destruct (Runner.wait P st) as [st'|exitval] eqn:Hwait; simpl.
    + rewrite Hfalse. simpl.
      specialize (IH (time + 5)%Z st').
      destruct (Runner.poll P cmd args timeout fuel (time + 5) signaled st')
        as [log e].
      simpl in *. destruct IH as [Hall Hend].
      split; [constructor; [reflexivity | assumption]|].
      destruct e as [|exitval|e]; try assumption.
      destruct Hend as [n [Hle Hn]]. exists (Datatypes.S n).
      split; [lia|]. simpl. now rewrite Hwait.
    + split; [repeat constructor|].
      exists 1%nat. split; [lia|]. simpl. now rewrite Hwait.
Qed.

Lemma undisturbed_exit_mono {S} (P : Runner.process S) (n m : nat) (st : S)
      (exitval : Z) :
  (n <= m)%nat ->
  Runner.undisturbed P n st = inr exitval ->
  Runner.undisturbed P m st = inr exitval.
Proof.
  revert m st. induction n as [|n IH]; intros m st Hle; simpl.
  - discriminate.
  - destruct m as [|m]; [lia|]. simpl.
    destruct (Runner.wait P st) as [st'|v]; [|auto].
    apply IH. lia.
Qed.

(** Whatever the timeout, a call of the runner that returns has either
    failed to spawn the child or checked the exit status the last [wait]
    gave: this is what [exec] stands for in the script. *)
Lemma run_cmd_returns_checked {S} (P : Runner.process S)
      (child : Runner.spawned S) (cmd : string) (args : list string)
      (timeout : option Z) (fuel : nat) (r : result unit) :
  snd (Runner.run_cmd P child cmd args timeout fuel) = Some r ->
  (exists oserr,
      child = Runner.SpawnFailed oserr
      /\ r = Raise (ContextualError
                      (ExecutingFailed (cmdline cmd args) oserr)))
  \/ (exists exitval, r = Runner.check_exit cmd args false exitval).
Proof.
  destruct child as [oserr|st]; simpl.
  - intros [= <-]. left. now exists oserr.
  - pose proof (poll_unsignaled_no_kill P cmd args timeout fuel 0 st)
      as [_ He].
    destruct (Runner.poll P cmd args timeout fuel 0 false st)
      as [log [|exitval|e]]; simpl in *.
    + discriminate.
    + intros [= <-]. right. now exists exitval.
    + exfalso. now apply (He e).
Qed.

Lemma stubborn_polls_on (cmd : string) (args : list string)
      (timeout : option Z) (fuel : nat) (time : Z) :
  snd (Runner.poll Runner.stubborn cmd args timeout fuel time false tt)
  = Runner.Polling.
Proof.
  revert time. induction fuel as [|fuel IH]; intros time; simpl.
  - reflexivity.
  - destruct (Runner.truthy timeout && Runner.exceeds (time + 5) timeout).
    + specialize (IH (time + 5)%Z).
      destruct (Runner.poll Runner.stubborn cmd args timeout fuel
                            (time + 5) false tt).
      exact IH.
    + specialize (IH (time + 5)%Z).
      destruct (Runner.poll Runner.stubborn cmd args timeout fuel
                            (time + 5) false tt).
      exact IH.
Qed.

(** C4: when the overall timeout elapses the runner is to request
    termination and then, the child still running at the next poll, kill it
    and report that as a failure of its own.  The code never gets there:
    [signaled] is never set, so for every child, timeout and number of
    polls no kill is sent and neither timeout error is raised; a child that
    ignores the termination request (timeout 10) is asked to terminate at
    every poll from the third on and the call does not return; a child
    that exits on the request is reported as a plain failed command. *)
Theorem run_cmd_never_escalates_to_kill :
  (forall (S : Type) (P : Runner.process S) (child : Runner.spawned S)
          (cmd : string) (args : list string) (timeout : option Z)
          (fuel : nat),
      ~ In Runner.Kill (fst (Runner.run_cmd P child cmd args timeout fuel))
      /\ (forall line,
             snd (Runner.run_cmd P child cmd args timeout fuel)
             <> Some (Raise (ContextualError (CommandTimedOutKilled line))))
      /\ (forall line seconds,
             snd (Runner.run_cmd P child cmd args timeout fuel)
             <> Some (Raise (ContextualError
                               (CommandNotTerminated line seconds)))))
  /\ (forall fuel,
         snd (Runner.run_cmd Runner.stubborn (Runner.Spawned tt)
                             "sleep" ["infinity"] (Some 10%Z) fuel) = None)
  /\ Runner.run_cmd Runner.stubborn (Runner.Spawned tt)
                    "sleep" ["infinity"] (Some 10%Z) 5
     = ([Runner.Wait; Runner.Wait; Runner.Wait; Runner.Terminate;
         Runner.Wait; Runner.Terminate; Runner.Wait; Runner.Terminate],
        None)
  /\ Runner.run_cmd (Runner.obedient (-15)) (Runner.Spawned false)
                    "sleep" ["infinity"] (Some 10%Z) 5
     = ([Runner.Wait; Runner.Wait; Runner.Wait; Runner.Terminate;
         Runner.Wait],
        Some (Raise (ContextualError (CommandFailed "sleep infinity")))).
Proof.
  split; [|split; [|split; reflexivity]].
  - intros S P child cmd args timeout fuel.
    destruct child as [oserr|st]; simpl.
    + repeat split; try tauto; intros; discriminate.
    + pose proof (poll_unsignaled_no_kill P cmd args timeout fuel 0 st)
        as [Hk He].
      destruct (Runner.poll P cmd args timeout fuel 0 false st)
        as [log [|exitval|e]]; simpl in *.
      * repeat split; try assumption; intros; discriminate.
      * repeat split; try assumption; intros;
          unfold Runner.check_exit; destruct (negb (exitval =? 0)%Z);
          simpl; discriminate.
      * exfalso. now apply (He e).
  - intros fuel. unfold Runner.run_cmd.
    pose proof (stubborn_polls_on "sleep" ["infinity"] (Some 10%Z) fuel 0)
      as Hp.
    destruct (Runner.poll Runner.stubborn "sleep" ["infinity"] (Some 10%Z)
                          fuel 0 false tt) as [log e].
    simpl in Hp. now subst e.
Qed.

(** ** The Underlay Resolver *)
Section Properties.
Context {H : Host}.

Lemma scan_addr_info_find (intf : string) (infos : list addr)
      (endpoint_ips : list string) :
  scan_addr_info intf infos endpoint_ips
  = find (fun p => str_in (snd p) endpoint_ips)
         (flat_map (fun info : addr =>
                      match local info with
                      | Some ip => [(intf, ip)]
                      | None => []
                      end) infos).
Proof.
  induction infos as [|info infos IH]; simpl; [reflexivity|].
  destruct (local info) as [ip|]; simpl; [|exact IH].
  destruct (str_in ip endpoint_ips); [reflexivity | exact IH].
Qed.

Lemma scan_interfaces_first (items : list (string * iface))
      (endpoint_ips : list string) :
  scan_interfaces items endpoint_ips = first_endpoint items endpoint_ips.
Proof.
  unfold first_endpoint, local_addrs.
  induction items as [|[intf if_desc] items IH]; simpl; [reflexivity|].
  rewrite find_app, <- scan_addr_info_find. simpl.
  destruct (scan_addr_info intf _ endpoint_ips); [reflexivity | exact IH].
Qed.

Lemma first_endpoint_none (items : list (string * iface))
      (endpoint_ips : list string) :
  first_endpoint items endpoint_ips = None
  <-> forall p, In p (local_addrs items) -> ~ In (snd p) endpoint_ips.
Proof.
  unfold first_endpoint. split.
  - intros Hnone p Hin. apply str_in_false.
    exact (find_none _ _ Hnone p Hin).
  - intros Hall. induction (local_addrs items) as [|p l IH]; simpl.
    + reflexivity.
    + destruct (str_in (snd p) endpoint_ips) eqn:Hp.
      * exfalso. apply (Hall p); [now left | now apply str_in_In].
      * apply IH. intros q Hq. apply Hall. now right.
Qed.

(** C5: [_find_underlay] returns the first (device, local address) pair,
    in the order interfaces then address records, whose address is one of
    [endpoint_ips]; it raises the no-underlay error exactly when no local
    address is one of them, so always when [endpoint_ips] is empty; and it
    does one or the other, leaving the object and the blade as they were. *)
Theorem find_underlay_first_match (self : NetworkInstaller) (w : world)
        (endpoint_ips : list string) :
  (forall found,
      _find_underlay endpoint_ips (self, w) = (Ok found, (self, w))
      <-> first_endpoint (interfaces self) endpoint_ips = Some found)
  /\ (_find_underlay endpoint_ips (self, w)
      = (Raise (ContextualError (NoUnderlay endpoint_ips)), (self, w))
      <-> forall p, In p (local_addrs (interfaces self)) ->
                    ~ In (snd p) endpoint_ips)
  /\ ((exists found,
          _find_underlay endpoint_ips (self, w) = (Ok found, (self, w)))
      \/ _find_underlay endpoint_ips (self, w)
         = (Raise (ContextualError (NoUnderlay endpoint_ips)), (self, w)))
  /\ _find_underlay [] (self, w)
     = (Raise (ContextualError (NoUnderlay [])), (self, w)).
Proof.
  assert (Hrun : forall ips,
             _find_underlay ips (self, w)
             = match first_endpoint (interfaces self) ips with
               | Some found => (Ok found, (self, w))
               | None => (Raise (ContextualError (NoUnderlay ips)), (self, w))
               end).
  { intros ips. unfold _find_underlay, bind, get_self. simpl.
    rewrite scan_interfaces_first.
    now destruct (first_endpoint (interfaces self) ips). }
  repeat split.
  - rewrite Hrun. destruct (first_endpoint _ _); congruence.
  - rewrite Hrun. intros ->. reflexivity.
  - rewrite Hrun, <- first_endpoint_none.
    destruct (first_endpoint _ _); [discriminate | reflexivity].
  - rewrite Hrun. intros Hall. apply first_endpoint_none in Hall.
    now rewrite Hall.
  - rewrite Hrun. destruct (first_endpoint _ _) as [found|].
    + left. now exists found.
    + now right.
  - rewrite Hrun. unfold first_endpoint.
    assert (Hn : find (fun p : string * string => str_in (snd p) [])
                      (local_addrs (interfaces self)) = None).
    { induction (local_addrs (interfaces self)); simpl; auto. }
    now rewrite Hn.
Qed.

(** ** The snapshot taken by the constructor *)

Lemma fold_fdb_dsts_keys (dsts : list fdb_entry) (ifs ifs' : dict iface) :
  fold_fdb_dsts dsts ifs = Ok ifs' -> dict_keys ifs' = dict_keys ifs.
Proof.
  revert ifs. induction dsts as [|entry dsts IH]; intros ifs; simpl.
  - now intros [= ->].
  - destruct (dst entry) as [ip|]; [|apply IH].
    destruct (dict_get (fdb_ifname entry) ifs) as [i|] eqn:Hget;
      [|discriminate].
    intros Hrec. rewrite (IH _ Hrec).
    apply dict_set_keys_present, dict_mem_keys.
    unfold dict_mem. now rewrite Hget.
Qed.


Lemma get_interfaces_NoDup (w w' : world) (ifs : dict iface) :
  _get_interfaces w = (Ok ifs, w') -> NoDup (dict_keys ifs) /\ w' = w.
Proof.
  unfold _get_interfaces, bind, popen_json, of_result.
  destruct (ip_addr (w_host w)) as [oserr| |if_data]; try discriminate.
  destruct (bridge_fdb (w_host w)) as [oserr| |fdb_data]; try discriminate.
  destruct (fold_fdb_dsts _ _) as [ifs'|e] eqn:Hfold; [|discriminate].
  intros [= -> ->]. split; [|reflexivity].
  rewrite (fold_fdb_dsts_keys _ _ Hfold). apply dict_of_spec.
Qed.

Lemma dict_where_mem (cond : iface -> result bool)
      (items : list (string * iface)) (acc d : dict iface) :
  dict_where cond items acc = Ok d ->
  forall n, In n (dict_keys d)
            <-> In n (dict_keys acc)
                \/ exists v, In (n, v) items /\ cond v = Ok true.
Proof.
  revert acc. induction items as [|[key val] items IH]; intros acc; simpl.
  - intros [= ->] n. split; [auto | intros [?|[v [[] _]]]; assumption].
  - destruct (cond val) as [[|]|e] eqn:Hcond; [| |discriminate].
    + intros Hrec n. rewrite (IH _ Hrec n), dict_set_mem. split.
      * intros [[->|Hin]|[v [Hin Hv]]]; eauto.
      * intros [Hin|[v [[Heq|Hin] Hv]]]; eauto.
        injection Heq as -> ->. auto.
    + intros Hrec n. rewrite (IH _ Hrec n). split.
      * intros [Hin|[v [Hin Hv]]]; eauto.
      * intros [Hin|[v [[Heq|Hin] Hv]]]; eauto.
        injection Heq as -> ->. congruence.
Qed.

Lemma has_info_kind_vxlan (i : iface) :
  has_info_kind "vxlan" i = Ok true <-> iface_kind i = KVxlan.
Proof.
  unfold has_info_kind, iface_kind.
  destruct (linkinfo i) as [[[k|]]|]; simpl; try (split; discriminate).
  destruct (String.eqb k "vxlan"); [tauto|].
  destruct (String.eqb k "bridge"); split; discriminate.
Qed.

Lemma has_info_kind_bridge (i : iface) :
  has_info_kind "bridge" i = Ok true <-> iface_kind i = KBridge.
Proof.
  unfold has_info_kind, iface_kind.
  destruct (linkinfo i) as [[[k|]]|]; simpl; try (split; discriminate).
  destruct (String.eqb_spec k "bridge") as [->|Hne]; simpl; [tauto|].
  destruct (String.eqb k "vxlan"); split; discriminate.
Qed.

(** What a constructed [NetworkInstaller] holds. *)
Lemma init_snapshot (w0 w1 : world) (self : NetworkInstaller) :
  __init__ w0 = (Ok self, w1) ->
  w1 = w0
  /\ NoDup (dict_keys (interfaces self))
  /\ (forall n, dict_mem n (vxlans self) = true
                <-> exists i, dict_get n (interfaces self) = Some i
                              /\ iface_kind i = KVxlan)
  /\ (forall n, dict_mem n (bridges self) = true
                <-> exists i, dict_get n (interfaces self) = Some i
                              /\ iface_kind i = KBridge).
Proof.
  unfold __init__, bind.
  destruct (_get_interfaces w0) as [[ifs|e] w] eqn:Hifs; [|discriminate].
  apply get_interfaces_NoDup in Hifs as [Hnd ->].
  unfold of_result.
  destruct (dict_where (has_info_kind "vxlan") ifs []) as [vx|e] eqn:Hvx;
    [|discriminate].
  destruct (dict_where (has_info_kind "bridge") ifs []) as [br|e] eqn:Hbr;
    [|discriminate].
  unfold _get_virtual_networks.
  destruct (virsh_net_list (w_host w0)) as [oserr|lines]; [discriminate|].
  unfold ret. intros [= <- <-]. simpl.
  split; [reflexivity|]. split; [assumption|].
  split; intros n; rewrite dict_mem_keys.
  - rewrite (dict_where_mem _ _ _ Hvx n). simpl. split.
    + intros [[]|[v [Hin Hv]]]. exists v.
      split; [now apply In_dict_get | now apply has_info_kind_vxlan].
    + intros [i [Hget Hk]]. right. exists i.
      split; [now apply dict_get_In | now apply has_info_kind_vxlan].
  - rewrite (dict_where_mem _ _ _ Hbr n). simpl. split.
    + intros [[]|[v [Hin Hv]]]. exists v.
      split; [now apply In_dict_get | now apply has_info_kind_bridge].
    + intros [i [Hget Hk]]. right. exists i.
      split; [now apply dict_get_In | now apply has_info_kind_bridge].
Qed.

Lemma dict_where_raises (k : string) (items : list (string * iface))
      (acc : dict iface) (e : exn) :
  dict_where (has_info_kind k) items acc = Raise e ->
  e = KeyError "info_kind".
Proof.
  revert acc. induction items as [|[key val] items IH]; intros acc; simpl.
  - discriminate.
  - unfold has_info_kind at 1.
    destruct (linkinfo val) as [[[k'|]]|]; simpl.
    + destruct (String.eqb k' k); apply IH.
    + now intros [= <-].
    + apply IH.
Qed.

Lemma fold_fdb_dsts_raises (dsts : list fdb_entry) (ifs : dict iface)
      (e : exn) :
  fold_fdb_dsts dsts ifs = Raise e -> exists key, e = KeyError key.
Proof.
  revert ifs. induction dsts as [|entry dsts IH]; intros ifs; simpl.
  - discriminate.
  - destruct (dst entry) as [ip|]; [|apply IH].
    destruct (dict_get (fdb_ifname entry) ifs) as [i|]; [apply IH|].
    intros [= <-]. now exists (fdb_ifname entry).
Qed.

(** The constructor raises nothing the entry point reports, and changes
    nothing. *)
Lemma init_raises_unclassified (w w' : world) (e : exn) :
  __init__ w = (Raise e, w') ->
  w' = w /\ unclassified e.
Proof.
  unfold __init__, bind, _get_interfaces, bind, popen_json, of_result,
    _get_virtual_networks, ret.
  destruct (ip_addr (w_host w)) as [oserr| |if_data];
    try (intros [= <- <-]; now split).
  destruct (bridge_fdb (w_host w)) as [oserr| |fdb_data];
    try (intros [= <- <-]; now split).
  destruct (fold_fdb_dsts _ _) as [ifs|e0] eqn:Hfold.
  - destruct (dict_where (has_info_kind "vxlan") ifs []) as [vx|e1] eqn:Hvx.
    + destruct (dict_where (has_info_kind "bridge") ifs []) as [br|e2] eqn:Hbr.
      * destruct (virsh_net_list (w_host w)) as [oserr|lines];
          [intros [= <- <-]; now split | discriminate].
      * intros [= <- <-]. split; [reflexivity|].
        rewrite (dict_where_raises _ _ _ Hbr). exact I.
    + intros [= <- <-]. split; [reflexivity|].
      rewrite (dict_where_raises _ _ _ Hvx). exact I.
  - intros [= <- <-]. split; [reflexivity|].
    destruct (fold_fdb_dsts_raises _ _ Hfold) as [key ->]. exact I.
Qed.

(** ** The Conflict Checker and the order of the Reconciler *)

Lemma check_conflict_run (self : NetworkInstaller) (w : world)
      (name bridge : string) :
  _check_conflict name bridge (self, w)
  = if dict_mem name (interfaces self) && negb (dict_mem name (vxlans self))
    then (Raise (ContextualError (TunnelNameConflict name)), (self, w))
    else if dict_mem bridge (interfaces self)
            && negb (dict_mem bridge (bridges self))
         then (Raise (ContextualError (BridgeNameConflict name bridge)),
               (self, w))
         else (Ok tt, (self, w)).
Proof.
  unfold _check_conflict, bind, get_self. simpl.
  destruct (dict_mem name (interfaces self) && _); [reflexivity|].
  destruct (dict_mem bridge (interfaces self) && _); reflexivity.
Qed.

Lemma run_cmd2_run (cmd : string) (args : list string) (w : world) :
  run_cmd2 cmd args w
  = let inv := {| inv_cmd := cmd; inv_args := args;
                  inv_stdin := SysStdin; inv_timeout := None |} in
    let w' := {| w_host := snd (exec inv (w_host w));
                 w_trace := w_trace w ++ [inv] |} in
    match fst (exec inv (w_host w)) with
    | Runner.SpawnFailed oserr =>
        (Raise (ContextualError (ExecutingFailed (cmdline cmd args) oserr)),
         w')
    | Runner.Spawned exitval =>
        if (exitval =? 0)%Z then (Ok tt, w')
        else (Raise (ContextualError (CommandFailed (cmdline cmd args))), w')
    end.
Proof.
  unfold run_cmd2, run_cmd. destruct (exec _ (w_host w)) as [child h]. simpl.
  destruct child as [oserr|exitval]; [reflexivity|].
  unfold Runner.check_exit. now destruct (exitval =? 0)%Z.
Qed.

(** C2: on a snapshot taken by the constructor, a network whose tunnel
    name is borne by an interface that is not a vxlan, or whose bridge name
    is borne by one that is not a bridge, is refused with a name-conflict
    error with the object, the blade and the trace of commands exactly as
    they were; and [_check_conflict] returns silently exactly when each of
    the two names is free or borne by an interface of the expected kind. *)
Theorem name_conflict_rejected (w0 w1 w : world) (self : NetworkInstaller)
        (config : network_config) :
  __init__ w0 = (Ok self, w1) ->
  (taken_against KVxlan (tunnel_of config) self
   \/ taken_against KBridge (bridge_of config) self ->
   exists e,
     construct_virtual_network config (self, w) = (Raise e, (self, w))
     /\ is_NameConflictError e = true)
  /\ (forall name bridge,
         _check_conflict name bridge (self, w) = (Ok tt, (self, w))
         <-> free_for KVxlan name self /\ free_for KBridge bridge self).
Proof.
  intros Hinit.
  destruct (init_snapshot w0 Hinit) as [_ [Hnd [Hvx Hbr]]].
  assert (Hfree : forall k name (members : dict iface),
             (forall n, dict_mem n members = true
                        <-> exists i, dict_get n (interfaces self) = Some i
                                      /\ iface_kind i = k) ->
             (dict_mem name (interfaces self)
              && negb (dict_mem name members) = false
              <-> free_for k name self)).
  { intros k name members Hmem. unfold free_for.
    unfold dict_mem at 1.
    destruct (dict_get name (interfaces self)) as [i|] eqn:Hget; simpl.
    - rewrite negb_false_iff, Hmem. split.
      + intros [i' [Hi' Hk]]. right. exists i'. split; congruence.
      + intros [Habs|[i' [Hi' Hk]]]; [discriminate|].
        exists i'. split; congruence.
    - split; auto. }
  split.
  - intros Hconflict.
    unfold construct_virtual_network, bind. rewrite check_conflict_run.
    destruct (dict_mem (tunnel_of config) (interfaces self) && _) eqn:Ht.
    + eexists. split; reflexivity.
    + destruct (dict_mem (bridge_of config) (interfaces self) && _) eqn:Hb.
      * eexists. split; reflexivity.
      * exfalso.
        apply (Hfree KVxlan _ _ Hvx) in Ht.
        apply (Hfree KBridge _ _ Hbr) in Hb.
        destruct Hconflict as [[i [Hget Hk]]|[i [Hget Hk]]].
        -- destruct Ht as [Habs|[i' [Hget' Hk']]]; congruence.
        -- destruct Hb as [Habs|[i' [Hget' Hk']]]; congruence.
  - intros name bridge. rewrite check_conflict_run.
    rewrite <- (Hfree KVxlan name _ Hvx), <- (Hfree KBridge bridge _ Hbr).
    destruct (dict_mem name (interfaces self) && _);
      destruct (dict_mem bridge (interfaces self) && _);
      split; try discriminate; try tauto; intros [? ?]; discriminate.
Qed.

(** One call of [run_cmd] with the defaults: a call is added to the
    trace; it returns, or raises one of the two command failures. *)
Lemma run_cmd2_step (cmd : string) (args : list string) (w : world) :
  exists r w',
    run_cmd2 cmd args w = (r, w')
    /\ w_trace w' = w_trace w ++ [{| inv_cmd := cmd; inv_args := args;
                                     inv_stdin := SysStdin;
                                     inv_timeout := None |}]
    /\ (r = Ok tt \/ exists e, r = Raise e /\ command_failure e).
Proof.
  rewrite run_cmd2_run. simpl.
  destruct (fst (exec _ (w_host w))) as [oserr|exitval].
  - do 2 eexists. repeat split. right. eexists. split; [reflexivity|].
    right. eauto.
  - destruct (exitval =? 0)%Z.
    + do 2 eexists. repeat split. now left.
    + do 2 eexists. repeat split. right. eexists. split; [reflexivity|].
      left. eauto.
Qed.

Lemma remove_step (b : bool) (name : string) (self : NetworkInstaller)
      (w : world) :
  exists r w',
    when b (lift (remove_link name)) (self, w) = (r, (self, w'))
    /\ w_trace w' = w_trace w ++ (if b then [ip_link_del name] else [])
    /\ (b = false -> w' = w /\ r = Ok tt)
    /\ (r = Ok tt \/ exists e, r = Raise e /\ command_failure e).
Proof.
  destruct b; simpl.
  - unfold lift, remove_link. simpl.
    destruct (run_cmd2_step "ip" ["link"; "del"; name] w)
      as [r [w' [Hrun [Htr Hr]]]].
    rewrite Hrun. exists r, w'. repeat split; try assumption; discriminate.
  - exists (Ok tt), w. rewrite List.app_nil_r. repeat split. now left.
Qed.

(** C3 (as the code has it): when no local address of the snapshot is
    one of the endpoint IPs, [construct_virtual_network] fails and leaves
    the object as it was; the commands it has issued by then are a prefix
    of the removals of the existing links named as the tunnel and the
    bridge, all of them when the failure is the no-underlay error; the
    failure is that error unless the conflict check or a removal failed
    first; and when neither name is in the snapshot it is that error with
    the blade and the trace untouched. *)
Theorem no_underlay_fails_after_removals (self : NetworkInstaller)
        (w : world) (config : network_config) :
  (forall p, In p (local_addrs (interfaces self)) ->
             ~ In (snd p) (endpoints_of config)) ->
  exists e w' issued rest,
    construct_virtual_network config (self, w) = (Raise e, (self, w'))
    /\ w_trace w' = w_trace w ++ issued
    /\ removals self config = issued ++ rest
    /\ (is_NoUnderlayError e = true -> rest = [])
    /\ (is_NoUnderlayError e = true
        \/ is_NameConflictError e = true
        \/ command_failure e)
    /\ (removals self config = [] ->
        e = ContextualError (NoUnderlay (endpoints_of config)) /\ w' = w).
Proof.
  intros Hnone. apply first_endpoint_none in Hnone.
  rewrite <- scan_interfaces_first in Hnone.
  unfold construct_virtual_network, removals, bind.
  rewrite check_conflict_run.
  destruct (dict_mem (tunnel_of config) (interfaces self)
            && negb (dict_mem (tunnel_of config) (vxlans self))) eqn:Hct.
  { apply andb_prop in Hct as [Ht _]. rewrite Ht.
    exists (ContextualError (TunnelNameConflict (tunnel_of config))), w, [].
    eexists. rewrite List.app_nil_r.
    splits; try reflexivity; try discriminate. right. now left. }
  destruct (dict_mem (bridge_of config) (interfaces self)
            && negb (dict_mem (bridge_of config) (bridges self))) eqn:Hcb.
  { apply andb_prop in Hcb as [Hb _]. rewrite Hb.
    eexists (ContextualError (BridgeNameConflict _ _)), w, [].
    eexists. rewrite List.app_nil_r.
    splits; try reflexivity; try discriminate.
    - right. now left.
    - now destruct (dict_mem (tunnel_of config) (interfaces self)). }
  unfold get_self at 1. simpl.
  destruct (remove_step (dict_mem (tunnel_of config) (interfaces self))
                        (tunnel_of config) self w)
    as [r1 [w1 [Hrun1 [Htr1 [Hno1 Hr1]]]]].
  rewrite Hrun1.
  destruct Hr1 as [->|[e1 [-> Hfail1]]].
  2:{ exists e1, w1.
      exists (if dict_mem (tunnel_of config) (interfaces self)
              then [ip_link_del (tunnel_of config)] else []).
      eexists. splits; try reflexivity; try eassumption.
      - intros Hu. destruct Hfail1 as [[? ->]|[? [? ->]]]; discriminate.
      - right. right. exact Hfail1.
      - intros Habs. destruct (dict_mem (tunnel_of config) (interfaces self));
          [discriminate|]. destruct (Hno1 eq_refl). discriminate. }
  destruct (remove_step (dict_mem (bridge_of config) (interfaces self))
                        (bridge_of config) self w1)
    as [r2 [w2 [Hrun2 [Htr2 [Hno2 Hr2]]]]].
  rewrite Hrun2.
  assert (Htr : w_trace w2
                = w_trace w
                  ++ (if dict_mem (tunnel_of config) (interfaces self)
                      then [ip_link_del (tunnel_of config)] else [])
                  ++ (if dict_mem (bridge_of config) (interfaces self)
                      then [ip_link_del (bridge_of config)] else [])).
  { rewrite Htr2, Htr1. now rewrite <- List.app_assoc. }
  assert (Hquiet : (if dict_mem (tunnel_of config) (interfaces self)
                    then [ip_link_del (tunnel_of config)] else [])
                   ++ (if dict_mem (bridge_of config) (interfaces self)
                       then [ip_link_del (bridge_of config)] else []) = [] ->
                   w2 = w /\ r2 = Ok tt).
  { intros Habs.
    destruct (dict_mem (tunnel_of config) (interfaces self));
      [discriminate|].
    destruct (dict_mem (bridge_of config) (interfaces self));
      [discriminate|].
    destruct (Hno1 eq_refl) as [-> _]. exact (Hno2 eq_refl). }
  destruct Hr2 as [->|[e2 [-> Hfail2]]].
  - unfold _find_underlay, bind, get_self, raise. simpl. rewrite Hnone.
    eexists _, w2, (_ ++ _), [].
    splits; try reflexivity; try eassumption.
    + now rewrite List.app_nil_r.
    + now left.
    + intros Habs. split; [reflexivity | now apply Hquiet].
  - eexists e2, w2, (_ ++ _), [].
    splits; try reflexivity; try eassumption.
    + now rewrite List.app_nil_r.
    + right. right. exact Hfail2.
    + intros Habs. destruct (Hquiet Habs). discriminate.
Qed.

(** ** The Registrar and the list of registered networks *)

Lemma lift_run {A} (c : Sys A) (self : NetworkInstaller) (w : world) :
  lift c (self, w) = (fst (c w), (self, snd (c w))).
Proof.
  unfold lift. simpl. now destruct (c w).
Qed.

Lemma remove_virtual_network_run (name : string) (self : NetworkInstaller)
      (w : world) :
  remove_virtual_network name (self, w)
  = if str_in name (vnets self) then
      match run_cmd2 "virsh" ["net-destroy"; name] w with
      | (Ok _, w1) =>
          match run_cmd2 "virsh" ["net-undefine"; name] w1 with
          | (Ok _, w2) => (Ok tt, (set_vnets (list_remove name) self, w2))
          | (Raise e, w2) => (Raise e, (self, w2))
          end
      | (Raise e, w1) => (Raise e, (self, w1))
      end
    else (Ok tt, (self, w)).
Proof.
  unfold remove_virtual_network, bind, get_self. simpl.
  destruct (str_in name (vnets self)); simpl; [|reflexivity].
  rewrite lift_run.
  destruct (run_cmd2 "virsh" ["net-destroy"; name] w) as [[[]|e] w1]; simpl;
    [|reflexivity].
  rewrite lift_run.
  destruct (run_cmd2 "virsh" ["net-undefine"; name] w1) as [[[]|e] w2];
    reflexivity.
Qed.

Lemma add_virtual_network_self (name bridge : string)
      (self : NetworkInstaller) (w : world) :
  exists r self' w',
    add_virtual_network name bridge (self, w) = (r, (self', w'))
    /\ ((r = Ok tt /\ self' = set_vnets (fun l => l ++ [name]) self)
        \/ (exists e, r = Raise e /\ self' = self)).
Proof.
  unfold add_virtual_network, bind. rewrite lift_run.
  destruct (named_temporary_file _ _ w) as [[[]|e] w1]; simpl.
  2:{ do 3 eexists. split; [reflexivity|]. right. eauto. }
  rewrite lift_run.
  destruct (run_cmd2 "virsh" ["net-start"; name] w1) as [[[]|e] w2]; simpl.
  2:{ do 3 eexists. split; [reflexivity|]. right. eauto. }
  rewrite lift_run.
  destruct (run_cmd2 "virsh" ["net-autostart"; name] w2) as [[[]|e] w3]; simpl.
  2:{ do 3 eexists. split; [reflexivity|]. right. eauto. }
  do 3 eexists. split; [reflexivity|]. left. split; reflexivity.
Qed.

Lemma remove_virtual_network_self (name : string) (self : NetworkInstaller)
      (w : world) :
  exists r self' w',
    remove_virtual_network name (self, w) = (r, (self', w'))
    /\ ((r = Ok tt /\ (self' = set_vnets (list_remove name) self
                       \/ (self' = self /\ ~ In name (vnets self))))
        \/ (exists e, r = Raise e /\ self' = self)).
Proof.
  rewrite remove_virtual_network_run.
  destruct (str_in name (vnets self)) eqn:Hin.
  - destruct (run_cmd2 "virsh" ["net-destroy"; name] w) as [[[]|e] w1].
    + destruct (run_cmd2 "virsh" ["net-undefine"; name] w1) as [[[]|e] w2].
      * do 3 eexists. split; [reflexivity|]. left. split; auto.
      * do 3 eexists. split; [reflexivity|]. right. eauto.
    + do 3 eexists. split; [reflexivity|]. right. eauto.
  - do 3 eexists. split; [reflexivity|]. left. split; [reflexivity|].
    right. split; [reflexivity|]. now apply str_in_false.
Qed.

(** The steps of [construct_virtual_network] before the Registrar leave
    the object alone. *)
Lemma construct_virtual_network_self (config : network_config)
      (self : NetworkInstaller) (w : world) :
  exists r self' w',
    construct_virtual_network config (self, w) = (r, (self', w'))
    /\ ((r = Ok tt
         /\ exists mid,
             (mid = set_vnets (list_remove (name_of config)) self
              \/ (mid = self /\ ~ In (name_of config) (vnets self)))
             /\ self' = set_vnets (fun l => l ++ [name_of config]) mid)
        \/ (exists e, r = Raise e
                      /\ (self' = self
                          \/ self' = set_vnets (list_remove (name_of config))
                                               self))).
Proof.
  unfold construct_virtual_network, bind. rewrite check_conflict_run.
  destruct (dict_mem (tunnel_of config) (interfaces self) && _).
  { do 3 eexists. split; [reflexivity|]. right. eauto. }
  destruct (dict_mem (bridge_of config) (interfaces self) && _).
  { do 3 eexists. split; [reflexivity|]. right. eauto. }
  unfold get_self at 1. simpl.
  destruct (remove_step (dict_mem (tunnel_of config) (interfaces self))
                        (tunnel_of config) self w)
    as [r1 [w1 [-> [_ [_ [->|[e [-> _]]]]]]]].
  2:{ do 3 eexists. split; [reflexivity|]. right. eauto. }
  destruct (remove_step (dict_mem (bridge_of config) (interfaces self))
                        (bridge_of config) self w1)
    as [r2 [w2 [-> [_ [_ [->|[e [-> _]]]]]]]].
  2:{ do 3 eexists. split; [reflexivity|]. right. eauto. }
  unfold _find_underlay, bind, get_self. simpl.
  destruct (scan_interfaces (interfaces self) (endpoints_of config))
    as [found|]; simpl.
  2:{ do 3 eexists. split; [reflexivity|]. right. eauto. }
  rewrite lift_run.
  destruct (add_new_tunnel _ _ _ _ w2) as [[[]|e] w3]; simpl.
  2:{ do 3 eexists. split; [reflexivity|]. right. eauto. }
  rewrite lift_run.
  destruct (connect_endpoints _ _ _ w3) as [[[]|e] w4]; simpl.
  2:{ do 3 eexists. split; [reflexivity|]. right. eauto. }
  destruct (remove_virtual_network_self (name_of config) self w4)
    as [r5 [mid [w5 [-> Hmid]]]].
  destruct Hmid as [[-> Hmid]|[e [-> ->]]].
  2:{ do 3 eexists. split; [reflexivity|]. right. eauto. }
  destruct (add_virtual_network_self (name_of config) (bridge_of config)
                                     mid w5)
    as [r6 [self' [w6 [-> Hadd]]]].
  do 3 eexists. split; [reflexivity|].
  destruct Hadd as [[-> ->]|[e [-> ->]]].
  - left. split; [reflexivity|]. exists mid. split; [assumption|reflexivity].
  - right. exists e. split; [reflexivity|].
    destruct Hmid as [->|[-> _]]; auto.
Qed.

Lemma list_remove_append_once (name : string) (l : list string) :
  NoDup l ->
  NoDup (list_remove name l ++ [name])
  /\ count_occ string_dec (list_remove name l ++ [name]) name = 1%nat.
Proof.
  intros Hnd. destruct (list_remove_NoDup name Hnd) as [Hnd' Hout].
  split.
  - apply NoDup_app; [assumption | repeat constructor; simpl; tauto |].
    intros x Hx [<-|[]]. contradiction.
  - rewrite count_occ_app. simpl.
    destruct (string_dec name name) as [_|Hne]; [|congruence].
    apply (count_occ_not_In string_dec) in Hout. rewrite Hout. reflexivity.
Qed.

Lemma list_remove_absent (name : string) (l : list string) :
  ~ In name l -> list_remove name l = l.
Proof.
  induction l as [|y l IH]; simpl; [reflexivity|].
  intros Hnotin. destruct (String.eqb_spec name y) as [->|Hne].
  - exfalso. auto.
  - f_equal. apply IH. auto.
Qed.

Lemma run_op_NoDup (o : vnet_op) (s : NetworkInstaller * world) :
  NoDup (vnets (fst s)) -> NoDup (vnets (fst (snd (run_op o s)))).
Proof.
  destruct s as [self w]. simpl. intros Hnd. destruct o as [name|config].
  - simpl.
    destruct (remove_virtual_network_self name self w)
      as [r [self' [w' [-> Hr]]]]. simpl.
    destruct Hr as [[_ [->|[-> _]]]|[e [_ ->]]]; try assumption.
    simpl. now apply list_remove_NoDup.
  - simpl.
    destruct (construct_virtual_network_self config self w)
      as [r [self' [w' [-> Hr]]]]. simpl.
    destruct Hr as [[_ [mid [Hmid ->]]]|[e [_ [->| ->]]]]; try assumption.
    + simpl. destruct Hmid as [->|[-> Hout]]; simpl.
      * now apply list_remove_append_once.
      * rewrite <- (list_remove_absent _ _ Hout).
        now apply list_remove_append_once.
    + simpl. now apply list_remove_NoDup.
Qed.

(** C10: from a list of registered networks without duplicates, every
    sequence of [remove_virtual_network] and [construct_virtual_network]
    calls, whether each returns or raises, leaves the list without
    duplicates; and when [construct_virtual_network] returns, the name of
    its network occurs exactly once in the list. *)
Theorem vnets_stay_duplicate_free (self : NetworkInstaller) (w : world) :
  NoDup (vnets self) ->
  (forall ops,
      NoDup (vnets (fst (fold_left (fun s o => snd (run_op o s)) ops
                                   (self, w)))))
  /\ (forall config self' w',
         construct_virtual_network config (self, w) = (Ok tt, (self', w')) ->
         NoDup (vnets self')
         /\ count_occ string_dec (vnets self') (name_of config) = 1%nat).
Proof.
  intros Hnd. split.
  - intros ops. change self with (fst (self, w)) in Hnd.
    revert Hnd. generalize (self, w).
    induction ops as [|o ops IH]; intros s Hs; simpl; [assumption|].
    apply IH. now apply run_op_NoDup.
  - intros config self' w' Hrun.
    destruct (construct_virtual_network_self config self w)
      as [r [self'' [w'' [Heq Hr]]]].
    rewrite Hrun in Heq. injection Heq as <- <- <-.
    destruct Hr as [[_ [mid [Hmid ->]]]|[e [Habs _]]]; [|discriminate].
    simpl. destruct Hmid as [->|[-> Hout]]; simpl.
    + now apply list_remove_append_once.
    + rewrite <- (list_remove_absent _ _ Hout).
      now apply list_remove_append_once.
Qed.

Lemma for_each_nil_unit {St} (c : M St unit) (s : St) :
  bind c (fun _ => ret tt) s = c s.
Proof.
  unfold bind, ret. now destruct (c s) as [[[]|e] s'].
Qed.

(** ** No call passes a timeout *)

Lemma appends_ret {St A} (tr : St -> list invocation)
      (Q : invocation -> Prop) (a : A) :
  appends tr Q (ret a).
Proof.
  intros s. exists []. simpl. now rewrite List.app_nil_r.
Qed.

Lemma appends_raise {St A} (tr : St -> list invocation)
      (Q : invocation -> Prop) (e : exn) :
  appends tr Q (@raise St A e).
Proof.
  intros s. exists []. simpl. now rewrite List.app_nil_r.
Qed.

Lemma appends_quiet {St A} (tr : St -> list invocation)
      (Q : invocation -> Prop) (c : M St A) :
  (forall s, tr (snd (c s)) = tr s) -> appends tr Q c.
Proof.
  intros Hq s. exists []. now rewrite Hq, List.app_nil_r.
Qed.

Lemma appends_bind {St A B} (tr : St -> list invocation)
      (Q : invocation -> Prop) (c : M St A) (k : A -> M St B) :
  appends tr Q c -> (forall a, appends tr Q (k a)) ->
  appends tr Q (bind c k).
Proof.
  intros Hc Hk s. unfold bind.
  destruct (Hc s) as [new1 [Htr1 Hq1]].
  destruct (c s) as [[a|e] s1]; simpl in *.
  - destruct (Hk a s1) as [new2 [Htr2 Hq2]].
    exists (new1 ++ new2). rewrite Htr2, Htr1, List.app_assoc.
    split; [reflexivity | now apply Forall_app].
  - now exists new1.
Qed.

Lemma appends_for_each {St A} (tr : St -> list invocation)
      (Q : invocation -> Prop) (xs : list A) (body : A -> M St unit) :
  (forall x, appends tr Q (body x)) -> appends tr Q (for_each xs body).
Proof.
  intros Hbody. induction xs as [|x xs IH]; simpl.
  - apply appends_ret.
  - apply appends_bind; [apply Hbody | intros _; exact IH].
Qed.

Lemma appends_lift {A} (Q : invocation -> Prop) (c : Sys A) :
  appends w_trace Q c -> appends method_trace Q (lift c).
Proof.
  intros Hc [self w]. rewrite lift_run. exact (Hc w).
Qed.

Lemma appends_run_cmd (Q : invocation -> Prop) (cmd : string)
      (args : list string) (stdin : stdin_src) (timeout : option Z) :
  Q {| inv_cmd := cmd; inv_args := args; inv_stdin := stdin;
       inv_timeout := timeout |} ->
  appends w_trace Q (run_cmd cmd args stdin timeout).
Proof.
  intros Hq w. unfold run_cmd.
  destruct (exec _ (w_host w)) as [[oserr|exitval] h]; simpl;
    eexists; (split; [reflexivity | now constructor]).
Qed.

Lemma appends_run_cmd2 (cmd : string) (args : list string) :
  appends w_trace untimed (run_cmd2 cmd args).
Proof.
  apply appends_run_cmd. reflexivity.
Qed.

Lemma appends_when {St} (tr : St -> list invocation)
      (Q : invocation -> Prop) (b : bool) (c : M St unit) :
  appends tr Q c -> appends tr Q (when b c).
Proof.
  intros Hc. destruct b; simpl; [exact Hc | apply appends_ret].
Qed.

Lemma appends_named_temporary_file {A} (Q : invocation -> Prop)
      (content : net_desc) (body : string -> Sys A) :
  (forall path, appends w_trace Q (body path)) ->
  appends w_trace Q (named_temporary_file content body).
Proof.
  intros Hbody w. unfold named_temporary_file.
  destruct (mktemp content (w_host w)) as [[oserr|path] h].
  { exists []. simpl. now rewrite List.app_nil_r. }
  destruct (Hbody path {| w_host := h; w_trace := w_trace w |})
    as [new [Htr Hq]].
  destruct (body path _) as [r w']. simpl in *. now exists new.
Qed.

Lemma appends_with_temporary_file {A} (Q : invocation -> Prop)
      (data : list string) (body : Sys A) :
  appends w_trace Q body -> appends w_trace Q (with_temporary_file data body).
Proof.
  intros Hbody w. unfold with_temporary_file.
  destruct (temporary_file data (w_host w)); [|apply Hbody].
  exists []. simpl. now rewrite List.app_nil_r.
Qed.

Create HintDb trace.
#[local] Hint Resolve appends_ret appends_raise appends_run_cmd2
  appends_lift appends_when appends_named_temporary_file : trace.

Lemma appends_remove_virtual_network (name : string) :
  appends method_trace untimed (remove_virtual_network name).
Proof.
  unfold remove_virtual_network.
  apply appends_bind; [now apply appends_quiet|]. intros self.
  destruct (negb _); [apply appends_ret|].
  repeat (apply appends_bind; [auto with trace | intros _]).
  now apply appends_quiet.
Qed.

Lemma appends_construct_virtual_network (config : network_config) :
  appends method_trace untimed (construct_virtual_network config).
Proof.
  unfold construct_virtual_network.
  apply appends_bind.
  { apply appends_quiet. intros [self w]. rewrite check_conflict_run.
    destruct (_ && _); [reflexivity|]. now destruct (_ && _). }
  intros _. apply appends_bind; [now apply appends_quiet|]. intros self.
  unfold remove_link.
  do 2 (apply appends_bind; [auto with trace | intros _]).
  apply appends_bind.
  { apply appends_quiet. intros [self' w]. unfold _find_underlay, bind.
    simpl. now destruct (scan_interfaces _ _). }
  intros found. apply appends_bind.
  { apply appends_lift. unfold add_new_tunnel.
    repeat (apply appends_bind; [auto with trace | intros _]).
    auto with trace. }
  intros _. apply appends_bind.
  { apply appends_lift. unfold connect_endpoints.
    apply appends_for_each. auto with trace. }
  intros _. apply appends_bind; [apply appends_remove_virtual_network|].
  intros _. unfold add_virtual_network.
  repeat (apply appends_bind; [auto with trace | intros _]).
  now apply appends_quiet.
Qed.

Lemma appends_install_networks (networks : dict network_config) :
  appends method_trace untimed (install_networks networks).
Proof.
  unfold install_networks.
  apply appends_bind; [apply appends_remove_virtual_network|]. intros _.
  apply appends_for_each. intros item.
  apply appends_construct_virtual_network.
Qed.

Lemma appends_main (argv : list string) :
  appends w_trace untimed (main argv).
Proof.
  unfold main. destruct argv as [|path rest]; [apply appends_raise|].
  apply appends_bind.
  { apply appends_quiet. intros w. unfold read_config.
    now destruct (open_config path (w_host w)). }
  intros config. apply appends_bind.
  { unfold setup_packages, prepare_package_installer, preconfigure_packages,
      install_packages, disable_services, enable_services.
    repeat (apply appends_bind; [|intros _]);
      try apply appends_for_each; auto with trace.
    destruct (list_from_packages _ _ preconfig_settings);
      [apply appends_ret |
       apply appends_with_temporary_file; now apply appends_run_cmd]. }
  intros _. apply appends_bind.
  { apply appends_quiet. intros w.
    destruct (__init__ w) as [[self|e] w'] eqn:Hinit; simpl.
    - now destruct (init_snapshot w Hinit) as [-> _].
    - now destruct (init_raises_unclassified w Hinit) as [-> _]. }
  intros self w. unfold on_object.
  destruct (appends_install_networks (networks_of config) (self, w))
    as [new [Htr Hq]].
  destruct (install_networks _ _) as [r [self' w']]. now exists new.
Qed.

(** C9: a call of the runner without a timeout sends the child no signal
    and raises no timeout error: it only waits; it returns only once the
    child has exited on its own, with the check of its exit status, and it
    does return as soon as enough polls are allowed; while the child does
    not exit the call keeps polling.  Every command the script runs, the
    device and registry commands of the reconciliation among them, is
    called that way. *)
Theorem untimed_run_only_waits :
  (forall (S : Type) (P : Runner.process S) (st : S) (cmd : string)
          (args : list string) (fuel : nat),
      let run := Runner.run_cmd P (Runner.Spawned st) cmd args None fuel in
      Forall (fun a => a = Runner.Wait) (fst run)
      /\ (forall r, snd run = Some r ->
                    exists n exitval,
                      (n <= fuel)%nat
                      /\ Runner.undisturbed P n st = inr exitval
                      /\ r = Runner.check_exit cmd args false exitval)
      /\ (forall n exitval,
             Runner.undisturbed P n st = inr exitval -> (n <= fuel)%nat ->
             snd run = Some (Runner.check_exit cmd args false exitval))
      /\ ((forall n, exists st', Runner.undisturbed P n st = inl st') ->
          snd run = None))
  /\ (forall (config : network_config) (self : NetworkInstaller) (w : world),
         exists new,
           w_trace (snd (snd (construct_virtual_network config (self, w))))
           = w_trace w ++ new
           /\ Forall untimed new)
  /\ (forall (argv : list string) (w : world),
         exists new,
           w_trace (snd (main argv w)) = w_trace w ++ new
           /\ Forall untimed new).
Proof.
  splits.
  - intros S P st cmd args fuel run.
    pose proof (@poll_no_timeout S P cmd args None fuel 0%Z false st eq_refl)
      as [Hall Hend].
    subst run. unfold Runner.run_cmd.
    destruct (Runner.poll P cmd args None fuel 0 false st) as [log e].
    simpl in Hall, Hend. destruct e as [|v|e]; simpl.
    + destruct Hend as [st' Hst']. splits.
      * assumption.
      * discriminate.
      * intros n exitval Hn Hle.
        rewrite (undisturbed_exit_mono P st Hle Hn) in Hst'. discriminate.
      * reflexivity.
    + destruct Hend as [n [Hle Hn]]. splits.
      * assumption.
      * intros r [= <-]. now exists n, v.
      * intros m exitval Hm Hle'.
        pose proof (undisturbed_exit_mono P st Hle Hn) as H1.
        pose proof (undisturbed_exit_mono P st Hle' Hm) as H2.
        congruence.
      * intros Hnever. destruct (Hnever n) as [st' Hst']. congruence.
    + contradiction.
  - intros config self w.
    exact (appends_construct_virtual_network config (self, w)).
  - intros argv w. exact (appends_main argv w).
Qed.

(** ** The default network is removed first *)

Lemma on_object_run {A} (self : NetworkInstaller) (m : Method A)
      (w : world) :
  on_object self m w = (fst (m (self, w)), snd (snd (m (self, w)))).
Proof.
  unfold on_object. now destruct (m (self, w)) as [r [self' w']].
Qed.

(** What [install_networks] does for "default" before it constructs. *)
Lemma install_networks_default (networks : dict network_config)
      (self : NetworkInstaller) (w : world) :
  let constructs :=
    for_each networks (fun item => construct_virtual_network (snd item)) in
  (str_in "default" (vnets self) = false ->
   remove_virtual_network "default" (self, w) = (Ok tt, (self, w))
   /\ install_networks networks (self, w) = constructs (self, w))
  /\ (str_in "default" (vnets self) = true ->
      exists r self' w',
        remove_virtual_network "default" (self, w) = (r, (self', w'))
        /\ (exists after,
               w_trace w'
               = w_trace w ++ virsh "net-destroy" "default" :: after
               /\ (after = [] \/ after = [virsh "net-undefine" "default"]))
        /\ (r = Ok tt ->
            w_trace w'
            = w_trace w ++ [virsh "net-destroy" "default";
                            virsh "net-undefine" "default"]
            /\ self' = set_vnets (list_remove "default") self
            /\ install_networks networks (self, w) = constructs (self', w'))
        /\ (forall e, r = Raise e ->
                      install_networks networks (self, w)
                      = (Raise e, (self', w'))))
  /\ (networks = [] ->
      install_networks networks (self, w)
      = remove_virtual_network "default" (self, w)).
Proof.
  intros constructs. splits.
  - intros Habsent. unfold install_networks, bind.
    rewrite remove_virtual_network_run, Habsent. now split.
  - intros Hpresent. unfold install_networks, bind.
    rewrite remove_virtual_network_run, Hpresent.
    destruct (run_cmd2_step "virsh" ["net-destroy"; "default"] w)
      as [r1 [wa [-> [Htr1 Hr1]]]].
    destruct Hr1 as [->|[e1 [-> _]]].
    + destruct (run_cmd2_step "virsh" ["net-undefine"; "default"] wa)
        as [r2 [wb [-> [Htr2 Hr2]]]].
      assert (Htr : w_trace wb
                    = w_trace w ++ [virsh "net-destroy" "default";
                                    virsh "net-undefine" "default"]).
      { rewrite Htr2, Htr1, <- List.app_assoc. reflexivity. }
      destruct Hr2 as [->|[e2 [-> _]]].
      * do 3 eexists. splits; [reflexivity | | |discriminate].
        -- exists [virsh "net-undefine" "default"]. split; [exact Htr|].
           now right.
        -- intros _. splits; [assumption | reflexivity | reflexivity].
      * do 3 eexists. splits; [reflexivity | | discriminate |].
        -- exists [virsh "net-undefine" "default"]. split; [exact Htr|].
           now right.
        -- now intros e [= <-].
    + do 3 eexists. splits; [reflexivity | | discriminate |].
      * exists []. split; [exact Htr1 | now left].
      * now intros e [= <-].
  - intros ->. unfold install_networks. simpl. apply for_each_nil_unit.
Qed.

(** C8: a run of [main] that has read its configuration, set up the
    packages and built its [NetworkInstaller] removes the registration
    "default" before it constructs any network.  When "default" is not
    in the snapshot of registered networks nothing is done for it, and
    the run is the construction of the networks from the state the
    constructor left.  When it is, [virsh net-destroy default] is the
    first command the run makes after the package phase; if that command
    or [virsh net-undefine default], which follows it, fails, the run
    ends with that failure and no network is constructed; otherwise the
    name leaves the list and the run is the construction of the networks
    from the state so reached, so that every command of a construction
    comes after the two.  With no network declared the removal is all
    the run does. *)
Theorem default_network_removed_first (path : string) (rest : list string)
        (w0 w1 w2 w : world) (config : blade_config)
        (self : NetworkInstaller) :
  read_config path w0 = (Ok config, w1) ->
  setup_packages (packages_of config) (cfg_blade_class config) w1
  = (Ok tt, w2) ->
  __init__ w2 = (Ok self, w) ->
  let constructs :=
    for_each (networks_of config)
             (fun item => construct_virtual_network (snd item)) in
  let run := main (path :: rest) w0 in
  run = on_object self (install_networks (networks_of config)) w
  /\ (str_in "default" (vnets self) = false ->
      remove_virtual_network "default" (self, w) = (Ok tt, (self, w))
      /\ run = (fst (constructs (self, w)), snd (snd (constructs (self, w)))))
  /\ (str_in "default" (vnets self) = true ->
      exists r self' w',
        remove_virtual_network "default" (self, w) = (r, (self', w'))
        /\ (exists later,
               w_trace (snd run)
               = w_trace w ++ virsh "net-destroy" "default" :: later)
        /\ (r = Ok tt ->
            w_trace w'
            = w_trace w ++ [virsh "net-destroy" "default";
                            virsh "net-undefine" "default"]
            /\ self' = set_vnets (list_remove "default") self
            /\ run = (fst (constructs (self', w')),
                      snd (snd (constructs (self', w'))))
            /\ exists later,
                w_trace (snd (snd (constructs (self', w'))))
                = w_trace w' ++ later
                /\ w_trace (snd run)
                   = w_trace w ++ [virsh "net-destroy" "default";
                                   virsh "net-undefine" "default"] ++ later)
        /\ (forall e,
               r = Raise e ->
               run = (Raise e, w')
               /\ (w_trace w'
                   = w_trace w ++ [virsh "net-destroy" "default"]
                   \/ w_trace w'
                      = w_trace w ++ [virsh "net-destroy" "default";
                                      virsh "net-undefine" "default"])))
  /\ (networks_of config = [] ->
      run = (fst (remove_virtual_network "default" (self, w)),
             snd (snd (remove_virtual_network "default" (self, w))))).
Proof.
  intros Hread Hsetup Hinit constructs run.
  assert (Hmain : run = on_object self (install_networks (networks_of config))
                                  w).
  { unfold run, main, bind. now rewrite Hread, Hsetup, Hinit. }
  destruct (install_networks_default (networks_of config) self w)
    as [Habsent [Hpresent Hnone]].
  fold constructs in Habsent, Hpresent.
  rewrite on_object_run in Hmain.
  splits.
  - rewrite Hmain. symmetry. apply on_object_run.
  - intros Hno. destruct (Habsent Hno) as [Hrm Hinst].
    split; [exact Hrm|]. now rewrite Hmain, Hinst.
  - intros Hyes.
    destruct (Hpresent Hyes)
      as [r [self' [w' [Hrm [[after [Htr Hafter]] [Hok Hfail]]]]]].
    exists r, self', w'. splits; [exact Hrm | | |].
    + destruct r as [[]|e].
      * destruct (Hok eq_refl) as [_ [_ Hinst]].
        destruct (@appends_for_each
                    _ _ method_trace untimed (networks_of config)
                    (fun item => construct_virtual_network (snd item))
                    (fun item =>
                       appends_construct_virtual_network (snd item))
                    (self', w')) as [new [Hnew _]].
        exists (after ++ new). rewrite Hmain, Hinst. simpl.
        fold constructs. unfold method_trace in Hnew. simpl in Hnew.
        unfold constructs. rewrite Hnew, Htr, <- List.app_assoc.
        reflexivity.
      * exists after. rewrite Hmain, (Hfail e eq_refl). exact Htr.
    + intros ->. destruct (Hok eq_refl) as [Htr' [Hself Hinst]].
      splits; [exact Htr' | exact Hself | now rewrite Hmain, Hinst |].
      destruct (@appends_for_each
                  _ _ method_trace untimed (networks_of config)
                  (fun item => construct_virtual_network (snd item))
                  (fun item => appends_construct_virtual_network (snd item))
                  (self', w')) as [new [Hnew _]].
      exists new. unfold method_trace in Hnew. simpl in Hnew.
      split; [exact Hnew|].
      rewrite Hmain, Hinst. simpl. fold constructs.
      unfold constructs. rewrite Hnew, Htr', <- List.app_assoc.
      reflexivity.
    + intros e ->. split; [now rewrite Hmain, (Hfail e eq_refl)|].
      destruct Hafter as [->| ->]; [now left | now right].
  - intros Hnil. now rewrite Hmain, (Hnone Hnil).
Qed.

(** ** Discovery that goes wrong *)



End Properties.

(** ** The reference blade *)

Lemma bind_ok {St A B} (c : M St A) (k : A -> M St B) (s s' : St) (b : B) :
  bind c k s = (Ok b, s') ->
  exists a s1, c s = (Ok a, s1) /\ k a s1 = (Ok b, s').
Proof.
  unfold bind. destruct (c s) as [[a|e] s1]; [|discriminate].
  intros Hk. now exists a, s1.
Qed.

Lemma lift_ok {H : Host} {A} (c : Sys A) (self self' : NetworkInstaller)
      (w w' : world) (a : A) :
  lift c (self, w) = (Ok a, (self', w')) -> self' = self /\ c w = (Ok a, w').
Proof.
  rewrite lift_run. destruct (c w) as [r w1]. simpl.
  intros [= -> <- <-]. now split.
Qed.

(** A command that succeeds on the blade was understood and applied. *)
Lemma blade_run_ok (cmd : string) (args : list string)
      (w w' : @world Blade.blade) :
  run_cmd2 cmd args w = (Ok tt, w') ->
  let inv := {| inv_cmd := cmd; inv_args := args; inv_stdin := SysStdin;
                inv_timeout := None |} in
  Blade.apply (Blade.parse inv) (w_host w) = Blade.ok (w_host w')
  /\ w_trace w' = w_trace w ++ [inv].
Proof.
  rewrite run_cmd2_run. simpl.
  assert (Hshape : forall o h, exists status h',
               Blade.apply o h = (Runner.Spawned status, h')).
  { intros o h. destruct o; simpl;
      repeat match goal with
             | |- context [match ?x with _ => _ end] => destruct x
             end; unfold Blade.ok, Blade.failed; eauto. }
  destruct (Hshape (Blade.parse {| inv_cmd := cmd; inv_args := args;
                                   inv_stdin := SysStdin;
                                   inv_timeout := None |}) (w_host w))
    as [status [h' Happly]].
  rewrite Happly. simpl.
  destruct (Z.eqb_spec status 0) as [->|Hne]; [|discriminate].
  intros [= <-]. simpl. now split.
Qed.

Lemma find_map_named (n : string) (f : Blade.link -> Blade.link)
      (ls : list Blade.link) :
  (forall l, Blade.l_name (f l) = Blade.l_name l) ->
  find (Blade.named n)
       (map (fun l => if Blade.named n l then f l else l) ls)
  = option_map f (find (Blade.named n) ls).
Proof.
  intros Hname. induction ls as [|l ls IH]; simpl; [reflexivity|].
  destruct (Blade.named n l) eqn:Hn.
  - unfold Blade.named in *. rewrite Hname, Hn. reflexivity.
  - rewrite Hn. exact IH.
Qed.

Lemma fdb_add_name (ip : string) (l : Blade.link) :
  Blade.l_name (Blade.fdb_add ip l) = Blade.l_name l.
Proof.
  unfold Blade.fdb_add. now destruct (str_in ip (Blade.l_fdb l)).
Qed.

Lemma fdb_add_dsts (ip : string) (l : Blade.link) :
  (forall x, In x (Blade.l_fdb (Blade.fdb_add ip l))
             <-> x = ip \/ In x (Blade.l_fdb l))
  /\ (NoDup (Blade.l_fdb l) -> NoDup (Blade.l_fdb (Blade.fdb_add ip l))).
Proof.
  unfold Blade.fdb_add.
  destruct (str_in ip (Blade.l_fdb l)) eqn:Hin; simpl.
  - apply str_in_In in Hin. split; [|auto].
    intros x. split; [auto | intros [->|?]; assumption].
  - apply str_in_false in Hin. split.
    + intros x. rewrite in_app_iff. simpl. intuition auto.
    + intros Hnd.
      apply NoDup_app; [assumption | repeat constructor; simpl; tauto|].
      intros x Hx [<-|[]]. contradiction.
Qed.

(** One [bridge fdb append] that succeeds. *)
Lemma fdb_append_ok (ip tunnel : string) (w w' : @world Blade.blade) :
  run_cmd2 "bridge" ["fdb"; "append"; "to"; "00:00:00:00:00:00";
                     "dst"; ip; "dev"; tunnel] w = (Ok tt, w') ->
  w_host w'
  = Blade.with_links
      (map (fun l => if Blade.named tunnel l then Blade.fdb_add ip l else l))
      (w_host w)
  /\ w_trace w' = w_trace w ++ [fdb_append ip tunnel]
  /\ existsb (fun l => Blade.named tunnel l && Blade.is_vxlan l)
             (Blade.links (w_host w)) = true.
Proof.
  intros Hrun. apply blade_run_ok in Hrun as [Happly Htr].
  change (Blade.parse _) with (Blade.FdbAppend ip tunnel) in Happly.
  simpl in Happly.
  destruct (existsb _ (Blade.links (w_host w))) eqn:Hex;
    [|discriminate].
  injection Happly as <-. now splits.
Qed.

Lemma mesh_loop (tunnel : string) (ips : list string)
      (w w' : @world Blade.blade) :
  for_each ips
    (fun ip_addr =>
       run_cmd2 "bridge" ["fdb"; "append"; "to"; "00:00:00:00:00:00";
                          "dst"; ip_addr; "dev"; tunnel]) w = (Ok tt, w') ->
  w_trace w' = w_trace w ++ map (fun ip => fdb_append ip tunnel) ips
  /\ (forall x, In x (Blade.fdb_dsts_of tunnel (w_host w'))
                <-> In x (Blade.fdb_dsts_of tunnel (w_host w)) \/ In x ips)
  /\ (NoDup (Blade.fdb_dsts_of tunnel (w_host w)) ->
      NoDup (Blade.fdb_dsts_of tunnel (w_host w'))).
Proof.
  revert w. induction ips as [|ip ips IH]; intros w; simpl.
  - intros [= <-]. rewrite List.app_nil_r. splits; [reflexivity | | auto].
    intros x. tauto.
  - intros Hrun. apply bind_ok in Hrun as [[] [w1 [Hstep Hrest]]].
    apply fdb_append_ok in Hstep as [Hhost [Htr Hex]].
    destruct (IH w1 Hrest) as [Htr' [Hmem Hnd]].
    assert (Hfdb : exists l,
               find (Blade.named tunnel) (Blade.links (w_host w)) = Some l
               /\ Blade.fdb_dsts_of tunnel (w_host w) = Blade.l_fdb l
               /\ Blade.fdb_dsts_of tunnel (w_host w1)
                  = Blade.l_fdb (Blade.fdb_add ip l)).
    { unfold Blade.fdb_dsts_of. rewrite Hhost. simpl.
      rewrite (find_map_named tunnel (Blade.fdb_add ip));
        [|apply fdb_add_name].
      destruct (find (Blade.named tunnel) (Blade.links (w_host w)))
        as [l|] eqn:Hfind.
      - exists l. now splits.
      - exfalso. apply existsb_exists in Hex as [l [Hl Hn]].
        apply andb_prop in Hn as [Hn _].
        now rewrite (find_none _ _ Hfind l Hl) in Hn. }
    destruct Hfdb as [l [_ [Hbefore Hafter]]].
    destruct (fdb_add_dsts ip l) as [Hadd Hkeep].
    splits.
    + rewrite Htr', Htr, <- List.app_assoc. reflexivity.
    + intros x. rewrite Hmem, Hafter, Hadd, Hbefore. intuition auto.
    + intros Hnd0. apply Hnd. rewrite Hafter. apply Hkeep.
      now rewrite <- Hbefore.
Qed.

(** C1: [connect_endpoints] makes one [bridge fdb append] per entry of
    the list other than the local IP, in the order of the list, so twice
    for a peer listed twice and never for the local IP; it removes
    nothing.  On the blade, once it has returned, the forwarding
    destinations of the tunnel device are therefore those it had plus the
    endpoint IPs other than the local one, and they are without
    duplicates if they were, because the device takes a destination it
    has only once.  Only on a device that had no destination, as the
    tunnel just created by [add_new_tunnel], are they exactly the
    endpoint IPs other than the local one, each once however often it is
    listed, the local one never, and the same up to order for any
    reordering of the list. *)
Theorem mesh_is_endpoints_minus_local (h h' : Blade.state)
        (tr tr' : list invocation) (tunnel local_ip_addr : string)
        (ips : list string) :
  connect_endpoints tunnel ips local_ip_addr (Blade.running h tr)
  = (Ok tt, Blade.running h' tr') ->
  (forall ip, In ip (Blade.fdb_dsts_of tunnel h')
              <-> In ip (Blade.fdb_dsts_of tunnel h)
                  \/ (In ip ips /\ ip <> local_ip_addr))
  /\ (NoDup (Blade.fdb_dsts_of tunnel h) ->
      NoDup (Blade.fdb_dsts_of tunnel h'))
  /\ (Blade.fdb_dsts_of tunnel h = [] ->
      NoDup (Blade.fdb_dsts_of tunnel h')
      /\ ~ In local_ip_addr (Blade.fdb_dsts_of tunnel h')
      /\ (forall ip, In ip (Blade.fdb_dsts_of tunnel h')
                     <-> In ip ips /\ ip <> local_ip_addr)
      /\ forall ips2 h2 tr2,
          Permutation ips ips2 ->
          connect_endpoints tunnel ips2 local_ip_addr (Blade.running h tr)
          = (Ok tt, Blade.running h2 tr2) ->
          Permutation (Blade.fdb_dsts_of tunnel h')
                      (Blade.fdb_dsts_of tunnel h2))
  /\ tr' = tr ++ map (fun ip => fdb_append ip tunnel)
                     (filter (fun ip => negb (String.eqb ip local_ip_addr))
                             ips).
Proof.
  assert (Hremote : forall l x,
             In x (filter (fun ip => negb (String.eqb ip local_ip_addr)) l)
             <-> In x l /\ x <> local_ip_addr).
  { intros l x. rewrite filter_In, negb_true_iff.
    destruct (String.eqb_spec x local_ip_addr); intuition congruence. }
  intros Hrun. unfold connect_endpoints in Hrun.
  apply mesh_loop in Hrun as [Htr [Hmem Hnd]]. simpl in *.
  assert (Hset : forall ip, In ip (Blade.fdb_dsts_of tunnel h')
                            <-> In ip (Blade.fdb_dsts_of tunnel h)
                                \/ (In ip ips /\ ip <> local_ip_addr)).
  { intros ip. now rewrite Hmem, Hremote. }
  splits; try assumption.
  intros Hempty. rewrite Hempty in *.
  assert (Hexact : forall ip, In ip (Blade.fdb_dsts_of tunnel h')
                              <-> In ip ips /\ ip <> local_ip_addr).
  { intros ip. rewrite Hset. simpl. tauto. }
  splits.
  - apply Hnd. constructor.
  - rewrite Hexact. tauto.
  - exact Hexact.
  - intros ips2 h2 tr2 Hperm Hrun2. unfold connect_endpoints in Hrun2.
    apply mesh_loop in Hrun2 as [_ [Hmem2 Hnd2]]. simpl in *.
    rewrite Hempty in *.
    apply NoDup_Permutation; [apply Hnd; constructor
                             |apply Hnd2; constructor|].
    intros x. rewrite Hexact, Hmem2, Hremote. simpl.
    split; intros Hx.
    + right. split; [|tauto]. apply (Permutation_in _ Hperm). tauto.
    + destruct Hx as [[]|[Hx Hne]]. split; [|assumption].
      apply (Permutation_in _ (Permutation_sym Hperm)). assumption.
Qed.

(** *** What the constructor sees of the blade *)

Lemma has_link_In (n : string) (ls : list Blade.link) :
  Blade.has_link n ls = true <-> In n (map Blade.l_name ls).
Proof.
  unfold Blade.has_link, Blade.named. rewrite existsb_exists, in_map_iff.
  split; intros [l [H1 H2]]; exists l.
  - apply String.eqb_eq in H2. now split.
  - split; [assumption | now apply String.eqb_eq].
Qed.

Lemma has_link_app (n : string) (l1 l2 : list Blade.link) :
  Blade.has_link n (l1 ++ l2) = Blade.has_link n l1 || Blade.has_link n l2.
Proof.
  apply existsb_app.
Qed.

Lemma distinct_NoDup (xs : list string) :
  Blade.distinct xs = true -> NoDup xs.
Proof.
  induction xs as [|x xs IH]; simpl; [constructor|].
  intros Hd. apply andb_prop in Hd as [Hx Hrest].
  constructor; [|now apply IH].
  apply negb_true_iff in Hx. now apply str_in_false.
Qed.

Lemma drop_last_newline (s : string) : drop_last (s ++ newline) = s.
Proof.
  induction s as [|c s IH]; [reflexivity|].
  simpl. rewrite IH. destruct s; reflexivity.
Qed.

Lemma dict_set_absent {V} (k : string) (v : V) (d : dict V) :
  ~ In k (dict_keys d) -> dict_set k v d = d ++ [(k, v)].
Proof.
  induction d as [|[k' v'] d IH]; simpl; [reflexivity|].
  intros Hnotin. destruct (String.eqb_spec k k') as [->|Hne].
  - exfalso. auto.
  - f_equal. apply IH. auto.
Qed.

Lemma dict_of_distinct {A V} (key : A -> string) (val : A -> V)
      (xs : list A) :
  NoDup (map key xs) -> dict_of key val xs = map (fun x => (key x, val x)) xs.
Proof.
  unfold dict_of.
  assert (Hgen : forall acc : dict V,
             NoDup (map key xs) ->
             (forall x, In x xs -> ~ In (key x) (dict_keys acc)) ->
             fold_left (fun d x => dict_set (key x) (val x) d) xs acc
             = acc ++ map (fun x => (key x, val x)) xs).
  { induction xs as [|x xs IH]; intros acc Hnd Hfresh; simpl.
    - now rewrite List.app_nil_r.
    - inversion Hnd as [|? ? Hx Hnd']; subst.
      rewrite dict_set_absent by (apply Hfresh; now left).
      rewrite IH; [now rewrite <- List.app_assoc | assumption |].
      intros y Hy. unfold dict_keys. rewrite map_app, in_app_iff. simpl.
      intros [Hin|[Heq|[]]].
      + apply (Hfresh y); [now right | assumption].
      + apply Hx. rewrite Heq. now apply in_map.  }
  intros Hnd. now apply (Hgen [] Hnd).
Qed.

(** The part of a snapshot the Underlay Resolver reads. *)
Lemma scan_interfaces_ext (d1 d2 : dict iface) (endpoint_ips : list string) :
  map (fun kv => (fst kv, addr_info (snd kv))) d1
  = map (fun kv => (fst kv, addr_info (snd kv))) d2 ->
  scan_interfaces d1 endpoint_ips = scan_interfaces d2 endpoint_ips.
Proof.
  revert d2. induction d1 as [|[k1 i1] d1 IH]; intros [|[k2 i2] d2]; simpl;
    try discriminate; [reflexivity|].
  intros [= -> Haddr Hrest]. rewrite Haddr, (IH d2 Hrest). reflexivity.
Qed.

Lemma dict_set_same_addrs (k : string) (i i' : iface) (d : dict iface) :
  dict_get k d = Some i -> addr_info i' = addr_info i ->
  map (fun kv => (fst kv, addr_info (snd kv))) (dict_set k i' d)
  = map (fun kv => (fst kv, addr_info (snd kv))) d.
Proof.
  induction d as [|[k' v'] d IH]; simpl; [discriminate|].
  destruct (String.eqb_spec k k') as [->|Hne]; simpl.
  - intros [= ->] ->. reflexivity.
  - intros Hget Haddr. now rewrite IH.
Qed.

Lemma fold_fdb_dsts_addrs (dsts : list fdb_entry) (ifs ifs' : dict iface) :
  fold_fdb_dsts dsts ifs = Ok ifs' ->
  map (fun kv => (fst kv, addr_info (snd kv))) ifs'
  = map (fun kv => (fst kv, addr_info (snd kv))) ifs.
Proof.
  revert ifs. induction dsts as [|entry dsts IH]; intros ifs; simpl.
  - now intros [= ->].
  - destruct (dst entry) as [ip|]; [|apply IH].
    destruct (dict_get (fdb_ifname entry) ifs) as [i|] eqn:Hget;
      [|discriminate].
    intros Hrec. rewrite (IH _ Hrec).
    eapply dict_set_same_addrs; [exact Hget | reflexivity].
Qed.

Lemma blade_init (h : Blade.state) (tr : list invocation)
      (self : NetworkInstaller) (w' : @world Blade.blade) :
  __init__ (Blade.running h tr) = (Ok self, w') ->
  w' = Blade.running h tr
  /\ (forall n, dict_mem n (interfaces self)
                = Blade.has_link n (Blade.links h))
  /\ vnets self
     = filter (fun n => negb (String.eqb n EmptyString))
              (map Blade.v_name (filter Blade.v_active (Blade.nets h)))
  /\ (NoDup (map Blade.l_name (Blade.links h)) ->
      forall ips, scan_interfaces (interfaces self) ips
                  = Blade.underlay (Blade.links h) ips).
Proof.
  intros Hinit.
  destruct (init_snapshot _ Hinit) as [-> _]. split; [reflexivity|].
  revert Hinit. unfold __init__, bind, _get_interfaces, bind, popen_json,
                  of_result, _get_virtual_networks, ret.
  simpl.
  destruct (fold_fdb_dsts _ _) as [ifs|e] eqn:Hfold; [|discriminate].
  destruct (dict_where (has_info_kind "vxlan") ifs []); [|discriminate].
  destruct (dict_where (has_info_kind "bridge") ifs []); [|discriminate].
  intros [= <-]. simpl. splits.
  - intros n.
    assert (Hiff : dict_mem n ifs = true
                   <-> Blade.has_link n (Blade.links h) = true).
    { rewrite dict_mem_keys, (fold_fdb_dsts_keys _ _ Hfold).
      rewrite (proj2 (dict_of_spec ifname (fun i => i) _)).
      rewrite map_map. simpl. symmetry. apply has_link_In. }
    destruct (dict_mem n ifs), (Blade.has_link n (Blade.links h));
      intuition congruence.
  - unfold Blade.net_lines. rewrite filter_app, map_app. simpl.
    rewrite List.app_nil_r.
    induction (filter Blade.v_active (Blade.nets h)) as [|v vs IH]; simpl.
    + reflexivity.
    + rewrite drop_last_newline.
      destruct (String.eqb (Blade.v_name v) EmptyString); simpl.
      * exact IH.
      * now rewrite drop_last_newline, IH.
  - intros Hnd ips. unfold Blade.underlay.
    apply scan_interfaces_ext.
    rewrite (fold_fdb_dsts_addrs _ _ Hfold).
    rewrite dict_of_distinct.
    + rewrite !map_map. reflexivity.
    + rewrite map_map. exact Hnd.
Qed.

(** *** The commands that succeed on the blade *)

(** From a successful call to the condition under which the blade
    accepts the command [o] and to the state it leaves. *)
Ltac blade_step Hrun o :=
  apply blade_run_ok in Hrun as [Hrun _];
  change (Blade.parse _) with o in Hrun;
  unfold Blade.apply in Hrun;
  repeat match type of Hrun with
         | context [if ?c then _ else _] => destruct c eqn:?
         | context [match ?c with Some _ => _ | None => _ end] =>
             destruct c eqn:?
         end;
  try discriminate Hrun;
  injection Hrun as Hrun.

Lemma link_del_ok (n : string) (w w' : @world Blade.blade) :
  run_cmd2 "ip" ["link"; "del"; n] w = (Ok tt, w') ->
  Blade.has_link n (Blade.links (w_host w)) = true
  /\ w_host w' = Blade.with_links (Blade.del_link n) (w_host w).
Proof.
  intros Hrun. blade_step Hrun (Blade.LinkDel n). now split.
Qed.

Lemma when_remove_ok (b : bool) (n : string) (self : NetworkInstaller)
      (w : @world Blade.blade) (s' : NetworkInstaller * @world Blade.blade) :
  when b (lift (remove_link n)) (self, w) = (Ok tt, s') ->
  fst s' = self
  /\ w_host (snd s')
     = (if b then Blade.with_links (Blade.del_link n) (w_host w)
        else w_host w).
Proof.
  destruct b; simpl.
  - destruct s' as [self' w']. intros Hrun.
    apply lift_ok in Hrun as [-> Hrun].
    apply link_del_ok in Hrun as [_ Hhost]. now split.
  - intros [= <-]. now split.
Qed.

Lemma add_new_tunnel_ok (t b vni dev : string) (w w' : @world Blade.blade) :
  add_new_tunnel t b vni dev w = (Ok tt, w') ->
  Blade.has_link t (Blade.links (w_host w)) = false
  /\ Blade.has_link dev (Blade.links (w_host w)) = true
  /\ Blade.has_link b (Blade.links (w_host w)
                       ++ [Blade.new_vxlan t vni dev]) = false
  /\ w_host w'
     = Blade.with_links
         (fun ls => Blade.enslave t b
                      ((ls ++ [Blade.new_vxlan t vni dev])
                       ++ [Blade.new_bridge b]))
         (w_host w).
Proof.
  unfold add_new_tunnel. intros Hrun.
  apply bind_ok in Hrun as [[] [w1 [H1 Hrun]]].
  apply bind_ok in Hrun as [[] [w2 [H2 H3]]].
  blade_step H1 (Blade.LinkAddVxlan t vni dev).
  blade_step H2 (Blade.LinkAddBridge b).
  blade_step H3 (Blade.LinkSetMaster t b).
  match goal with
  | Hc : _ || _ = false |- _ =>
      apply orb_false_iff in Hc as [Ht Hdev];
      apply negb_false_iff in Hdev
  end.
  rewrite <- H1 in *. simpl in *. splits; try assumption.
  rewrite <- H3, <- H2. destruct (w_host w). reflexivity.
Qed.

Lemma flood_name (ips : list string) (l : Blade.link) :
  Blade.l_name (Blade.flood ips l) = Blade.l_name l.
Proof.
  revert l. unfold Blade.flood.
  induction ips as [|ip ips IH]; intros l; simpl; [reflexivity|].
  now rewrite IH, fdb_add_name.
Qed.

Lemma connect_endpoints_host (t local_ip_addr : string) (ips : list string)
      (w w' : @world Blade.blade) :
  connect_endpoints t ips local_ip_addr w = (Ok tt, w') ->
  w_host w'
  = Blade.with_links
      (map (fun l =>
              if Blade.named t l
              then Blade.flood
                     (filter (fun ip => negb (String.eqb ip local_ip_addr))
                             ips) l
              else l))
      (w_host w).
Proof.
  unfold connect_endpoints.
  generalize (filter (fun ip => negb (String.eqb ip local_ip_addr)) ips).
  intros remote. revert w. induction remote as [|ip remote IH]; intros w.
  - simpl. intros [= <-]. destruct (w_host w) as [ls ns tf cp cf].
    unfold Blade.with_links. simpl. f_equal.
    induction ls as [|l ls IHl]; simpl; [reflexivity|].
    rewrite <- IHl. now destruct (Blade.named t l).
  - simpl. intros Hrun. apply bind_ok in Hrun as [[] [w1 [Hstep Hrest]]].
    apply fdb_append_ok in Hstep as [Hhost _].
    rewrite (IH w1 Hrest), Hhost.
    destruct (w_host w) as [ls ns tf cp cf].
    unfold Blade.with_links. simpl. f_equal.
    rewrite map_map. apply map_ext. intros l.
    destruct (Blade.named t l) eqn:Hn; [|now rewrite Hn].
    unfold Blade.named in *. now rewrite fdb_add_name, Hn.
Qed.

Lemma remove_virtual_network_ok (name : string) (self : NetworkInstaller)
      (w : @world Blade.blade) (s' : NetworkInstaller * @world Blade.blade) :
  remove_virtual_network name (self, w) = (Ok tt, s') ->
  w_host (snd s')
  = (if str_in name (vnets self)
     then Blade.with_nets
            (fun vs => Blade.net_undefine name (Blade.net_destroy name vs))
            (w_host w)
     else w_host w).
Proof.
  rewrite remove_virtual_network_run.
  destruct (str_in name (vnets self)); [|now intros [= <-]].
  destruct (run_cmd2 "virsh" ["net-destroy"; name] w) as [[[]|e] w1] eqn:H1;
    [|discriminate].
  destruct (run_cmd2 "virsh" ["net-undefine"; name] w1) as [[[]|e] w2] eqn:H2;
    [|discriminate].
  intros [= <-]. simpl.
  blade_step H1 (Blade.NetDestroy name).
  blade_step H2 (Blade.NetUndefine name).
  rewrite <- H2, <- H1. destruct (w_host w). reflexivity.
Qed.

Lemma add_virtual_network_ok (name bridge : string) (self : NetworkInstaller)
      (w : @world Blade.blade) (s' : NetworkInstaller * @world Blade.blade) :
  add_virtual_network name bridge (self, w) = (Ok tt, s') ->
  Blade.has_net name (Blade.nets (w_host w)) = false
  /\ w_host (snd s')
     = Blade.with_tmpfile None
         (Blade.with_nets
            (fun vs =>
               Blade.net_autostart name
                 (Blade.net_start name
                    (vs ++ [Blade.defined_net
                              {| nd_name := name;
                                 nd_forward_mode := "bridge";
                                 nd_bridge := bridge |}])))
            (w_host w)).
Proof.
  unfold add_virtual_network. intros Hrun.
  apply bind_ok in Hrun as [[] [[self1 w1] [H1 Hrun]]].
  apply bind_ok in Hrun as [[] [[self2 w2] [H2 Hrun]]].
  apply bind_ok in Hrun as [[] [[self3 w3] [H3 Hrun]]].
  apply lift_ok in H1 as [-> H1].
  apply lift_ok in H2 as [-> H2].
  apply lift_ok in H3 as [-> H3].
  injection Hrun as <-. simpl.
  unfold named_temporary_file in H1. simpl in H1.
  destruct (run_cmd2 "virsh" ["net-define"; Blade.tmp_path] _)
    as [r wd] eqn:Hdef.
  injection H1 as -> <-.
  blade_step Hdef (Blade.NetDefine Blade.tmp_path).
  blade_step H2 (Blade.NetStart name).
  blade_step H3 (Blade.NetAutostart name).
  simpl in *.
  repeat match goal with
         | Hf : Some _ = Some ?d |- _ => injection Hf as Hf; subst d
         end.
  match goal with
  | Hc : negb (Blade.has_net _ _) = true |- _ =>
      apply negb_true_iff in Hc; simpl in Hc; rename Hc into Hfree
  end.
  split; [assumption|].
  rewrite <- H3, <- H2, <- Hdef. destruct (w_host w). reflexivity.
Qed.

Lemma map_named_absent (n : string) (f : Blade.link -> Blade.link)
      (ls : list Blade.link) :
  Blade.has_link n ls = false ->
  map (fun l => if Blade.named n l then f l else l) ls = ls.
Proof.
  induction ls as [|l ls IH]; simpl; [reflexivity|].
  intros Hno. apply orb_false_iff in Hno as [Hl Hls].
  now rewrite Hl, IH.
Qed.

Lemma rebuilt_links (t b vni dev : string) (remote : list string)
      (ls : list Blade.link) :
  Blade.has_link t ls = false ->
  Blade.has_link b (ls ++ [Blade.new_vxlan t vni dev]) = false ->
  map (fun l => if Blade.named t l then Blade.flood remote l else l)
      (Blade.enslave t b ((ls ++ [Blade.new_vxlan t vni dev])
                          ++ [Blade.new_bridge b]))
  = ls ++ [Blade.flood remote
             (Blade.set_master (Some b) (Blade.new_vxlan t vni dev));
           Blade.new_bridge b].
Proof.
  intros Ht Hb. rewrite has_link_app in Hb.
  apply orb_false_iff in Hb as [Hbl Hbt]. simpl in Hbt.
  apply orb_false_iff in Hbt as [Hbt _].
  assert (Hvx : Blade.named t (Blade.new_vxlan t vni dev) = true)
    by apply String.eqb_refl.
  assert (Hvx' : Blade.named t (Blade.set_master (Some b)
                                  (Blade.new_vxlan t vni dev)) = true)
    by apply String.eqb_refl.
  assert (Hbr : Blade.named t (Blade.new_bridge b) = false).
  { unfold Blade.named in *. simpl in *. now rewrite String.eqb_sym. }
  unfold Blade.enslave. rewrite <- List.app_assoc, !map_app.
  rewrite (@map_named_absent t (Blade.set_master (Some b)) ls Ht).
  rewrite (@map_named_absent t (Blade.flood remote) ls Ht). simpl.
  now rewrite Hvx, Hvx', Hbr, Hbr.
Qed.

Lemma net_map_absent (n : string) (f : Blade.vnet -> Blade.vnet)
      (vs : list Blade.vnet) :
  Blade.has_net n vs = false ->
  map (fun v => if Blade.net_named n v then f v else v) vs = vs.
Proof.
  induction vs as [|v vs IH]; simpl; [reflexivity|].
  intros Hno. apply orb_false_iff in Hno as [Hv Hvs].
  now rewrite Hv, IH.
Qed.

Lemma rebuilt_nets (config : network_config) (vs : list Blade.vnet) :
  Blade.has_net (name_of config) vs = false ->
  Blade.net_autostart (name_of config)
    (Blade.net_start (name_of config)
       (vs ++ [Blade.defined_net
                 {| nd_name := name_of config; nd_forward_mode := "bridge";
                    nd_bridge := bridge_of config |}]))
  = vs ++ [Blade.registered config].
Proof.
  intros Hno. unfold Blade.net_autostart, Blade.net_start.
  rewrite !map_app.
  rewrite (@net_map_absent (name_of config)
             (fun v => Blade.set_net true (Blade.v_persistent v)
                                     (Blade.v_autostart v) v) vs Hno).
  rewrite (@net_map_absent (name_of config)
             (fun v => Blade.set_net (Blade.v_active v)
                                     (Blade.v_persistent v) true v) vs Hno).
  simpl. unfold Blade.net_named. simpl. rewrite String.eqb_refl. simpl.
  rewrite String.eqb_refl. reflexivity.
Qed.

(** A construction that succeeds on the blade: what was there is
    cleared, the underlay is found, and the network is built over the
    rest. *)
Lemma construct_ok_blade (config : network_config) (self : NetworkInstaller)
      (h : Blade.state) (tr : list invocation)
      (s' : NetworkInstaller * @world Blade.blade) :
  construct_virtual_network config (self, Blade.running h tr) = (Ok tt, s') ->
  exists found,
    scan_interfaces (interfaces self) (endpoints_of config) = Some found
    /\ Blade.has_link (tunnel_of config)
                      (Blade.cleared self config (Blade.links h)) = false
    /\ Blade.has_link (fst found)
                      (Blade.cleared self config (Blade.links h)) = true
    /\ Blade.has_link (bridge_of config)
                      (Blade.cleared self config (Blade.links h)) = false
    /\ tunnel_of config <> bridge_of config
    /\ Blade.has_net (name_of config)
                     (Blade.unregistered self config (Blade.nets h)) = false
    /\ w_host (snd s')
       = Blade.rebuilt config found
           (Blade.cleared self config (Blade.links h))
           (Blade.unregistered self config (Blade.nets h)) h.
Proof.
  unfold construct_virtual_network. intros Hrun.
  apply bind_ok in Hrun as [[] [s1 [Hcheck Hrun]]].
  rewrite check_conflict_run in Hcheck.
  destruct (_ && _) in Hcheck; [discriminate|].
  destruct (_ && _) in Hcheck; [discriminate|].
  injection Hcheck as <-.
  apply bind_ok in Hrun as [self0 [s2 [Hself Hrun]]].
  injection Hself as <- <-.
  apply bind_ok in Hrun as [[] [s3 [Hdel1 Hrun]]].
  apply bind_ok in Hrun as [[] [s4 [Hdel2 Hrun]]].
  apply bind_ok in Hrun as [found [s5 [Hfind Hrun]]].
  apply bind_ok in Hrun as [[] [s6 [Hadd Hrun]]].
  apply bind_ok in Hrun as [[] [s7 [Hmesh Hrun]]].
  apply bind_ok in Hrun as [[] [s8 [Hunreg Hreg]]].
  destruct s3 as [self3 w3]. apply when_remove_ok in Hdel1 as [E1 Hh3].
  simpl in E1, Hh3. subst self3.
  destruct s4 as [self4 w4]. apply when_remove_ok in Hdel2 as [E2 Hh4].
  simpl in E2, Hh4. subst self4.
  unfold _find_underlay, bind, get_self in Hfind. simpl in Hfind.
  destruct (scan_interfaces (interfaces self) (endpoints_of config))
    as [found'|] eqn:Hscan; [|discriminate].
  injection Hfind as -> <-.
  destruct s6 as [self6 w6]. apply lift_ok in Hadd as [-> Hadd].
  apply add_new_tunnel_ok in Hadd as [Ht [Hdev [Hb Hh6]]].
  destruct s7 as [self7 w7]. apply lift_ok in Hmesh as [-> Hmesh].
  apply connect_endpoints_host in Hmesh.
  destruct s8 as [self8 w8].
  pose proof (remove_virtual_network_self (name_of config) self w7)
    as [r [self8' [w8' [Heq Hself8]]]].
  rewrite Hunreg in Heq. injection Heq as <- <- <-.
  pose proof Hunreg as Hh8. apply remove_virtual_network_ok in Hh8.
  simpl in Hh8.
  apply add_virtual_network_ok in Hreg as [Hfree Hh9].
  assert (Hlinks4 : Blade.links (w_host w4)
                    = Blade.cleared self config (Blade.links h)).
  { rewrite Hh4, Hh3. unfold Blade.cleared. simpl.
    destruct (dict_mem (tunnel_of config) (interfaces self));
      destruct (dict_mem (bridge_of config) (interfaces self));
      destruct h; reflexivity. }
  assert (Hnets4 : Blade.nets (w_host w4) = Blade.nets h
                   /\ Blade.config_path (w_host w4) = Blade.config_path h
                   /\ Blade.config (w_host w4) = Blade.config h).
  { rewrite Hh4, Hh3. simpl.
    destruct (dict_mem (tunnel_of config) (interfaces self));
      destruct (dict_mem (bridge_of config) (interfaces self));
      destruct h; now splits. }
  destruct Hnets4 as [Hnets4 [Hcp4 Hcf4]].
  rewrite Hlinks4 in Ht, Hdev, Hb.
  assert (Hb' := Hb). rewrite has_link_app in Hb'.
  apply orb_false_iff in Hb' as [Hbl Hbt].
  assert (Hne : tunnel_of config <> bridge_of config).
  { intros Heq. simpl in Hbt. unfold Blade.named in Hbt. simpl in Hbt.
    rewrite Heq, String.eqb_refl in Hbt. discriminate. }
  assert (Hnets8 : Blade.nets (w_host w8)
                   = Blade.unregistered self config (Blade.nets h)).
  { rewrite Hh8, Hmesh, Hh6. unfold Blade.unregistered.
    destruct (str_in (name_of config) (vnets self)); simpl;
      destruct (w_host w4); simpl in *; now subst. }
  rewrite Hnets8 in Hfree.
  exists found. splits; try assumption; try reflexivity.
  rewrite Hh9. unfold Blade.rebuilt, Blade.with_tmpfile, Blade.with_nets.
  simpl. rewrite Hnets8, rebuilt_nets by exact Hfree.
  assert (Hrest : Blade.links (w_host w8)
                  = Blade.cleared self config (Blade.links h)
                    ++ [Blade.tunnel_link config found;
                        Blade.new_bridge (bridge_of config)]
                  /\ Blade.config_path (w_host w8) = Blade.config_path h
                  /\ Blade.config (w_host w8) = Blade.config h).
  { rewrite Hh8, Hmesh, Hh6.
    destruct (str_in (name_of config) (vnets self));
      destruct (w_host w4) as [ls ns tf cp cf]; simpl in *; subst;
      (splits; [|reflexivity|reflexivity]);
      now rewrite rebuilt_links by assumption. }
  destruct Hrest as [-> [-> ->]]. reflexivity.
Qed.

(** *** Links removed and links kept *)

Lemma del_link_names (n : string) (ls : list Blade.link) :
  map Blade.l_name (Blade.del_link n ls)
  = filter (fun x => negb (String.eqb x n)) (map Blade.l_name ls).
Proof.
  unfold Blade.del_link. rewrite map_map.
  induction ls as [|l ls IH]; simpl; [reflexivity|].
  unfold Blade.named at 1. destruct (String.eqb (Blade.l_name l) n); simpl.
  - exact IH.
  - rewrite IH. now destruct (Blade.mastered_by n l).
Qed.

Lemma del_link_app (n : string) (l1 l2 : list Blade.link) :
  Blade.del_link n (l1 ++ l2) = Blade.del_link n l1 ++ Blade.del_link n l2.
Proof.
  unfold Blade.del_link. now rewrite filter_app, map_app.
Qed.

Lemma del_link_releases (n : string) (ls : list Blade.link) :
  Forall (fun l => Blade.mastered_by n l = false) (Blade.del_link n ls).
Proof.
  unfold Blade.del_link. induction ls as [|l ls IH]; simpl; [constructor|].
  destruct (Blade.named n l); simpl; [exact IH|].
  constructor; [|exact IH].
  destruct (Blade.mastered_by n l) eqn:Hm; [reflexivity | exact Hm].
Qed.

Lemma del_link_keeps_free (m n : string) (ls : list Blade.link) :
  Forall (fun l => Blade.mastered_by m l = false) ls ->
  Forall (fun l => Blade.mastered_by m l = false) (Blade.del_link n ls).
Proof.
  unfold Blade.del_link. induction 1 as [|l ls Hl Hls IH]; simpl;
    [constructor|].
  destruct (Blade.named n l); simpl; [exact IH|].
  constructor; [|exact IH].
  now destruct (Blade.mastered_by n l).
Qed.

Lemma del_link_absent (n : string) (ls : list Blade.link) :
  Blade.has_link n ls = false ->
  Forall (fun l => Blade.mastered_by n l = false) ls ->
  Blade.del_link n ls = ls.
Proof.
  unfold Blade.del_link. intros Hno Hfree.
  induction Hfree as [|l ls Hl Hls IH]; simpl; [reflexivity|].
  simpl in Hno. apply orb_false_iff in Hno as [Hn Hrest].
  rewrite Hn. simpl. now rewrite Hl, IH.
Qed.

Lemma has_link_del_other (n m : string) (ls : list Blade.link) :
  Blade.has_link m (Blade.del_link n ls) = true ->
  Blade.has_link m ls = true /\ m <> n.
Proof.
  rewrite !has_link_In, del_link_names, filter_In, negb_true_iff.
  intros [Hin Hne]. split; [assumption|].
  intros ->. now rewrite String.eqb_refl in Hne.
Qed.

(** *** The underlay seen through the links *)

Lemma scan_addr_info_device (intf : string) (infos : list addr)
      (ips : list string) (found : string * string) :
  scan_addr_info intf infos ips = Some found -> fst found = intf.
Proof.
  induction infos as [|info infos IH]; simpl; [discriminate|].
  destruct (local info) as [ip|]; [|exact IH].
  destruct (str_in ip ips); [now intros [= <-] | exact IH].
Qed.

Lemma underlay_app_bare (ls extra : list Blade.link) (ips : list string) :
  Forall (fun l => Blade.l_addrs l = []) extra ->
  Blade.underlay (ls ++ extra) ips = Blade.underlay ls ips.
Proof.
  intros Hbare. unfold Blade.underlay.
  induction ls as [|l ls IH]; simpl.
  - induction Hbare as [|l extra Hl Hextra IH]; simpl; [reflexivity|].
    now rewrite Hl.
  - now rewrite IH.
Qed.

Lemma underlay_del_link (n : string) (ls : list Blade.link)
      (ips : list string) (found : string * string) :
  Blade.underlay ls ips = Some found -> fst found <> n ->
  Blade.underlay (Blade.del_link n ls) ips = Some found.
Proof.
  unfold Blade.underlay, Blade.del_link. intros Hfound Hne.
  induction ls as [|l ls IH]; simpl in *; [discriminate|].
  destruct (scan_addr_info (Blade.l_name l) _ ips) as [p|] eqn:Hscan.
  - injection Hfound as ->.
    apply scan_addr_info_device in Hscan as Hdev.
    assert (Hkept : Blade.named n l = false).
    { unfold Blade.named. rewrite <- Hdev. now apply String.eqb_neq. }
    rewrite Hkept. simpl.
    destruct (Blade.mastered_by n l); simpl; now rewrite Hscan.
  - destruct (Blade.named n l); simpl; [now apply IH|].
    destruct (Blade.mastered_by n l); simpl; rewrite Hscan; now apply IH.
Qed.

(** *** Networks removed and networks kept *)

Lemma net_filter_absent (n : string) (g : Blade.vnet -> bool)
      (vs : list Blade.vnet) :
  Blade.has_net n vs = false ->
  filter (fun v => negb (Blade.net_named n v) || g v) vs = vs.
Proof.
  induction vs as [|v vs IH]; simpl; [reflexivity|].
  intros Hno. apply orb_false_iff in Hno as [Hv Hvs].
  rewrite Hv. simpl. now rewrite IH.
Qed.

Lemma unregister_registered (config : network_config)
      (vs : list Blade.vnet) :
  Blade.has_net (name_of config) vs = false ->
  Blade.net_undefine (name_of config)
    (Blade.net_destroy (name_of config) (vs ++ [Blade.registered config]))
  = vs.
Proof.
  intros Hno. unfold Blade.net_undefine, Blade.net_destroy.
  assert (Hreg : Blade.net_named (name_of config) (Blade.registered config)
                 = true) by apply String.eqb_refl.
  rewrite filter_app, map_app.
  rewrite (@net_filter_absent (name_of config) Blade.v_persistent vs Hno).
  rewrite (@net_map_absent (name_of config)
             (fun v => Blade.set_net false (Blade.v_persistent v)
                                     (Blade.v_autostart v) v) vs Hno).
  simpl. rewrite Hreg. simpl. rewrite Hreg.
  rewrite filter_app, map_app.
  rewrite (@net_filter_absent (name_of config) Blade.v_active vs Hno).
  rewrite (@net_map_absent (name_of config)
             (fun v => Blade.set_net (Blade.v_active v) false false v)
             vs Hno).
  simpl.
  assert (Hreg' : Blade.net_named (name_of config)
                    (Blade.set_net false true true (Blade.registered config))
                  = true) by apply String.eqb_refl.
  rewrite Hreg'. simpl. apply List.app_nil_r.
Qed.

Lemma has_net_app (n : string) (v1 v2 : list Blade.vnet) :
  Blade.has_net n (v1 ++ v2) = Blade.has_net n v1 || Blade.has_net n v2.
Proof.
  apply existsb_app.
Qed.

Lemma well_formed_links (h : Blade.state) :
  Blade.well_formed h = true ->
  NoDup (map Blade.l_name (Blade.links h))
  /\ forall m, Blade.has_link m (Blade.links h) = false ->
               Forall (fun l => Blade.mastered_by m l = false)
                      (Blade.links h).
Proof.
  unfold Blade.well_formed. intros Hwf.
  apply andb_prop in Hwf as [Hd Hm]. split; [now apply distinct_NoDup|].
  intros m Hno. rewrite forallb_forall in Hm. apply Forall_forall.
  intros l Hl. specialize (Hm l Hl). unfold Blade.mastered_by.
  destruct (Blade.l_master l) as [m'|]; [|reflexivity].
  destruct (String.eqb_spec m' m) as [->|Hne]; [|reflexivity].
  apply existsb_exists in Hm as [b [Hb Hnb]].
  apply andb_prop in Hnb as [Hnb _].
  assert (Hhas : Blade.has_link m (Blade.links h) = true).
  { apply existsb_exists. now exists b. }
  congruence.
Qed.

Lemma flood_addrs (ips : list string) (l : Blade.link) :
  Blade.l_addrs (Blade.flood ips l) = Blade.l_addrs l.
Proof.
  revert l. unfold Blade.flood.
  induction ips as [|ip ips IH]; intros l; simpl; [reflexivity|].
  rewrite IH. unfold Blade.fdb_add. now destruct (str_in ip (Blade.l_fdb l)).
Qed.

Lemma flood_master (ips : list string) (l : Blade.link) :
  Blade.l_master (Blade.flood ips l) = Blade.l_master l.
Proof.
  revert l. unfold Blade.flood.
  induction ips as [|ip ips IH]; intros l; simpl; [reflexivity|].
  rewrite IH. unfold Blade.fdb_add. now destruct (str_in ip (Blade.l_fdb l)).
Qed.

(** What a successful pass leaves: the network built over links and
    networks that do not bear its names. *)
Lemma reconcile_ok (config : network_config) (h h' : Blade.state) :
  Blade.reconcile config h = (Ok tt, h') ->
  exists self found,
    __init__ (Blade.running h []) = (Ok self, Blade.running h [])
    /\ scan_interfaces (interfaces self) (endpoints_of config) = Some found
    /\ Blade.has_link (tunnel_of config)
                      (Blade.cleared self config (Blade.links h)) = false
    /\ Blade.has_link (fst found)
                      (Blade.cleared self config (Blade.links h)) = true
    /\ Blade.has_link (bridge_of config)
                      (Blade.cleared self config (Blade.links h)) = false
    /\ tunnel_of config <> bridge_of config
    /\ Blade.has_net (name_of config)
                     (Blade.unregistered self config (Blade.nets h)) = false
    /\ h' = Blade.rebuilt config found
              (Blade.cleared self config (Blade.links h))
              (Blade.unregistered self config (Blade.nets h)) h.
Proof.
  unfold Blade.reconcile.
  destruct (__init__ (Blade.running h [])) as [[self|e] w] eqn:Hinit;
    [|discriminate].
  destruct (blade_init _ _ Hinit) as [-> _].
  destruct (construct_virtual_network config (self, Blade.running h []))
    as [r s] eqn:Hrun.
  intros [= -> <-].
  apply construct_ok_blade in Hrun
    as [found [Hf [Ht [Hd [Hb [Hne [Hn Hh]]]]]]].
  exists self, found. now splits.
Qed.

(** C6: on a well-formed blade, when a reconciliation of a network
    succeeds and a second one, started from the state the first has left
    and with the same configuration, succeeds as well, the second leaves
    the blade exactly as the first did: the same links, with one tunnel
    and one bridge of the configured names and the same forwarding
    destinations, and the same registered networks, with one of the
    configured name bound to the bridge. *)
Theorem reconcile_twice_same (config : network_config)
        (h0 h1 h2 : Blade.state) :
  Blade.well_formed h0 = true ->
  Blade.reconcile config h0 = (Ok tt, h1) ->
  Blade.reconcile config h1 = (Ok tt, h2) ->
  h2 = h1
  /\ exists found ls vs,
      h1 = Blade.rebuilt config found ls vs h0
      /\ Blade.has_link (tunnel_of config) ls = false
      /\ Blade.has_link (bridge_of config) ls = false
      /\ Blade.has_net (name_of config) vs = false.
Proof.
  intros Hwf Hpass1 Hpass2.
  destruct (well_formed_links h0 Hwf) as [Hnd0 Hmasters].
  apply reconcile_ok in Hpass1
    as [self0 [found [Hinit0 [Hf0 [Ht0 [Hd0 [Hb0 [Hne [Hn0 Hh1]]]]]]]]].
  apply reconcile_ok in Hpass2
    as [self1 [found1 [Hinit1 [Hf1 [_ [_ [_ [_ [Hn1 Hh2]]]]]]]]].
  destruct (blade_init _ _ Hinit0) as [_ [Hmem0 [_ Hscan0]]].
  destruct (blade_init _ _ Hinit1) as [_ [Hmem1 [_ Hscan1]]].
  set (L := Blade.cleared self0 config (Blade.links h0)) in *.
  set (N := Blade.unregistered self0 config (Blade.nets h0)) in *.
  set (T := Blade.tunnel_link config found) in *.
  set (B := Blade.new_bridge (bridge_of config)) in *.
  assert (HnameT : Blade.l_name T = tunnel_of config).
  { unfold T, Blade.tunnel_link. now rewrite flood_name. }
  assert (HmasterT : Blade.l_master T = Some (bridge_of config)).
  { unfold T, Blade.tunnel_link. now rewrite flood_master. }
  assert (HaddrsT : Blade.l_addrs T = []).
  { unfold T, Blade.tunnel_link. now rewrite flood_addrs. }
  (* the links the first pass built over *)
  assert (HndL : NoDup (map Blade.l_name L)).
  { unfold L, Blade.cleared.
    destruct (dict_mem (tunnel_of config) (interfaces self0));
      destruct (dict_mem (bridge_of config) (interfaces self0));
      rewrite ?del_link_names; repeat apply NoDup_filter; assumption. }
  assert (HfreeT : Forall (fun l => Blade.mastered_by (tunnel_of config) l
                                    = false) L).
  { unfold L, Blade.cleared. rewrite !Hmem0.
    destruct (Blade.has_link (tunnel_of config) (Blade.links h0)) eqn:Hin;
      destruct (Blade.has_link (bridge_of config) (Blade.links h0));
      first [ apply del_link_releases
            | apply del_link_keeps_free;
              first [apply del_link_releases | now apply Hmasters]
            | now apply Hmasters ]. }
  assert (HfreeB : Forall (fun l => Blade.mastered_by (bridge_of config) l
                                    = false) L).
  { unfold L, Blade.cleared. rewrite !Hmem0.
    destruct (Blade.has_link (bridge_of config) (Blade.links h0)) eqn:Hin;
      destruct (Blade.has_link (tunnel_of config) (Blade.links h0));
      first [ apply del_link_releases
            | apply del_link_keeps_free;
              first [apply del_link_releases | now apply Hmasters]
            | now apply Hmasters ]. }
  assert (HfoundT : fst found <> tunnel_of config) by congruence.
  assert (HfoundB : fst found <> bridge_of config) by congruence.
  assert (HunderL : Blade.underlay L (endpoints_of config) = Some found).
  { rewrite (Hscan0 Hnd0) in Hf0. unfold L, Blade.cleared.
    destruct (dict_mem (tunnel_of config) (interfaces self0));
      destruct (dict_mem (bridge_of config) (interfaces self0));
      repeat apply underlay_del_link; assumption. }
  (* the blade the second pass starts from *)
  assert (Hlinks1 : Blade.links h1 = L ++ [T; B]) by now rewrite Hh1.
  assert (Hnets1 : Blade.nets h1 = N ++ [Blade.registered config])
    by now rewrite Hh1.
  assert (HnamedT : Blade.named (tunnel_of config) T = true).
  { unfold Blade.named. rewrite HnameT. apply String.eqb_refl. }
  assert (HnamedTB : Blade.named (tunnel_of config) B = false).
  { unfold Blade.named, B. simpl. apply String.eqb_neq. congruence. }
  assert (HnamedBT : Blade.named (bridge_of config) T = false).
  { unfold Blade.named. rewrite HnameT. now apply String.eqb_neq. }
  assert (HnamedB : Blade.named (bridge_of config) B = true)
    by apply String.eqb_refl.
  assert (HdelT : Blade.del_link (tunnel_of config) [T; B] = [B]).
  { unfold Blade.del_link. simpl. rewrite HnamedT, HnamedTB. reflexivity. }
  assert (HdelB : Blade.del_link (bridge_of config) [B] = []).
  { unfold Blade.del_link. simpl. rewrite HnamedB. reflexivity. }
  assert (Hcleared1 : Blade.cleared self1 config (Blade.links h1) = L).
  { unfold Blade.cleared. rewrite !Hmem1, Hlinks1, !has_link_app. simpl.
    rewrite HnamedT, HnamedB, !orb_true_r. simpl.
    rewrite del_link_app, (@del_link_absent (tunnel_of config) L Ht0 HfreeT).
    rewrite HdelT.
    rewrite del_link_app, (@del_link_absent (bridge_of config) L Hb0 HfreeB).
    rewrite HdelB. apply List.app_nil_r. }
  assert (Hnd1 : NoDup (map Blade.l_name (Blade.links h1))).
  { rewrite Hlinks1, map_app. simpl. rewrite HnameT.
    apply NoDup_app; [assumption| |].
    - repeat constructor; simpl; [|tauto]. intros [Heq|[]]. congruence.
    - intros x Hx [<-|[<-|[]]].
      + apply has_link_In in Hx. congruence.
      + apply has_link_In in Hx. unfold B in Hx. simpl in Hx. congruence. }
  assert (Hfound1 : found1 = found).
  { rewrite (Hscan1 Hnd1), Hlinks1 in Hf1.
    rewrite underlay_app_bare in Hf1 by (repeat constructor; assumption).
    congruence. }
  assert (Hunreg1 : Blade.unregistered self1 config (Blade.nets h1) = N).
  { unfold Blade.unregistered in *. rewrite Hnets1 in *.
    destruct (str_in (name_of config) (vnets self1)).
    - now apply unregister_registered.
    - rewrite has_net_app in Hn1. simpl in Hn1.
      unfold Blade.net_named in Hn1. simpl in Hn1.
      rewrite String.eqb_refl, orb_true_r in Hn1. discriminate. }
  split.
  - rewrite Hh2, Hcleared1, Hunreg1, Hfound1, Hh1. reflexivity.
  - exists found, L, N. now splits.
Qed.

(** ** The properties at work on the example blade *)

Lemma mesh_is_endpoints_minus_local_witness :
  connect_endpoints "fabric0" Example.repeated_ips "10.0.0.2"
                    (Blade.running Example.tunnelled [])
  = (Ok tt, Blade.running Example.built Example.mesh_calls)
  /\ ((forall ip,
          In ip (Blade.fdb_dsts_of "fabric0" Example.built)
          <-> In ip (Blade.fdb_dsts_of "fabric0" Example.tunnelled)
              \/ (In ip Example.repeated_ips /\ ip <> "10.0.0.2"))
      /\ (NoDup (Blade.fdb_dsts_of "fabric0" Example.tunnelled) ->
          NoDup (Blade.fdb_dsts_of "fabric0" Example.built))
      /\ (Blade.fdb_dsts_of "fabric0" Example.tunnelled = [] ->
          NoDup (Blade.fdb_dsts_of "fabric0" Example.built)
          /\ ~ In "10.0.0.2" (Blade.fdb_dsts_of "fabric0" Example.built)
          /\ (forall ip,
                 In ip (Blade.fdb_dsts_of "fabric0" Example.built)
                 <-> In ip Example.repeated_ips /\ ip <> "10.0.0.2")
          /\ forall ips2 h2 tr2,
              Permutation Example.repeated_ips ips2 ->
              connect_endpoints "fabric0" ips2 "10.0.0.2"
                                (Blade.running Example.tunnelled [])
              = (Ok tt, Blade.running h2 tr2) ->
              Permutation (Blade.fdb_dsts_of "fabric0" Example.built)
                          (Blade.fdb_dsts_of "fabric0" h2))
      /\ Example.mesh_calls
         = [] ++ map (fun ip => fdb_append ip "fabric0")
                     (filter (fun ip => negb (String.eqb ip "10.0.0.2"))
                             Example.repeated_ips)).
Proof.
  assert (Hrun : connect_endpoints "fabric0" Example.repeated_ips "10.0.0.2"
                                   (Blade.running Example.tunnelled [])
                 = (Ok tt, Blade.running Example.built Example.mesh_calls))
    by (vm_compute; reflexivity).
  split; [exact Hrun|].
  exact (@mesh_is_endpoints_minus_local
           Example.tunnelled Example.built [] Example.mesh_calls
           "fabric0" "10.0.0.2" Example.repeated_ips Hrun).
Defined.

(** C1, as it was stated, fails: on a tunnel that has destinations
    from an earlier build, a [connect_endpoints] that succeeds leaves a
    destination that is not an endpoint IP; and for a peer listed twice
    the append is made twice, so that the single entry is the device's
    doing. *)
Lemma mesh_keeps_old_destinations_counterexample :
  let ips := ["10.0.0.1"; "10.0.0.2"] in
  let w := Blade.running Example.built [] in
  In "10.0.0.2" ips
  /\ connect_endpoints "fabric0" ips "10.0.0.2" w
     = (Ok tt, Blade.running Example.built [fdb_append "10.0.0.1" "fabric0"])
  /\ Blade.fdb_dsts_of "fabric0" Example.built = ["10.0.0.1"; "10.0.0.3"]
  /\ ~ (forall ip, In ip (Blade.fdb_dsts_of "fabric0" Example.built)
                   <-> In ip ips /\ ip <> "10.0.0.2")
  /\ connect_endpoints "fabric0" Example.repeated_ips "10.0.0.2"
                       (Blade.running Example.tunnelled [])
     = (Ok tt, Blade.running Example.built Example.mesh_calls)
  /\ count_occ string_dec Example.repeated_ips "10.0.0.1" = 2%nat
  /\ ~ NoDup Example.mesh_calls.
Proof.
  intros ips w. subst ips w. splits.
  - right. now left.
  - vm_compute. reflexivity.
  - reflexivity.
  - intros Hall.
    assert (Hin : In "10.0.0.3" (Blade.fdb_dsts_of "fabric0" Example.built))
      by (right; now left).
    apply Hall in Hin as [[Heq|[Heq|[]]] _]; discriminate.
  - vm_compute. reflexivity.
  - reflexivity.
  - intros Hnd. inversion Hnd as [|x l Hx _]; subst.
    apply Hx. right. now left.
Qed.

Lemma name_conflict_rejected_witness :
  let w := Blade.running Example.squatted [] in
  let self := Example.snapshot Example.squatted in
  __init__ w = (Ok self, w)
  /\ (taken_against KVxlan (tunnel_of Example.fabric0) self
      \/ taken_against KBridge (bridge_of Example.fabric0) self)
  /\ exists e,
      construct_virtual_network Example.fabric0 (self, w)
      = (Raise e, (self, w))
      /\ is_NameConflictError e = true.
Proof.
  intros w self.
  assert (Hinit : __init__ w = (Ok self, w)) by (vm_compute; reflexivity).
  assert (Htaken : taken_against KVxlan (tunnel_of Example.fabric0) self
                   \/ taken_against KBridge (bridge_of Example.fabric0) self).
  { left. eexists. split; [vm_compute; reflexivity | discriminate]. }
  splits; [exact Hinit | exact Htaken |].
  exact (proj1 (@name_conflict_rejected Blade.blade w w w self
                                        Example.fabric0 Hinit) Htaken).
Defined.

Lemma no_underlay_fails_after_removals_witness :
  let w := Blade.running Example.built [] in
  let self := Example.snapshot Example.built in
  (forall p, In p (local_addrs (interfaces self)) ->
             ~ In (snd p) (endpoints_of Example.misaddressed))
  /\ exists e w' issued rest,
      construct_virtual_network Example.misaddressed (self, w)
      = (Raise e, (self, w'))
      /\ w_trace w' = w_trace w ++ issued
      /\ removals self Example.misaddressed = issued ++ rest
      /\ (is_NoUnderlayError e = true -> rest = [])
      /\ (is_NoUnderlayError e = true
          \/ is_NameConflictError e = true
          \/ command_failure e)
      /\ (removals self Example.misaddressed = [] ->
          e = ContextualError (NoUnderlay (endpoints_of Example.misaddressed))
          /\ w' = w).
Proof.
  intros w self.
  assert (Hnone : forall p, In p (local_addrs (interfaces self)) ->
                            ~ In (snd p) (endpoints_of Example.misaddressed)).
  { vm_compute. intros p [<-|[<-|[]]]; simpl; intuition discriminate. }
  split; [exact Hnone|].
  exact (@no_underlay_fails_after_removals Blade.blade self w
                                           Example.misaddressed Hnone).
Defined.

(** C3, as it was stated, fails: on a blade where the tunnel and the
    bridge of an earlier build exist and no local address is an endpoint
    IP, both links have been removed when the no-underlay error is
    raised. *)
Lemma no_underlay_after_removals_counterexample :
  let w := Blade.running Example.built [] in
  let self := Example.snapshot Example.built in
  (forall p, In p (local_addrs (interfaces self)) ->
             ~ In (snd p) (endpoints_of Example.misaddressed))
  /\ construct_virtual_network Example.misaddressed (self, w)
     = (Raise (ContextualError (NoUnderlay ["10.9.9.1"; "10.9.9.3"])),
        (self,
         Blade.running
           (Example.with_links [Example.lo; Example.eth0]
                               Example.blade_yaml)
           [ip_link_del "fabric0"; ip_link_del "br-fabric0"]))
  /\ Blade.has_link "fabric0" (Blade.links Example.built) = true
  /\ Blade.has_link "br-fabric0" (Blade.links Example.built) = true.
Proof.
  intros w self. splits.
  - vm_compute. intros p [<-|[<-|[]]]; simpl; intuition discriminate.
  - vm_compute. reflexivity.
  - reflexivity.
  - reflexivity.
Qed.

Lemma reconcile_twice_same_witness :
  Blade.well_formed Example.fresh = true
  /\ Blade.reconcile Example.fabric0 Example.fresh
     = (Ok tt, Example.reconciled)
  /\ Blade.reconcile Example.fabric0 Example.reconciled
     = (Ok tt, Example.reconciled)
  /\ Example.reconciled = Example.reconciled
  /\ exists found ls vs,
      Example.reconciled
      = Blade.rebuilt Example.fabric0 found ls vs Example.fresh
      /\ Blade.has_link (tunnel_of Example.fabric0) ls = false
      /\ Blade.has_link (bridge_of Example.fabric0) ls = false
      /\ Blade.has_net (name_of Example.fabric0) vs = false.
Proof.
  assert (Hwf : Blade.well_formed Example.fresh = true)
    by (vm_compute; reflexivity).
  assert (H1 : Blade.reconcile Example.fabric0 Example.fresh
               = (Ok tt, Example.reconciled)) by (vm_compute; reflexivity).
  assert (H2 : Blade.reconcile Example.fabric0 Example.reconciled
               = (Ok tt, Example.reconciled)) by (vm_compute; reflexivity).
  splits; [exact Hwf | exact H1 | exact H2 | |];
    apply (@reconcile_twice_same Example.fabric0 Example.fresh
                                 Example.reconciled Example.reconciled
                                 Hwf H1 H2).
Defined.



Lemma default_network_removed_first_witness :
  let w0 := Blade.running Example.fresh [] in
  let config := Example.blade_yaml in
  let w := snd (setup_packages (packages_of config)
                               (cfg_blade_class config) w0) in
  let self := Example.snapshot Example.fresh in
  read_config "/root/blade.yaml" w0 = (Ok config, w0)
  /\ setup_packages (packages_of config) (cfg_blade_class config) w0
     = (Ok tt, w)
  /\ __init__ w = (Ok self, w)
  /\ let constructs :=
       for_each (networks_of config)
                (fun item => construct_virtual_network (snd item)) in
     let run := main ["/root/blade.yaml"] w0 in
     run = on_object self (install_networks (networks_of config)) w
     /\ (str_in "default" (vnets self) = false ->
         remove_virtual_network "default" (self, w) = (Ok tt, (self, w))
         /\ run = (fst (constructs (self, w)),
                   snd (snd (constructs (self, w)))))
     /\ (str_in "default" (vnets self) = true ->
         exists r self' w',
           remove_virtual_network "default" (self, w) = (r, (self', w'))
           /\ (exists later,
                  w_trace (snd run)
                  = w_trace w ++ virsh "net-destroy" "default" :: later)
           /\ (r = Ok tt ->
               w_trace w'
               = w_trace w ++ [virsh "net-destroy" "default";
                               virsh "net-undefine" "default"]
               /\ self' = set_vnets (list_remove "default") self
               /\ run = (fst (constructs (self', w')),
                         snd (snd (constructs (self', w'))))
               /\ exists later,
                   w_trace (snd (snd (constructs (self', w'))))
                   = w_trace w' ++ later
                   /\ w_trace (snd run)
                      = w_trace w ++ [virsh "net-destroy" "default";
                                      virsh "net-undefine" "default"]
                        ++ later)
           /\ (forall e,
                  r = Raise e ->
                  run = (Raise e, w')
                  /\ (w_trace w'
                      = w_trace w ++ [virsh "net-destroy" "default"]
                      \/ w_trace w'
                         = w_trace w ++ [virsh "net-destroy" "default";
                                         virsh "net-undefine" "default"])))
     /\ (networks_of config = [] ->
         run = (fst (remove_virtual_network "default" (self, w)),
                snd (snd (remove_virtual_network "default" (self, w))))).
Proof.
  intros w0 config w self.
  assert (Hread : read_config "/root/blade.yaml" w0 = (Ok config, w0))
    by reflexivity.
  assert (Hsetup : setup_packages (packages_of config)
                                  (cfg_blade_class config) w0
                   = (Ok tt, w)) by (vm_compute; reflexivity).
  assert (Hinit : __init__ w = (Ok self, w)) by (vm_compute; reflexivity).
  splits; [exact Hread | exact Hsetup | exact Hinit |].
  exact (@default_network_removed_first Blade.blade "/root/blade.yaml" []
                                        w0 w0 w w config self
                                        Hread Hsetup Hinit).
Defined.

Lemma vnets_stay_duplicate_free_witness :
  let w := Blade.running Example.fresh [] in
  let self := Example.snapshot Example.fresh in
  NoDup (vnets self)
  /\ (forall ops,
         NoDup (vnets (fst (fold_left (fun s o => snd (run_op o s)) ops
                                      (self, w)))))
  /\ (forall config self' w',
         construct_virtual_network config (self, w) = (Ok tt, (self', w')) ->
         NoDup (vnets self')
         /\ count_occ string_dec (vnets self') (name_of config) = 1%nat).
Proof.
  intros w self.
  assert (Hnd : NoDup (vnets self)).
  { vm_compute. repeat constructor. simpl. tauto. }
  split; [exact Hnd|].
  exact (@vnets_stay_duplicate_free Blade.blade self w Hnd).
Defined.

(** * Further properties *)

(** ** The polling loop and its timeout *)

Lemma poll_falsy_timeout {S} (P : Runner.process S) (cmd : string)
      (args : list string) (timeout : option Z) (fuel : nat) (time : Z)
      (signaled : bool) (st : S) :
  Runner.truthy timeout = false ->
  Runner.poll P cmd args timeout fuel time signaled st
  = Runner.poll P cmd args None fuel time signaled st.
Proof.
  intros Hfalse. revert time st.
  induction fuel as [|fuel IH]; intros time st; simpl; [reflexivity|].
  destruct (Runner.wait P st) as [st'|exitval]; [|reflexivity].
  rewrite Hfalse. simpl. now rewrite IH.
Qed.

(** X1: a timeout of zero is no timeout at all: the call behaves, poll by
    poll, as the call without a timeout. *)
Theorem zero_timeout_is_no_timeout (S : Type) (P : Runner.process S)
        (child : Runner.spawned S) (cmd : string) (args : list string)
        (fuel : nat) :
  Runner.run_cmd P child cmd args (Some 0%Z) fuel
  = Runner.run_cmd P child cmd args None fuel.
Proof.
  destruct child as [oserr|st]; simpl; [reflexivity|].
  now rewrite (@poll_falsy_timeout S P cmd args (Some 0%Z) fuel 0 false st
                                   eq_refl).
Qed.

Lemma poll_within_timeout {S} (P : Runner.process S) (cmd : string)
      (args : list string) (t : Z) (fuel : nat) (time : Z)
      (signaled : bool) (st : S) :
  (time + 5 * Z.of_nat fuel <= t)%Z ->
  Runner.poll P cmd args (Some t) fuel time signaled st
  = Runner.poll P cmd args None fuel time signaled st.
Proof.
  revert time st.
  induction fuel as [|fuel IH]; intros time st Hle; simpl; [reflexivity|].
  destruct (Runner.wait P st) as [st'|exitval]; [|reflexivity].
  assert (Hnot : (time + 5 >? t)%Z = false).
  { rewrite Z.gtb_ltb. apply Z.ltb_ge. lia. }
  rewrite Hnot, andb_false_r. rewrite IH by lia. reflexivity.
Qed.

(** X2: as long as the polls made do not add up to more than the
    timeout, the call with the timeout does exactly what the call without
    one does: no signal is sent to a child before the timeout has
    elapsed. *)
Theorem no_signal_within_timeout (S : Type) (P : Runner.process S)
        (child : Runner.spawned S) (cmd : string) (args : list string)
        (t : Z) (fuel : nat) :
  (5 * Z.of_nat fuel <= t)%Z ->
  Runner.run_cmd P child cmd args (Some t) fuel
  = Runner.run_cmd P child cmd args None fuel.
Proof.
  intros Hle. destruct child as [oserr|st]; simpl; [reflexivity|].
  now rewrite poll_within_timeout by lia.
Qed.

Lemma no_signal_within_timeout_witness :
  (5 * Z.of_nat 2 <= 10)%Z
  /\ Runner.run_cmd Runner.stubborn (Runner.Spawned tt) "sleep" ["infinity"]
                    (Some 10%Z) 2
     = Runner.run_cmd Runner.stubborn (Runner.Spawned tt) "sleep" ["infinity"]
                      None 2.
Proof.
  split; [simpl; lia|].
  apply (@no_signal_within_timeout unit Runner.stubborn (Runner.Spawned tt)
                                   "sleep" ["infinity"] 10%Z 2).
  simpl. lia.
Defined.

Lemma poll_terminates_late_child {S} (P : Runner.process S) (cmd : string)
      (args : list string) (t : Z) (k fuel : nat) (time : Z) (st st' : S) :
  t <> 0%Z -> (1 <= k)%nat -> (k <= fuel)%nat ->
  (t < time + 5 * Z.of_nat k)%Z ->
  Runner.undisturbed P k st = inl st' ->
  In Runner.Terminate
     (fst (Runner.poll P cmd args (Some t) fuel time false st)).
Proof.
  intros Ht. revert fuel time st.
  induction k as [|k IH]; intros fuel time st Hk Hfuel Hlate Hrun; [lia|].
  destruct fuel as [|fuel]; [lia|]. simpl in Hrun. simpl.
  rewrite Nat2Z.inj_succ in Hlate.
  destruct (Runner.wait P st) as [st1|exitval]; [|discriminate].
  assert (Htruthy : negb (t =? 0)%Z = true).
  { apply negb_true_iff. now apply Z.eqb_neq. }
  rewrite Htruthy. simpl.
  destruct (time + 5 >? t)%Z eqn:Hex.
  - destruct (Runner.poll P cmd args (Some t) fuel (time + 5) false
                          (Runner.terminate P st1)) as [log e].
    simpl. right. now left.
  - assert (Hk1 : (1 <= k)%nat).
    { destruct k; [|lia]. rewrite Z.gtb_ltb in Hex.
      apply Z.ltb_ge in Hex. lia. }
    specialize (IH fuel (time + 5)%Z st1 Hk1 ltac:(lia) ltac:(lia) Hrun).
    destruct (Runner.poll P cmd args (Some t) fuel (time + 5) false st1)
      as [log e].
    simpl in *. now right.
Qed.

(** X3: with a timeout other than zero, a child that is still running on
    its own at a poll that falls after the timeout has been asked to
    terminate by then. *)
Theorem terminate_requested_once_timeout_elapsed
        (S : Type) (P : Runner.process S) (st st' : S) (cmd : string)
        (args : list string) (t : Z) (k fuel : nat) :
  t <> 0%Z -> (1 <= k)%nat -> (k <= fuel)%nat ->
  (t < 5 * Z.of_nat k)%Z ->
  Runner.undisturbed P k st = inl st' ->
  In Runner.Terminate
     (fst (Runner.run_cmd P (Runner.Spawned st) cmd args (Some t) fuel)).
Proof.
  intros Ht Hk Hfuel Hlate Hrun. unfold Runner.run_cmd.
  pose proof (@poll_terminates_late_child S P cmd args t k fuel 0%Z st st'
                Ht Hk Hfuel ltac:(lia) Hrun) as Hin.
  destruct (Runner.poll P cmd args (Some t) fuel 0 false st) as [log e].
  now destruct e.
Qed.

Lemma terminate_requested_once_timeout_elapsed_witness :
  10%Z <> 0%Z /\ (1 <= 3)%nat /\ (3 <= 4)%nat /\ (10 < 5 * Z.of_nat 3)%Z
  /\ Runner.undisturbed Runner.stubborn 3 tt = inl tt
  /\ In Runner.Terminate
        (fst (Runner.run_cmd Runner.stubborn (Runner.Spawned tt)
                             "sleep" ["infinity"] (Some 10%Z) 4)).
Proof.
  assert (H1 : 10%Z <> 0%Z) by discriminate.
  assert (H2 : (1 <= 3)%nat) by lia.
  assert (H3 : (3 <= 4)%nat) by lia.
  assert (H4 : (10 < 5 * Z.of_nat 3)%Z) by (simpl; lia).
  assert (H5 : Runner.undisturbed Runner.stubborn 3 tt = inl tt)
    by reflexivity.
  splits; try assumption.
  exact (@terminate_requested_once_timeout_elapsed
           unit Runner.stubborn tt tt "sleep" ["infinity"] 10%Z 3 4
           H1 H2 H3 H4 H5).
Defined.

(** X4: the runner of the platform script with [check] set does what the
    runner of the blade script does, the exit status apart; without
    [check] a call that returns gives back the exit status of the child
    whatever it is, and raises only when the child could not be spawned. *)
Theorem unchecked_run_returns_status
        (S : Type) (P : Runner.process S) (child : Runner.spawned S)
        (cmd : string) (args : list string) (timeout : option Z)
        (fuel : nat) :
  (fst (PlatformScript.run_child P child cmd args timeout true fuel)
   = fst (Runner.run_cmd P child cmd args timeout fuel)
   /\ option_map (fun r => match r with
                           | Ok _ => Ok tt
                           | Raise e => Raise e
                           end)
                 (snd (PlatformScript.run_child P child cmd args timeout
                                                true fuel))
      = snd (Runner.run_cmd P child cmd args timeout fuel))
  /\ (forall r,
         snd (PlatformScript.run_child P child cmd args timeout false fuel)
         = Some r ->
         (exists exitval st n,
             child = Runner.Spawned st /\ r = Ok exitval
             /\ snd (Runner.poll P cmd args timeout n 0 false st)
                = Runner.Broke exitval)
         \/ (exists oserr,
                child = Runner.SpawnFailed oserr
                /\ r = Raise (ContextualError
                                (ExecutingFailed (cmdline cmd args) oserr)))).
Proof.
  destruct child as [oserr|st]; simpl.
  - split; [split; reflexivity|]. intros r [= <-]. right. now exists oserr.
  - pose proof (poll_unsignaled_no_kill P cmd args timeout fuel 0 st)
      as [_ He].
    destruct (Runner.poll P cmd args timeout fuel 0 false st)
      as [log [|exitval|e]] eqn:Hpoll; simpl in *.
    + split; [split; reflexivity | discriminate].
    + split.
      * split; [reflexivity|].
        unfold PlatformScript.check_status, Runner.check_exit.
        rewrite andb_true_r. now destruct (negb (exitval =? 0)%Z).
      * intros r [= <-]. left. exists exitval, st, fuel.
        rewrite Hpoll. unfold PlatformScript.check_status.
        rewrite andb_false_r. now splits.
    + exfalso. now apply (He e).
Qed.

(** ** Package lists and the commands of a run *)
Section Further.
Context {H : Host}.

(** X5: [list_from_packages] gives exactly the items listed under the
    key by the packages that apply to the blade class, those without
    [blade_classes] and those that name the class; without a blade class
    only the former apply.  The items come package by package, in the
    order of the dictionary: a package that applies gives the list under
    its key as it stands, in its order and with its repetitions, a
    package that does not apply or has no such key gives nothing, and no
    package gives nothing. *)
Theorem list_from_packages_selects (blade_class : option string)
        (key : package -> option (list string)) :
  (forall pkgs item,
      In item (list_from_packages pkgs blade_class key)
      <-> exists name pack l,
          In (name, pack) pkgs /\ applies pack blade_class
          /\ key pack = Some l /\ In item l)
  /\ (forall pkgs1 pkgs2,
         list_from_packages (pkgs1 ++ pkgs2) blade_class key
         = list_from_packages pkgs1 blade_class key
           ++ list_from_packages pkgs2 blade_class key)
  /\ (forall name pack,
         list_from_packages [(name, pack)] None key
         = match blade_classes pack, key pack with
           | None, Some l => l
           | _, _ => []
           end)
  /\ list_from_packages [] blade_class key = []
  /\ (forall name pack,
         applies pack blade_class ->
         list_from_packages [(name, pack)] blade_class key
         = match key pack with Some l => l | None => [] end)
  /\ (forall name pack,
         ~ applies pack blade_class ->
         list_from_packages [(name, pack)] blade_class key = [])
  /\ (forall name pack pkgs,
         list_from_packages ((name, pack) :: pkgs) blade_class key
         = list_from_packages [(name, pack)] blade_class key
           ++ list_from_packages pkgs blade_class key).
Proof.
  splits; [| | |reflexivity| | |].
  - intros pkgs item. unfold list_from_packages. rewrite in_flat_map. split.
    + intros [[name pack] [Hin Hitem]]. simpl in Hitem.
      destruct (blade_classes pack) as [classes|] eqn:Hclasses.
      * destruct blade_class as [c|]; [|destruct Hitem].
        destruct (str_in c classes) eqn:Hc; [|destruct Hitem].
        destruct (key pack) as [l|] eqn:Hkey; [|destruct Hitem].
        exists name, pack, l. splits; try assumption.
        right. exists classes, c. splits; try reflexivity; try assumption.
        now apply str_in_In.
      * destruct (key pack) as [l|] eqn:Hkey; [|destruct Hitem].
        exists name, pack, l. splits; try assumption. now left.
    + intros [name [pack [l [Hin [Happ [Hkey Hitem]]]]]].
      exists (name, pack). split; [assumption|]. simpl. rewrite Hkey.
      destruct Happ as [->|[classes [c [-> [-> Hc]]]]]; [assumption|].
      apply str_in_In in Hc. now rewrite Hc.
  - intros pkgs1 pkgs2. unfold list_from_packages. apply flat_map_app.
  - intros name pack. unfold list_from_packages. simpl.
    rewrite List.app_nil_r.
    destruct (blade_classes pack); destruct (key pack); reflexivity.
  - intros name pack Happ. unfold list_from_packages. simpl.
    rewrite List.app_nil_r.
    destruct Happ as [->|[classes [c [-> [-> Hc]]]]]; [reflexivity|].
    apply str_in_In in Hc. now rewrite Hc.
  - intros name pack Happ. unfold list_from_packages. simpl.
    rewrite List.app_nil_r.
    destruct (blade_classes pack) as [classes|] eqn:Hclasses.
    + destruct blade_class as [c|]; [|reflexivity].
      destruct (str_in c classes) eqn:Hc; [|reflexivity].
      exfalso. apply Happ. right. exists classes, c.
      split; [exact Hclasses|]. split; [reflexivity|]. now apply str_in_In.
    + exfalso. apply Happ. now left.
  - intros name pack pkgs. unfold list_from_packages. simpl.
    now rewrite List.app_nil_r.
Qed.

Lemma run_plan_one (cmd : string) (args : list string) (stdin : stdin_src)
      (timeout : option Z) (w : world) :
  run_cmd cmd args stdin timeout w
  = run_plan [{| inv_cmd := cmd; inv_args := args; inv_stdin := stdin;
                 inv_timeout := timeout |}] w.
Proof.
  unfold run_plan. simpl. now rewrite for_each_nil_unit.
Qed.

Lemma run_plan_bind (p1 p2 : list invocation) (c1 c2 : Sys unit) :
  (forall w, c1 w = run_plan p1 w) ->
  (forall w, c2 w = run_plan p2 w) ->
  forall w, bind c1 (fun _ => c2) w = run_plan (p1 ++ p2) w.
Proof.
  intros H1 H2 w. unfold bind at 1. rewrite H1. clear H1 c1. revert w.
  induction p1 as [|inv p1 IH]; intros w.
  - simpl. apply H2.
  - unfold run_plan in *. simpl. unfold bind.
    destruct (run_cmd _ _ _ _ w) as [[[]|e] w1]; [|reflexivity].
    apply IH.
Qed.

Lemma run_plan_for_each {A} (xs : list A) (f : A -> invocation)
      (body : A -> Sys unit) :
  (forall x w, body x w = run_plan [f x] w) ->
  forall w, for_each xs body w = run_plan (map f xs) w.
Proof.
  intros Hbody. induction xs as [|x xs IH]; intros w; [reflexivity|].
  change (map f (x :: xs)) with ([f x] ++ map f xs).
  simpl for_each. apply run_plan_bind; [apply Hbody | exact IH].
Qed.

Lemma run_plan_step (inv : invocation) (plan : list invocation)
      (w : world) :
  run_plan (inv :: plan) w
  = let w1 := {| w_host := snd (exec inv (w_host w));
                 w_trace := w_trace w ++ [inv] |} in
    match failure_of inv (fst (exec inv (w_host w))) with
    | Some e => (Raise e, w1)
    | None => run_plan plan w1
    end.
Proof.
  unfold run_plan. simpl. unfold bind, run_cmd, failure_of.
  assert (Hinv : {| inv_cmd := inv_cmd inv; inv_args := inv_args inv;
                    inv_stdin := inv_stdin inv;
                    inv_timeout := inv_timeout inv |} = inv)
    by now destruct inv.
  rewrite Hinv.
  destruct (exec inv (w_host w)) as [[oserr|exitval] h]; simpl;
    [reflexivity|].
  unfold Runner.check_exit. now destruct (exitval =? 0)%Z.
Qed.

(** A plan runs up to its first call that fails. *)
Lemma run_plan_spec (plan : list invocation) (w : world) :
  (fst (run_plan plan w) = Ok tt ->
   w_trace (snd (run_plan plan w)) = w_trace w ++ plan)
  /\ (forall e,
         fst (run_plan plan w) = Raise e ->
         exists issued failing rest child,
           plan = issued ++ failing :: rest
           /\ w_trace (snd (run_plan plan w))
              = w_trace w ++ issued ++ [failing]
           /\ failure_of failing child = Some e).
Proof.
  revert w. induction plan as [|inv plan IH]; intros w.
  - simpl. rewrite List.app_nil_r. split; [reflexivity | discriminate].
  - rewrite run_plan_step. simpl.
    destruct (failure_of inv (fst (exec inv (w_host w)))) as [e0|] eqn:Hf.
    + simpl. split; [discriminate|]. intros e [= <-].
      exists [], inv, plan, (fst (exec inv (w_host w))). now splits.
    + destruct (IH {| w_host := snd (exec inv (w_host w));
                      w_trace := w_trace w ++ [inv] |}) as [Hok Hfail].
      split.
      * intros Hr. rewrite (Hok Hr). simpl. now rewrite <- List.app_assoc.
      * intros e Hr.
        destruct (Hfail e Hr) as [issued [failing [rest [c [Hp [Ht Hc]]]]]].
        exists (inv :: issued), failing, rest, c. splits.
        -- simpl. now rewrite Hp.
        -- rewrite Ht. simpl. now rewrite <- List.app_assoc.
        -- assumption.
Qed.

Lemma run_cmd2_plan (cmd : string) (args : list string) (w : world) :
  run_cmd2 cmd args w = run_plan [call cmd args] w.
Proof.
  apply run_plan_one.
Qed.

Lemma prepare_package_installer_plan (w : world) :
  prepare_package_installer w
  = run_plan [call "apt" ["update"]; call "apt" ["upgrade"; "-y"]] w.
Proof.
  unfold prepare_package_installer. revert w.
  apply (@run_plan_bind [_] [_]); intros w; apply run_cmd2_plan.
Qed.

Lemma run_plan_ok (plan : list invocation) (w w' : world) :
  run_plan plan w = (Ok tt, w') -> w_trace w' = w_trace w ++ plan.
Proof.
  intros Hrun. destruct (run_plan_spec plan w) as [Hok _].
  rewrite Hrun in Hok. now apply Hok.
Qed.

(** The package phase: its calls are those of [package_plan] up to the
    first that fails, unless the file that feeds the preconfiguration
    cannot be made, which ends the phase after the two calls of
    [prepare_package_installer]. *)
Lemma setup_packages_runs (pkgs : dict package)
      (blade_class : option string) (w : world) :
  let settings := list_from_packages pkgs blade_class preconfig_settings in
  let data := map (fun setting => (setting ++ newline)%string) settings in
  (fst (setup_packages pkgs blade_class w) = Ok tt ->
   w_trace (snd (setup_packages pkgs blade_class w))
   = w_trace w ++ package_plan pkgs blade_class)
  /\ (forall e,
         fst (setup_packages pkgs blade_class w) = Raise e ->
         (exists issued failing rest child,
             package_plan pkgs blade_class = issued ++ failing :: rest
             /\ w_trace (snd (setup_packages pkgs blade_class w))
                = w_trace w ++ issued ++ [failing]
             /\ failure_of failing child = Some e)
         \/ (exists oserr w2,
                e = OSError oserr
                /\ settings <> []
                /\ prepare_package_installer w = (Ok tt, w2)
                /\ w_trace w2
                   = w_trace w ++ [call "apt" ["update"];
                                   call "apt" ["upgrade"; "-y"]]
                /\ temporary_file data (w_host w2) = Some oserr
                /\ snd (setup_packages pkgs blade_class w) = w2))
  /\ (forall oserr w2,
         settings <> [] ->
         prepare_package_installer w = (Ok tt, w2) ->
         temporary_file data (w_host w2) = Some oserr ->
         setup_packages pkgs blade_class w = (Raise (OSError oserr), w2)).
Proof.
  intros settings data.
  set (pre := [call "apt" ["update"]; call "apt" ["upgrade"; "-y"]]).
  set (tail := [call "apt"
                     ("install" :: "-y"
                                :: list_from_packages pkgs blade_class
                                                      packages)]
               ++ map (fun service_name =>
                         call "systemctl" ["disable"; "--now"; service_name])
                      (list_from_packages pkgs blade_class services_disable)
               ++ map (fun service_name =>
                         call "systemctl" ["enable"; "--now"; service_name])
                      (list_from_packages pkgs blade_class services_enable)).
  assert (Htail : forall w0,
             (install_packages (list_from_packages pkgs blade_class packages) ;;
              disable_services
                (list_from_packages pkgs blade_class services_disable) ;;
              enable_services
                (list_from_packages pkgs blade_class services_enable))%py w0
             = run_plan tail w0).
  { unfold tail. apply run_plan_bind; [intros w0; apply run_cmd2_plan|].
    apply run_plan_bind.
    - apply run_plan_for_each. intros x w0. apply run_cmd2_plan.
    - apply run_plan_for_each. intros x w0. apply run_cmd2_plan. }
  set (deb := {| inv_cmd := "debconf-set-selections"; inv_args := [];
                  inv_stdin := StdinFile data; inv_timeout := None |}).
  assert (Hplan : package_plan pkgs blade_class
                  = pre ++ match settings with
                           | [] => []
                           | _ :: _ => [deb]
                           end ++ tail) by reflexivity.
  rewrite Hplan, prepare_package_installer_plan.
  remember (setup_packages pkgs blade_class w) as res eqn:Hres.
  unfold setup_packages in Hres. fold settings in Hres.
  unfold bind at 1 in Hres. rewrite prepare_package_installer_plan in Hres.
  subst res. fold pre.
  destruct (run_plan_spec pre w) as [Hpre_ok Hpre_fail].
  destruct (run_plan pre w) as [[[]|e0] w2] eqn:Hpre; simpl in Hpre_ok,
    Hpre_fail; cbn [fst snd].
  2:{ splits.
      - discriminate.
      - intros e [= <-]. left.
        destruct (Hpre_fail e0 eq_refl)
          as [issued [failing [rest [c [Hp [Ht Hc]]]]]].
        exists issued, failing,
          (rest ++ match settings with [] => [] | _ :: _ => [deb] end
                ++ tail), c.
        splits; try assumption.
        rewrite Hp, <- List.app_assoc. reflexivity.
      - intros oserr w3 _ [=]. }
  specialize (Hpre_ok eq_refl).
  set (K := (install_packages (list_from_packages pkgs blade_class packages) ;;
             disable_services
               (list_from_packages pkgs blade_class services_disable) ;;
             enable_services
               (list_from_packages pkgs blade_class services_enable))%py)
    in *.
  unfold preconfigure_packages. fold data.
  clear Hplan. destruct settings as [|s0 l] eqn:Hsettings.
  - unfold bind, ret. rewrite Htail.
    destruct (run_plan_spec tail w2) as [Hok Hfail].
    splits.
    + intros Hr. rewrite (Hok Hr), Hpre_ok, <- List.app_assoc. reflexivity.
    + intros e Hr. left.
      destruct (Hfail e Hr) as [issued [failing [rest [c [Hp [Ht Hc]]]]]].
      exists (pre ++ issued), failing, rest, c. splits; try assumption.
      * cbn [app]. rewrite Hp, <- List.app_assoc. reflexivity.
      * rewrite Ht, Hpre_ok, <- !List.app_assoc. reflexivity.
    + intros oserr w3 Habs. now contradiction Habs.
  - unfold bind, with_temporary_file.
    destruct (temporary_file data (w_host w2)) as [oserr|] eqn:Htmp.
    + splits.
      * discriminate.
      * intros e [= <-]. right. exists oserr, w2.
        splits; try reflexivity; try assumption. discriminate.
      * intros oserr' w3 _ [= <-] Htmp'. rewrite Htmp in Htmp'.
        now injection Htmp' as ->.
    + assert (Hrest : forall w0,
                 bind (run_cmd "debconf-set-selections" [] (StdinFile data)
                               None)
                      (fun _ => K) w0
                 = run_plan ([deb] ++ tail) w0).
      { apply run_plan_bind; [intros w0; apply run_plan_one | exact Htail]. }
      unfold bind at 1 in Hrest. rewrite Hrest.
      destruct (run_plan_spec ([deb] ++ tail) w2) as [Hok Hfail].
      splits.
      * intros Hr. rewrite (Hok Hr), Hpre_ok, <- List.app_assoc. reflexivity.
      * intros e Hr. left.
        destruct (Hfail e Hr) as [issued [failing [rest [c [Hp [Ht Hc]]]]]].
        exists (pre ++ issued), failing, rest, c. splits; try assumption.
        -- rewrite Hp, <- List.app_assoc. reflexivity.
        -- rewrite Ht, Hpre_ok, <- !List.app_assoc. reflexivity.
      * intros oserr w3 _ [= <-] Htmp'. rewrite Htmp in Htmp'. discriminate.
Qed.

(** X6: [setup_packages] makes its calls in one fixed order: [apt update],
    [apt upgrade -y], the preconfiguration if there are settings,
    [apt install -y] with the packages, then the services to disable and
    the services to enable, one call each.  When it returns all of them
    have been made.  When it raises, either the calls made are those up
    to the one that failed and the error is the failure of that call, or
    the temporary file that feeds the preconfiguration could not be
    made, written or rewound: then the error is that [OSError], there
    were settings, and the two calls of [prepare_package_installer] are
    the only ones made.  And whenever that file cannot be made the phase
    ends so. *)
Theorem setup_packages_follows_plan (pkgs : dict package)
        (blade_class : option string) (w : world) :
  let settings := list_from_packages pkgs blade_class preconfig_settings in
  let data := map (fun setting => (setting ++ newline)%string) settings in
  (fst (setup_packages pkgs blade_class w) = Ok tt ->
   w_trace (snd (setup_packages pkgs blade_class w))
   = w_trace w ++ package_plan pkgs blade_class)
  /\ (forall e,
         fst (setup_packages pkgs blade_class w) = Raise e ->
         (exists issued failing rest child,
             package_plan pkgs blade_class = issued ++ failing :: rest
             /\ w_trace (snd (setup_packages pkgs blade_class w))
                = w_trace w ++ issued ++ [failing]
             /\ failure_of failing child = Some e)
         \/ (exists oserr w2,
                e = OSError oserr
                /\ settings <> []
                /\ prepare_package_installer w = (Ok tt, w2)
                /\ w_trace w2
                   = w_trace w ++ [call "apt" ["update"];
                                   call "apt" ["upgrade"; "-y"]]
                /\ temporary_file data (w_host w2) = Some oserr
                /\ snd (setup_packages pkgs blade_class w) = w2))
  /\ (forall oserr w2,
         settings <> [] ->
         prepare_package_installer w = (Ok tt, w2) ->
         temporary_file data (w_host w2) = Some oserr ->
         setup_packages pkgs blade_class w = (Raise (OSError oserr), w2)).
Proof.
  apply setup_packages_runs.
Qed.

Lemma add_new_tunnel_plan (tunnel bridge vxlan_id device : string)
      (w : world) :
  add_new_tunnel tunnel bridge vxlan_id device w
  = run_plan (tunnel_plan tunnel bridge vxlan_id device) w.
Proof.
  unfold add_new_tunnel, tunnel_plan. revert w.
  apply (@run_plan_bind [_] [_; _]); [intros w; apply run_cmd2_plan|].
  apply (@run_plan_bind [_] [_]); intros w; apply run_cmd2_plan.
Qed.

Lemma connect_endpoints_plan (tunnel local_ip_addr : string)
      (ips : list string) (w : world) :
  connect_endpoints tunnel ips local_ip_addr w
  = run_plan (mesh_plan tunnel ips local_ip_addr) w.
Proof.
  unfold connect_endpoints, mesh_plan. revert w.
  apply run_plan_for_each. intros ip w. apply run_cmd2_plan.
Qed.

Lemma remove_virtual_network_trace (name : string)
      (self self' : NetworkInstaller) (w w' : world) :
  remove_virtual_network name (self, w) = (Ok tt, (self', w')) ->
  w_trace w' = w_trace w ++ unregister_plan self name.
Proof.
  rewrite remove_virtual_network_run. unfold unregister_plan.
  destruct (str_in name (vnets self)).
  - destruct (run_cmd2_step "virsh" ["net-destroy"; name] w)
      as [r1 [w1 [-> [Htr1 _]]]].
    destruct r1 as [[]|e]; [|discriminate].
    destruct (run_cmd2_step "virsh" ["net-undefine"; name] w1)
      as [r2 [w2 [-> [Htr2 _]]]].
    destruct r2 as [[]|e]; [|discriminate].
    intros [= _ <-]. rewrite Htr2, Htr1, <- List.app_assoc. reflexivity.
  - intros [= _ <-]. now rewrite List.app_nil_r.
Qed.

Lemma add_virtual_network_trace (name bridge : string)
      (self self' : NetworkInstaller) (w w' : world) :
  add_virtual_network name bridge (self, w) = (Ok tt, (self', w')) ->
  exists path,
    w_trace w' = w_trace w ++ [virsh "net-define" path;
                               virsh "net-start" name;
                               virsh "net-autostart" name].
Proof.
  unfold add_virtual_network. intros Hrun.
  apply bind_ok in Hrun as [[] [[self1 w1] [H1 Hrun]]].
  apply bind_ok in Hrun as [[] [[self2 w2] [H2 Hrun]]].
  apply bind_ok in Hrun as [[] [[self3 w3] [H3 Hrun]]].
  apply lift_ok in H1 as [-> H1].
  apply lift_ok in H2 as [-> H2].
  apply lift_ok in H3 as [-> H3].
  injection Hrun as _ <-.
  unfold named_temporary_file in H1.
  destruct (mktemp _ (w_host w)) as [[oserr|path] h]; [discriminate|].
  destruct (run_cmd2_step "virsh" ["net-define"; path]
                          {| w_host := h; w_trace := w_trace w |})
    as [r [wd [Hdef [Htrd _]]]].
  rewrite Hdef in H1. injection H1 as -> <-.
  destruct (run_cmd2_step "virsh" ["net-start"; name]
                          {| w_host := rmtemp path (w_host wd);
                             w_trace := w_trace wd |})
    as [r2 [w2' [Hs [Htr2 _]]]].
  rewrite H2 in Hs. injection Hs as <- <-.
  destruct (run_cmd2_step "virsh" ["net-autostart"; name] w2)
    as [r3 [w3' [Ha [Htr3 _]]]].
  rewrite H3 in Ha. injection Ha as <- <-.
  exists path. rewrite Htr3, Htr2. simpl. rewrite Htrd. simpl.
  now rewrite <- !List.app_assoc.
Qed.

(** X7: when [construct_virtual_network] returns, the calls it has made
    are, in this order: the removal of the existing links named as the
    tunnel and the bridge, the creation of the tunnel on the underlay
    device found, of the bridge and of the mastering, one forwarding entry
    per listed remote endpoint, the two calls that remove the registration
    if the snapshot has it, and the definition, the start and the
    autostart of the network. *)
Theorem construct_follows_build_plan (config : network_config)
        (self self' : NetworkInstaller) (w w' : world) :
  construct_virtual_network config (self, w) = (Ok tt, (self', w')) ->
  exists found path,
    scan_interfaces (interfaces self) (endpoints_of config) = Some found
    /\ w_trace w'
       = w_trace w ++ build_plan self config found
         ++ [virsh "net-define" path;
             virsh "net-start" (name_of config);
             virsh "net-autostart" (name_of config)].
Proof.
  unfold construct_virtual_network. intros Hrun.
  apply bind_ok in Hrun as [[] [s1 [Hcheck Hrun]]].
  rewrite check_conflict_run in Hcheck.
  destruct (_ && _) in Hcheck; [discriminate|].
  destruct (_ && _) in Hcheck; [discriminate|].
  injection Hcheck as <-.
  apply bind_ok in Hrun as [self0 [s2 [Hself Hrun]]].
  injection Hself as <- <-.
  apply bind_ok in Hrun as [[] [s3 [Hdel1 Hrun]]].
  apply bind_ok in Hrun as [[] [s4 [Hdel2 Hrun]]].
  apply bind_ok in Hrun as [found [s5 [Hfind Hrun]]].
  apply bind_ok in Hrun as [[] [[self6 w6] [Hadd Hrun]]].
  apply bind_ok in Hrun as [[] [[self7 w7] [Hmesh Hrun]]].
  apply bind_ok in Hrun as [[] [[self8 w8] [Hunreg Hreg]]].
  destruct (remove_step (dict_mem (tunnel_of config) (interfaces self))
                        (tunnel_of config) self w)
    as [r3 [w3 [E3 [Htr3 _]]]].
  rewrite Hdel1 in E3. injection E3 as <- ->.
  destruct (remove_step (dict_mem (bridge_of config) (interfaces self))
                        (bridge_of config) self w3)
    as [r4 [w4 [E4 [Htr4 _]]]].
  rewrite Hdel2 in E4. injection E4 as <- ->.
  unfold _find_underlay, bind, get_self in Hfind. simpl in Hfind.
  destruct (scan_interfaces (interfaces self) (endpoints_of config))
    as [found'|] eqn:Hscan; [|discriminate].
  injection Hfind as -> <-.
  apply lift_ok in Hadd as [-> Hadd]. rewrite add_new_tunnel_plan in Hadd.
  apply run_plan_ok in Hadd.
  apply lift_ok in Hmesh as [-> Hmesh].
  rewrite connect_endpoints_plan in Hmesh. apply run_plan_ok in Hmesh.
  pose proof (remove_virtual_network_self (name_of config) self w7)
    as [r [self8' [w8' [Heq _]]]].
  apply remove_virtual_network_trace in Hunreg as Htr8.
  apply add_virtual_network_trace in Hreg as [path Htr9].
  exists found, path. split; [reflexivity|].
  rewrite Htr9, Htr8, Hmesh, Hadd, Htr4, Htr3.
  unfold build_plan, removals. now rewrite <- !List.app_assoc.
Qed.

(** ** The snapshot of the interfaces *)

Lemma dict_get_set {V} (n k : string) (v : V) (d : dict V) :
  dict_get n (dict_set k v d)
  = if String.eqb n k then Some v else dict_get n d.
Proof.
  induction d as [|[k' v'] d IH]; simpl; [reflexivity|].
  destruct (String.eqb_spec k k') as [->|Hkk]; simpl.
  - now destruct (String.eqb_spec n k').
  - rewrite IH. destruct (String.eqb_spec n k) as [->|Hnk]; [|reflexivity].
    now destruct (String.eqb_spec k k').
Qed.

Lemma dict_get_of {A V} (key : A -> string) (val : A -> V) (xs : list A)
      (n : string) :
  dict_get n (dict_of key val xs)
  = option_map val (find (fun x => String.eqb (key x) n) (rev xs)).
Proof.
  unfold dict_of.
  assert (Hgen : forall acc : dict V,
             dict_get n (fold_left (fun d x => dict_set (key x) (val x) d)
                                   xs acc)
             = match find (fun x => String.eqb (key x) n) (rev xs) with
               | Some x => Some (val x)
               | None => dict_get n acc
               end).
  { induction xs as [|x xs IH]; intros acc; simpl; [reflexivity|].
    rewrite IH, find_app. simpl.
    destruct (find _ (rev xs)); [reflexivity|].
    rewrite dict_get_set, String.eqb_sym. now destruct (String.eqb (key x) n). }
  rewrite Hgen. now destruct (find _ (rev xs)).
Qed.

Lemma with_fdb_cons (ip : string) (l : list string) (i : iface) :
  with_fdb l {| ifname := ifname i; linkinfo := linkinfo i;
                addr_info := addr_info i;
                fdb_dsts := match fdb_dsts i with
                            | None => Some [ip]
                            | Some l0 => Some (l0 ++ [ip])
                            end |}
  = with_fdb (ip :: l) i.
Proof.
  unfold with_fdb. destruct l as [|ip' l], (fdb_dsts i) as [l0|]; simpl;
    try reflexivity; now rewrite <- List.app_assoc.
Qed.

Lemma fold_fdb_dsts_groups (dsts : list fdb_entry) (ifs : dict iface) :
  (forall e ip, In e dsts -> dst e = Some ip ->
                In (fdb_ifname e) (dict_keys ifs)) ->
  exists ifs',
    fold_fdb_dsts dsts ifs = Ok ifs'
    /\ forall n, dict_get n ifs'
                 = option_map (with_fdb (dsts_for n dsts)) (dict_get n ifs).
Proof.
  revert ifs. induction dsts as [|e dsts IH]; intros ifs Hknown; simpl.
  - exists ifs. split; [reflexivity|]. intros n.
    now destruct (dict_get n ifs).
  - destruct (dst e) as [ip|] eqn:Hdst.
    + assert (Hin : In (fdb_ifname e) (dict_keys ifs))
        by (eapply Hknown; [now left | exact Hdst]).
      apply dict_mem_keys in Hin. unfold dict_mem in Hin.
      destruct (dict_get (fdb_ifname e) ifs) as [i|] eqn:Hget;
        [|discriminate].
      destruct (IH (dict_set (fdb_ifname e)
                             {| ifname := ifname i; linkinfo := linkinfo i;
                                addr_info := addr_info i;
                                fdb_dsts := match fdb_dsts i with
                                            | None => Some [ip]
                                            | Some l => Some (l ++ [ip])
                                            end |} ifs))
        as [ifs' [Hfold Hgroups]].
      { intros e' ip' He' Hd'. apply dict_set_mem. right.
        eapply Hknown; [now right | exact Hd']. }
      exists ifs'. split; [exact Hfold|]. intros n.
      rewrite Hgroups, dict_get_set, String.eqb_sym.
      destruct (String.eqb_spec (fdb_ifname e) n) as [<-|Hne]; simpl.
      * rewrite Hget. simpl. now rewrite with_fdb_cons.
      * reflexivity.
    + apply IH. intros e' ip' He' Hd'. eapply Hknown; [now right | exact Hd'].
Qed.

Lemma dsts_for_filter (n : string) (entries : list fdb_entry) :
  dsts_for n (filter (fun e => match dst e with
                               | Some _ => true
                               | None => false
                               end) entries)
  = dsts_for n entries.
Proof.
  unfold dsts_for. induction entries as [|e entries IH]; simpl; [reflexivity|].
  destruct (dst e) as [ip|] eqn:Hdst; simpl; [|exact IH].
  now rewrite Hdst, IH.
Qed.

(** What [_get_interfaces] returns when discovery goes well. *)
Lemma get_interfaces_run (w : world)
      (if_data : list iface) (fdb_data : list fdb_entry) :
  ip_addr (w_host w) = Parsed if_data ->
  bridge_fdb (w_host w) = Parsed fdb_data ->
  (forall e ip, In e fdb_data -> dst e = Some ip ->
                In (fdb_ifname e) (map ifname if_data)) ->
  exists ifs,
    _get_interfaces w = (Ok ifs, w)
    /\ NoDup (dict_keys ifs)
    /\ (forall n, In n (dict_keys ifs) <-> In n (map ifname if_data))
    /\ forall n, dict_get n ifs
                 = option_map (with_fdb (dsts_for n fdb_data))
                              (listed n if_data).
Proof.
  intros Hip Hfdb Hknown.
  destruct (dict_of_spec ifname (fun i => i) if_data) as [Hnd Hkeys].
  destruct (@fold_fdb_dsts_groups
              (filter (fun e => match dst e with
                                | Some _ => true
                                | None => false
                                end) fdb_data)
              (dict_of ifname (fun i => i) if_data))
    as [ifs [Hfold Hgroups]].
  { intros e ip He Hd. apply filter_In in He as [He _].
    apply Hkeys. eapply Hknown; [exact He | exact Hd]. }
  exists ifs.
  assert (Hrun : _get_interfaces w = (Ok ifs, w)).
  { unfold _get_interfaces, bind, popen_json, of_result.
    now rewrite Hip, Hfdb, Hfold. }
  splits.
  - exact Hrun.
  - now rewrite (fold_fdb_dsts_keys _ _ Hfold).
  - intros n. now rewrite (fold_fdb_dsts_keys _ _ Hfold).
  - intros n. rewrite Hgroups, dsts_for_filter, dict_get_of. unfold listed.
    now destruct (find _ (rev if_data)).
Qed.

(** X8: when both queries parse and every forwarding entry that has a
    destination names an interface that [ip] listed, [_get_interfaces]
    returns, changing nothing: its keys are the listed names, and under
    each name it holds the entry listed last by that name, with the
    destinations of the forwarding entries of that device added to
    ["fdb_dsts"] in their order. *)
Theorem get_interfaces_groups_destinations (w : world)
        (if_data : list iface) (fdb_data : list fdb_entry) :
  ip_addr (w_host w) = Parsed if_data ->
  bridge_fdb (w_host w) = Parsed fdb_data ->
  (forall e ip, In e fdb_data -> dst e = Some ip ->
                In (fdb_ifname e) (map ifname if_data)) ->
  exists ifs,
    _get_interfaces w = (Ok ifs, w)
    /\ NoDup (dict_keys ifs)
    /\ (forall n, In n (dict_keys ifs) <-> In n (map ifname if_data))
    /\ forall n, dict_get n ifs
                 = option_map (with_fdb (dsts_for n fdb_data))
                              (listed n if_data).
Proof.
  apply get_interfaces_run.
Qed.

(** X9: when [virsh net-list --name] prints one name per line,
    [_get_virtual_networks] returns the names that are not empty, in
    their order, and changes nothing; the empty name is never among
    them. *)
Theorem get_virtual_networks_names (w : world) (names : list string) :
  virsh_net_list (w_host w)
  = Lines (map (fun name => (name ++ newline)%string) names) ->
  exists nets,
    _get_virtual_networks w = (Ok nets, w)
    /\ nets = filter nonempty names
    /\ ~ In EmptyString nets.
Proof.
  intros Hlines. exists (filter nonempty names). splits.
  - unfold _get_virtual_networks. rewrite Hlines. do 2 f_equal.
    clear Hlines. induction names as [|name names IH]; simpl; [reflexivity|].
    rewrite drop_last_newline. unfold nonempty at 1.
    destruct (String.eqb name EmptyString); simpl; [exact IH|].
    now rewrite drop_last_newline, IH.
  - reflexivity.
  - intros Hin. apply filter_In in Hin as [_ Hne]. discriminate.
Qed.

Lemma dict_where_needs_info_kind (k key : string) (val : iface)
      (items : list (string * iface)) (acc : dict iface) :
  In (key, val) items -> linkinfo val = Some {| info_kind := None |} ->
  dict_where (has_info_kind k) items acc = Raise (KeyError "info_kind").
Proof.
  intros Hin Hinfo. revert acc.
  induction items as [|[key' val'] items IH]; intros acc; [destruct Hin|].
  simpl. destruct (has_info_kind k val') as [[|]|e] eqn:Hcond.
  - destruct Hin as [Heq|Hin]; [|now apply IH].
    injection Heq as -> ->. unfold has_info_kind in Hcond.
    rewrite Hinfo in Hcond. discriminate.
  - destruct Hin as [Heq|Hin]; [|now apply IH].
    injection Heq as -> ->. unfold has_info_kind in Hcond.
    rewrite Hinfo in Hcond. discriminate.
  - unfold has_info_kind in Hcond.
    destruct (linkinfo val') as [[[k'|]]|]; simpl in Hcond;
      try discriminate. now injection Hcond as <-.
Qed.

Lemma with_fdb_linkinfo (l : list string) (i : iface) :
  linkinfo (with_fdb l i) = linkinfo i.
Proof.
  now destruct l.
Qed.

(** X10: the constructor reads ["info_kind"] of every interface that has
    a ["linkinfo"]: when [ip] lists, under distinct names, an interface
    whose ["linkinfo"] has no ["info_kind"] (a port of a bridge has only
    the kind of its master there), [NetworkInstaller()] raises
    [KeyError], although both queries parsed and every forwarding entry
    is known. *)
Theorem init_needs_info_kind (w : world) (if_data : list iface)
        (fdb_data : list fdb_entry) (i : iface) :
  ip_addr (w_host w) = Parsed if_data ->
  bridge_fdb (w_host w) = Parsed fdb_data ->
  (forall e ip, In e fdb_data -> dst e = Some ip ->
                In (fdb_ifname e) (map ifname if_data)) ->
  NoDup (map ifname if_data) ->
  In i if_data ->
  linkinfo i = Some {| info_kind := None |} ->
  __init__ w = (Raise (KeyError "info_kind"), w).
Proof.
  intros Hip Hfdb Hknown Hnd Hin Hinfo.
  destruct (get_interfaces_run w Hip Hfdb Hknown)
    as [ifs [Hrun [_ [_ Hget]]]].
  assert (Hlisted : dict_get (ifname i) ifs
                    = Some (with_fdb (dsts_for (ifname i) fdb_data) i)).
  { rewrite Hget.
    assert (Hd : dict_get (ifname i) (map (fun x => (ifname x, x)) if_data)
                 = Some i).
    { apply In_dict_get.
      - unfold dict_keys. rewrite map_map. exact Hnd.
      - apply in_map_iff. now exists i. }
    pose proof (dict_get_of ifname (fun x => x) if_data (ifname i)) as Hof.
    rewrite dict_of_distinct, Hd in Hof by exact Hnd.
    unfold listed. destruct (find _ (rev if_data)) as [i'|];
      simpl in Hof; [|discriminate].
    now injection Hof as <-. }
  apply dict_get_In in Hlisted.
  unfold __init__, bind. rewrite Hrun. unfold of_result.
  rewrite (@dict_where_needs_info_kind "vxlan" _ _ ifs [] Hlisted)
    by now rewrite with_fdb_linkinfo.
  reflexivity.
Qed.

(** ** The registry *)

(** X11: with no name twice in the list of registered networks, a
    removal that has returned has taken the name off the list: removing
    the same network again makes no call and changes nothing. *)
Theorem remove_virtual_network_once (name : string)
        (self self' : NetworkInstaller) (w w' : world) :
  NoDup (vnets self) ->
  remove_virtual_network name (self, w) = (Ok tt, (self', w')) ->
  ~ In name (vnets self')
  /\ remove_virtual_network name (self', w') = (Ok tt, (self', w')).
Proof.
  intros Hnd Hrun.
  assert (Hout : ~ In name (vnets self')).
  { destruct (remove_virtual_network_self name self w)
      as [r [self1 [w1 [Heq Hr]]]].
    rewrite Hrun in Heq. injection Heq as <- <- <-.
    destruct Hr as [[_ [->|[-> Hout]]]|[e [Habs _]]];
      [|assumption|discriminate].
    simpl. now apply list_remove_NoDup. }
  split; [exact Hout|].
  rewrite remove_virtual_network_run.
  apply str_in_false in Hout. now rewrite Hout.
Qed.

(** ** The two phases of a run *)

Lemma package_plan_commands (pkgs : dict package)
      (blade_class : option string) :
  Forall package_command (package_plan pkgs blade_class).
Proof.
  unfold package_plan, package_command.
  repeat (apply Forall_app; split).
  - repeat constructor; simpl; tauto.
  - destruct (list_from_packages pkgs blade_class preconfig_settings);
      repeat constructor; simpl; tauto.
  - repeat constructor; simpl; tauto.
  - apply Forall_forall. intros inv Hin.
    apply in_map_iff in Hin as [x [<- _]]. simpl. tauto.
  - apply Forall_forall. intros inv Hin.
    apply in_map_iff in Hin as [x [<- _]]. simpl. tauto.
Qed.

Lemma appends_network_run_cmd2 (cmd : string) (args : list string) :
  In cmd ["ip"; "bridge"; "virsh"] ->
  appends w_trace network_command (run_cmd2 cmd args).
Proof.
  intros Hcmd. unfold run_cmd2. now apply appends_run_cmd.
Qed.

Ltac network_calls :=
  repeat first
         [ apply appends_ret
         | apply appends_lift
         | apply appends_when
         | apply appends_network_run_cmd2; simpl; tauto
         | apply appends_named_temporary_file; intros ?
         | apply appends_for_each; intros ?
         | apply appends_bind; [|intros ?] ].

Lemma network_calls_remove_virtual_network (name : string) :
  appends method_trace network_command (remove_virtual_network name).
Proof.
  unfold remove_virtual_network.
  apply appends_bind; [now apply appends_quiet|]. intros self.
  destruct (negb _); [apply appends_ret|].
  apply appends_bind; [network_calls | intros _].
  apply appends_bind; [network_calls | intros _].
  now apply appends_quiet.
Qed.

Lemma network_calls_construct_virtual_network (config : network_config) :
  appends method_trace network_command (construct_virtual_network config).
Proof.
  unfold construct_virtual_network.
  apply appends_bind.
  { apply appends_quiet. intros [self w]. rewrite check_conflict_run.
    destruct (_ && _); [reflexivity|]. now destruct (_ && _). }
  intros _. apply appends_bind; [now apply appends_quiet|]. intros self.
  unfold remove_link.
  apply appends_bind; [network_calls | intros _].
  apply appends_bind; [network_calls | intros _].
  apply appends_bind.
  { apply appends_quiet. intros [self' w]. unfold _find_underlay, bind.
    simpl. now destruct (scan_interfaces _ _). }
  intros found. apply appends_bind.
  { unfold add_new_tunnel. network_calls. }
  intros _. apply appends_bind.
  { unfold connect_endpoints. network_calls. }
  intros _.
  apply appends_bind; [apply network_calls_remove_virtual_network|].
  intros _. unfold add_virtual_network.
  apply appends_bind; [network_calls | intros _].
  apply appends_bind; [network_calls | intros _].
  apply appends_bind; [network_calls | intros _].
  now apply appends_quiet.
Qed.

Lemma network_calls_install_networks (networks : dict network_config) :
  appends method_trace network_command (install_networks networks).
Proof.
  unfold install_networks.
  apply appends_bind; [apply network_calls_remove_virtual_network|].
  intros _. apply appends_for_each. intros item.
  apply network_calls_construct_virtual_network.
Qed.

Lemma init_quiet (w : world) : snd (__init__ w) = w.
Proof.
  destruct (__init__ w) as [[self|e] w'] eqn:Hinit; simpl.
  - now destruct (init_snapshot w Hinit) as [-> _].
  - now destruct (init_raises_unclassified w Hinit) as [-> _].
Qed.

(** X12: a run of [main] on a configuration that loads has two phases:
    first commands of the package manager and the service manager only,
    then commands on links, forwarding entries and libvirt networks
    only; and a command of the second phase is only made once every call
    of the package phase has been. *)
Theorem packages_before_networks (path : string) (rest : list string)
        (config : blade_config) (w : world) :
  open_config path (w_host w) = Loaded config ->
  exists pk nw,
    w_trace (snd (main (path :: rest) w)) = w_trace w ++ pk ++ nw
    /\ Forall package_command pk
    /\ Forall network_command nw
    /\ (nw <> [] ->
        pk = package_plan (packages_of config) (cfg_blade_class config)).
Proof.
  intros Hcfg. unfold main, bind, read_config. rewrite Hcfg.
  pose proof (package_plan_commands (packages_of config)
                                    (cfg_blade_class config)) as Hplan.
  destruct (setup_packages_runs (packages_of config)
                                (cfg_blade_class config) w)
    as [Hok [Hfail _]].
  destruct (setup_packages _ _ w) as [[[]|e] w1]; simpl in *.
  - specialize (Hok eq_refl).
    pose proof (init_quiet w1) as Hq.
    destruct (__init__ w1) as [[self|e] w2]; simpl in Hq; subst w2.
    + unfold on_object.
      destruct (network_calls_install_networks (networks_of config)
                                               (self, w1))
        as [nw [Htr Hnw]].
      destruct (install_networks _ _) as [r [self' w3]].
      unfold method_trace in Htr. simpl in *.
      exists (package_plan (packages_of config) (cfg_blade_class config)), nw.
      splits; try assumption; [|reflexivity].
      now rewrite Htr, Hok, <- List.app_assoc.
    + exists (package_plan (packages_of config) (cfg_blade_class config)), [].
      simpl. splits; try assumption; [|constructor|reflexivity].
      now rewrite List.app_nil_r.
  - destruct (Hfail e eq_refl)
      as [[issued [failing [rest' [c [Hp [Ht _]]]]]]
         |[oserr [w2 [_ [_ [_ [Htr [_ Hw]]]]]]]].
    + exists (issued ++ [failing]), []. splits.
      * now rewrite List.app_nil_r.
      * rewrite Hp in Hplan. apply Forall_app in Hplan as [Hi Hf].
        apply Forall_app. split; [assumption|].
        inversion Hf; subst. constructor; [assumption | constructor].
      * constructor.
      * intros Habs. now contradiction Habs.
    + subst w2.
      exists [call "apt" ["update"]; call "apt" ["upgrade"; "-y"]], [].
      splits.
      * now rewrite List.app_nil_r.
      * unfold package_plan in Hplan. now apply Forall_app in Hplan as [Hpre _].
      * constructor.
      * intros Habs. now contradiction Habs.
Qed.

(** ** The platform deployment script *)

Lemma only_raises_ret {St A} (P : exn -> Prop) (a : A) :
  only_raises P (@ret St A a).
Proof.
  intros s e. discriminate.
Qed.

Lemma only_raises_bind {St A B} (P : exn -> Prop) (c : M St A)
      (k : A -> M St B) :
  only_raises P c -> (forall a, only_raises P (k a)) ->
  only_raises P (bind c k).
Proof.
  intros Hc Hk s e. unfold bind. specialize (Hc s).
  destruct (c s) as [[a|e0] s1]; simpl in *.
  - apply Hk.
  - intros [= <-]. now apply Hc.
Qed.

Lemma only_raises_for_each {St A} (P : exn -> Prop) (xs : list A)
      (body : A -> M St unit) :
  (forall x, only_raises P (body x)) -> only_raises P (for_each xs body).
Proof.
  intros Hbody. induction xs as [|x xs IH]; simpl.
  - apply only_raises_ret.
  - apply only_raises_bind; [apply Hbody | intros _; exact IH].
Qed.

Lemma only_raises_with_temporary_file {A} (P : exn -> Prop)
      (data : list string) (body : Sys A) :
  (forall oserr, P (OSError oserr)) ->
  only_raises P body -> only_raises P (with_temporary_file data body).
Proof.
  intros Hos Hbody w e. unfold with_temporary_file.
  destruct (temporary_file data (w_host w)) as [oserr|]; [|apply Hbody].
  intros [= <-]. apply Hos.
Qed.

Lemma platform_run_cmd2 (cmd : string) (args : list string) (w : world) :
  PlatformScript.run_cmd2 cmd args w = run_cmd2 cmd args w.
Proof.
  unfold PlatformScript.run_cmd2, PlatformScript.run_cmd, run_cmd2, run_cmd,
    bind, ret.
  destruct (exec _ (w_host w)) as [[oserr|exitval] h]; [reflexivity|].
  unfold PlatformScript.check_status, Runner.check_exit.
  rewrite andb_true_r. now destruct (negb _).
Qed.

Lemma no_usage_platform_run_cmd {A} (cmd : string) (args : list string)
      (stdin : stdin_src) (timeout : option Z) (check : bool)
      (k : Sys A) :
  only_raises (fun e => forall msg, e <> UsageError msg) k ->
  only_raises (fun e => forall msg, e <> UsageError msg)
              (PlatformScript.run_cmd cmd args stdin timeout check ;; k).
Proof.
  intros Hk. apply only_raises_bind; [|intros _; exact Hk].
  intros w e. unfold PlatformScript.run_cmd.
  destruct (exec _ (w_host w)) as [[oserr|exitval] h]; simpl.
  - intros [= <-]. discriminate.
  - unfold PlatformScript.check_status.
    destruct (_ && _); [|discriminate]. intros [= <-]. discriminate.
Qed.

Lemma no_usage_platform_setup_packages (pkgs : dict package)
      (blade_class : option string) :
  only_raises (fun e => forall msg, e <> UsageError msg)
              (PlatformScript.setup_packages pkgs blade_class).
Proof.
  unfold PlatformScript.setup_packages,
    PlatformScript.prepare_package_installer,
    PlatformScript.preconfigure_packages, PlatformScript.install_packages,
    PlatformScript.disable_services, PlatformScript.enable_services,
    PlatformScript.run_cmd2.
  repeat first
         [ apply only_raises_ret
         | apply no_usage_platform_run_cmd
         | apply only_raises_for_each; intros ?
         | apply only_raises_bind; [|intros ?] ].
  destruct (list_from_packages pkgs blade_class preconfig_settings).
  - apply only_raises_ret.
  - apply only_raises_with_temporary_file; [discriminate|].
    apply no_usage_platform_run_cmd, only_raises_ret.
Qed.

(** X14: [main] of the platform script takes exactly two arguments.
    With any other number it raises [UsageError] before it reads or runs
    anything, saying that no arguments were provided, that they are too
    few or that they are too many, and a run through [entrypoint] then
    exits with status 1 and the usage message, the blade untouched.
    With two arguments it never raises [UsageError], whatever the
    configuration and the commands do. *)
Theorem platform_main_usage (usage_msg : string) (argv : list string)
        (w : world) :
  (List.length argv <> 2%nat ->
   PlatformScript.main argv w
   = (Raise (UsageError
               match List.length argv with
               | 0%nat => "no arguments provided"
               | 1%nat => "too few arguments"
               | _ => "too many arguments"
               end), w)
   /\ entrypoint usage_msg PlatformScript.main argv w
      = (Exited 1 usage_msg, w))
  /\ (List.length argv = 2%nat ->
      forall msg,
        fst (PlatformScript.main argv w) <> Raise (UsageError msg)).
Proof.
  split.
  - intros Hlen. unfold entrypoint.
    destruct argv as [|a [|b [|c rest]]]; simpl in *;
      try (now contradiction Hlen); split; reflexivity.
  - intros Hlen msg Hraise.
    destruct argv as [|blade_class [|config_path [|c rest]]];
      try discriminate Hlen.
    revert msg Hraise. unfold PlatformScript.main.
    assert (Hno : only_raises
                    (fun e => forall msg, e <> UsageError msg)
                    (config <- read_config config_path ;;
                     PlatformScript.setup_packages (packages_of config)
                                                   (Some blade_class))%py).
    { apply only_raises_bind.
      - intros w0 e. unfold read_config.
        destruct (open_config _ _); [|discriminate].
        intros [= <-]. discriminate.
      - intros config. apply no_usage_platform_setup_packages. }
    intros msg Hraise. exact (Hno w _ Hraise msg eq_refl).
Qed.

(** X15: [prepare_package_installer] of the platform script does not
    check the exit status of [apt install -y apt-utils apt]: once
    [apt update] and [apt upgrade -y] have succeeded, it returns whatever
    that status is, having made the three calls. *)
Theorem apt_utils_failure_tolerated (w w2 : world) (status : Z)
        (h3 : host) :
  run_plan [call "apt" ["update"]; call "apt" ["upgrade"; "-y"]] w
  = (Ok tt, w2) ->
  exec PlatformScript.apt_utils (w_host w2) = (Runner.Spawned status, h3) ->
  PlatformScript.prepare_package_installer w
  = (Ok tt, {| w_host := h3;
               w_trace := w_trace w ++ [call "apt" ["update"];
                                        call "apt" ["upgrade"; "-y"];
                                        PlatformScript.apt_utils] |}).
Proof.
  intros Hplan Hexec.
  pose proof (run_plan_ok _ _ Hplan) as Htr.
  unfold PlatformScript.prepare_package_installer.
  unfold bind at 1. rewrite platform_run_cmd2, run_cmd2_plan.
  unfold run_plan in Hplan. simpl in Hplan. unfold bind in Hplan at 1.
  unfold run_plan. simpl for_each. rewrite for_each_nil_unit.
  change (run_cmd (inv_cmd (call "apt" ["update"]))
                  (inv_args (call "apt" ["update"]))
                  (inv_stdin (call "apt" ["update"]))
                  (inv_timeout (call "apt" ["update"])) w)
    with (run_cmd "apt" ["update"] SysStdin None w) in *.
  destruct (run_cmd "apt" ["update"] SysStdin None w) as [[[]|e] w1];
    [|discriminate].
  unfold bind at 1. rewrite platform_run_cmd2.
  rewrite for_each_nil_unit in Hplan. simpl in Hplan.
  unfold run_cmd2. rewrite Hplan.
  unfold bind, PlatformScript.run_cmd, ret.
  change {| inv_cmd := "apt"; inv_args := ["install"; "-y"; "apt-utils"; "apt"];
            inv_stdin := SysStdin; inv_timeout := None |}
    with PlatformScript.apt_utils.
  rewrite Hexec. unfold PlatformScript.check_status.
  rewrite andb_false_r. rewrite Htr. simpl.
  now rewrite <- List.app_assoc.
Qed.

End Further.
Lemma construct_follows_build_plan_witness :
  let w := Blade.running Example.fresh [] in
  let self := Example.snapshot Example.fresh in
  let w' := snd (snd (construct_virtual_network Example.fabric0 (self, w))) in
  let self' := fst (snd (construct_virtual_network Example.fabric0
                                                   (self, w))) in
  construct_virtual_network Example.fabric0 (self, w) = (Ok tt, (self', w'))
  /\ exists found path,
      scan_interfaces (interfaces self) (endpoints_of Example.fabric0)
      = Some found
      /\ w_trace w'
         = w_trace w ++ build_plan self Example.fabric0 found
           ++ [virsh "net-define" path;
               virsh "net-start" (name_of Example.fabric0);
               virsh "net-autostart" (name_of Example.fabric0)].
Proof.
  intros w self w' self'.
  assert (Hrun : construct_virtual_network Example.fabric0 (self, w)
                 = (Ok tt, (self', w'))) by (vm_compute; reflexivity).
  split; [exact Hrun|].
  exact (@construct_follows_build_plan Blade.blade Example.fabric0
                                       self self' w w' Hrun).
Defined.

Lemma get_interfaces_groups_destinations_witness :
  let w := Blade.running Example.built [] in
  exists ifs,
    _get_interfaces w = (Ok ifs, w)
    /\ NoDup (dict_keys ifs)
    /\ (forall n, In n (dict_keys ifs)
                  <-> In n (map ifname (map Blade.iface_of
                                            (Blade.links Example.built))))
    /\ forall n, dict_get n ifs
                 = option_map
                     (with_fdb (dsts_for n (flat_map Blade.fdb_of
                                              (Blade.links Example.built))))
                     (listed n (map Blade.iface_of
                                    (Blade.links Example.built))).
Proof.
  intros w.
  assert (Hip : ip_addr (w_host w)
                = Parsed (map Blade.iface_of (Blade.links Example.built)))
    by reflexivity.
  assert (Hfdb : bridge_fdb (w_host w)
                 = Parsed (flat_map Blade.fdb_of (Blade.links Example.built)))
    by reflexivity.
  assert (Hknown : forall e ip,
             In e (flat_map Blade.fdb_of (Blade.links Example.built)) ->
             dst e = Some ip ->
             In (fdb_ifname e)
                (map ifname (map Blade.iface_of
                                 (Blade.links Example.built)))).
  { intros e ip He _. simpl in He. destruct He as [<-|[<-|[]]]; simpl; tauto. }
  exact (@get_interfaces_groups_destinations Blade.blade w _ _
                                             Hip Hfdb Hknown).
Defined.

Lemma get_virtual_networks_names_witness :
  let w := Blade.running Example.fresh [] in
  virsh_net_list (w_host w)
  = Lines (map (fun name => (name ++ newline)%string)
               ["default"; EmptyString])
  /\ exists nets,
      _get_virtual_networks w = (Ok nets, w)
      /\ nets = filter nonempty ["default"; EmptyString]
      /\ ~ In EmptyString nets.
Proof.
  intros w.
  assert (Hlines : virsh_net_list (w_host w)
                   = Lines (map (fun name => (name ++ newline)%string)
                                ["default"; EmptyString]))
    by reflexivity.
  split; [exact Hlines|].
  exact (@get_virtual_networks_names Blade.blade w _ Hlines).
Defined.

Lemma init_needs_info_kind_witness :
  let w := Blade.running Scenario.ported [] in
  __init__ w = (Raise (KeyError "info_kind"), w).
Proof.
  intros w.
  assert (Hip : ip_addr (w_host w)
                = Parsed (map Blade.iface_of (Blade.links Scenario.ported)))
    by reflexivity.
  assert (Hfdb : bridge_fdb (w_host w) = Parsed []) by reflexivity.
  assert (Hknown : forall e ip,
             In e (@nil fdb_entry) -> dst e = Some ip ->
             In (fdb_ifname e)
                (map ifname (map Blade.iface_of
                                 (Blade.links Scenario.ported))))
    by (intros e ip []).
  assert (Hnd : NoDup (map ifname (map Blade.iface_of
                                       (Blade.links Scenario.ported)))).
  { apply distinct_NoDup. vm_compute. reflexivity. }
  assert (Hin : In (Blade.iface_of
                      {| Blade.l_name := "eth1"; Blade.l_kind := Blade.Plain;
                         Blade.l_master := Some "br0"; Blade.l_addrs := [];
                         Blade.l_fdb := [] |})
                   (map Blade.iface_of (Blade.links Scenario.ported)))
    by (simpl; tauto).
  exact (@init_needs_info_kind Blade.blade w _ _ _ Hip Hfdb Hknown Hnd Hin
                               eq_refl).
Defined.

Lemma remove_virtual_network_once_witness :
  let self := Example.snapshot Example.fresh in
  let w := Blade.running Example.fresh [] in
  let s' := snd (remove_virtual_network "default" (self, w)) in
  NoDup (vnets self)
  /\ remove_virtual_network "default" (self, w) = (Ok tt, s')
  /\ ~ In "default" (vnets (fst s'))
  /\ remove_virtual_network "default" s' = (Ok tt, s').
Proof.
  intros self w s'.
  assert (Hnd : NoDup (vnets self)).
  { apply distinct_NoDup. vm_compute. reflexivity. }
  assert (Hrun : remove_virtual_network "default" (self, w)
                 = (Ok tt, (fst s', snd s')))
    by (vm_compute; reflexivity).
  splits; [exact Hnd | exact Hrun | |];
    apply (@remove_virtual_network_once Blade.blade "default" self (fst s')
                                        w (snd s') Hnd Hrun).
Defined.

Lemma packages_before_networks_witness :
  let w := Blade.running Example.fresh [] in
  open_config "/root/blade.yaml" (w_host w) = Loaded Example.blade_yaml
  /\ exists pk nw,
      w_trace (snd (main ["/root/blade.yaml"] w)) = w_trace w ++ pk ++ nw
      /\ Forall package_command pk
      /\ Forall network_command nw
      /\ (nw <> [] ->
          pk = package_plan (packages_of Example.blade_yaml)
                            (cfg_blade_class Example.blade_yaml)).
Proof.
  intros w.
  assert (Hcfg : open_config "/root/blade.yaml" (w_host w)
                 = Loaded Example.blade_yaml) by reflexivity.
  split; [exact Hcfg|].
  exact (@packages_before_networks Blade.blade "/root/blade.yaml" [] _ w
                                   Hcfg).
Defined.

Lemma apt_utils_failure_tolerated_witness :
  let w := Scenario.at_rest in
  PlatformScript.prepare_package_installer w
  = (Ok tt, {| w_host := w_host w;
               w_trace := w_trace w ++ [call "apt" ["update"];
                                        call "apt" ["upgrade"; "-y"];
                                        PlatformScript.apt_utils] |})
  /\ exec PlatformScript.apt_utils (w_host w)
     = (Runner.Spawned 100%Z, w_host w).
Proof.
  intros w.
  assert (Hplan : run_plan [call "apt" ["update"];
                            call "apt" ["upgrade"; "-y"]] w
                  = (Ok tt, {| w_host := w_host w;
                               w_trace := [call "apt" ["update"];
                                           call "apt" ["upgrade"; "-y"]] |}))
    by (vm_compute; reflexivity).
  assert (Hexec : exec PlatformScript.apt_utils (w_host w)
                  = (Runner.Spawned 100%Z, w_host w))
    by (vm_compute; reflexivity).
  split; [|exact Hexec].
  exact (@apt_utils_failure_tolerated Scenario.no_apt_utils w _ 100%Z _
                                      Hplan Hexec).
Defined.

(** ** The platform layer *)

Lemma add_endpoint_ips_listed (vb : Layer.virtual_blades) (key : string)
      (n n' : Layer.network) :
  Layer.__add_endpoint_ips vb n = Layer.Done n' ->
  listed_endpoints vb (key, n) (key, n').
Proof.
  unfold Layer.__add_endpoint_ips, listed_endpoints, classes_of. simpl.
  destruct (Layer.n_interconnect n) as [interconnect|]; [|discriminate].
  intros [= <-]. split; [reflexivity|]. now exists interconnect.
Qed.

Lemma add_all_done (vb : Layer.virtual_blades)
      (items changed : list (string * Layer.network)) :
  Layer.add_all vb items = (changed, None) ->
  Forall2 (listed_endpoints vb) items changed.
Proof.
  revert changed. induction items as [|[key n] items IH]; intros changed.
  - simpl. intros [= <-]. constructor.
  - simpl.
    destruct (Layer.__add_endpoint_ips vb n) as [n'|e] eqn:Hadd;
      [|discriminate].
    destruct (Layer.add_all vb items) as [rest' r].
    intros [= <- ->]. constructor; [|now apply IH].
    now apply add_endpoint_ips_listed.
Qed.

Lemma add_all_stops (vb : Layer.virtual_blades)
      (before after : list (string * Layer.network)) (key : string)
      (n : Layer.network) :
  (forall k m, In (k, m) before -> Layer.n_interconnect m <> None) ->
  Layer.n_interconnect n = None ->
  exists before',
    Layer.add_all vb (before ++ (key, n) :: after)
    = (before' ++ (key, n) :: after,
       Some (Layer.Contextual Layer.NoInterconnect))
    /\ Forall2 (listed_endpoints vb) before before'.
Proof.
  intros Hbefore Hn. induction before as [|[k m] before IH]; simpl.
  - exists []. unfold Layer.__add_endpoint_ips. rewrite Hn.
    split; [reflexivity | constructor].
  - destruct IH as [before' [Hrun Hlisted]].
    { intros k' m' Hin. apply (Hbefore k' m'). now right. }
    destruct (Layer.__add_endpoint_ips vb m) as [m'|e] eqn:Hadd.
    + rewrite Hrun. exists ((k, m') :: before').
      split; [reflexivity|]. constructor; [|assumption].
      now apply add_endpoint_ips_listed.
    + exfalso. unfold Layer.__add_endpoint_ips in Hadd.
      destruct (Layer.n_interconnect m) eqn:Hm; [discriminate|].
      apply (Hbefore k m); [now left | assumption].
Qed.

Lemma In_dict_of {A V} (key : A -> string) (val : A -> V) (xs : list A)
      (k : string) (v : V) :
  In (k, v) (dict_of key val xs) ->
  exists x, In x xs /\ key x = k /\ val x = v.
Proof.
  intros Hin.
  destruct (dict_of_spec key val xs) as [Hnd _].
  apply (In_dict_get _ _ _ Hnd) in Hin. rewrite dict_get_of in Hin.
  destruct (find _ (rev xs)) as [x|] eqn:Hfind; [|discriminate].
  apply find_some in Hfind as [Hx Hk]. injection Hin as <-.
  exists x. splits; [now apply in_rev | now apply String.eqb_eq | reflexivity].
Qed.

Section LayerProperties.
Context {B : Layer.Base}.
Variable path_join : string -> string -> string.
Variable log_paths : string -> string -> string * string.
Variables DEPLOY_SCRIPT_PATH DEPLOY_SCRIPT_NAME : string.
Variable stack : Layer.virtual_blades.


(** X16: when [prepare] returns, the layer is prepared and holds the
    provider's blades, no command has been run, and the configuration it
    has written to [blade_config_path] is the one it now holds, in which
    every network is a network of the configuration it was given, with
    the addresses of all blades of its connected classes on its
    interconnect as ['endpoint_ips'].  Conversely every network it was
    given is in it: the written configuration has a 'networks' section
    made, key by key and in their order, of the given networks with
    their ['endpoint_ips'] filled in (with no key listed twice, as in a
    mapping, it is that list itself), and the packages and the blade
    class are those it was given. *)
Theorem prepare_writes_endpoints (w w' : Layer.world) :
  Layer.prepare stack w = (Layer.Done tt, w') ->
  Layer.prepared (Layer.self w') = true
  /\ Layer.provider_api (Layer.self w') = Some stack
  /\ Layer.runs w' = Layer.runs w
  /\ Layer.dump (Layer.blade_config_path (Layer.self w))
                (Layer.config (Layer.self w')) (Layer.surroundings w)
     = (Layer.Done tt, Layer.surroundings w')
  /\ (forall after,
         In after (networks_in (Layer.config (Layer.self w'))) ->
         exists before,
           In before (networks_in (Layer.config (Layer.self w)))
           /\ listed_endpoints stack before after)
  /\ (exists changed,
         Forall2 (listed_endpoints stack)
                 (networks_in (Layer.config (Layer.self w))) changed
         /\ Layer.p_networks (Layer.config (Layer.self w'))
            = Some (dict_of fst snd changed)
         /\ (NoDup (dict_keys (networks_in (Layer.config (Layer.self w)))) ->
             dict_of fst snd changed = changed))
  /\ Layer.p_packages (Layer.config (Layer.self w'))
     = Layer.p_packages (Layer.config (Layer.self w))
  /\ Layer.p_blade_class (Layer.config (Layer.self w'))
     = Layer.p_blade_class (Layer.config (Layer.self w)).
Proof.
  unfold Layer.prepare. simpl.
  destruct (Layer.add_all stack _) as [changed [e|]] eqn:Hadd;
    [discriminate|].
  destruct (Layer.dump _ _ _) as [[[]|e] sur] eqn:Hdump; [|discriminate].
  intros [= <-]. simpl. splits; try reflexivity.
  - exact Hdump.
  - intros [k n'] Hin. unfold networks_in in *. simpl in Hin.
    apply In_dict_of in Hin as [[k0 n0] [Hin [Hk Hn]]].
    simpl in Hk, Hn. subst k0 n0.
    apply add_all_done in Hadd.
    clear Hdump. revert Hin. induction Hadd as [|x y xs ys Hxy Hrest IH].
    + intros [].
    + intros [<-|Hin].
      * exists x. split; [now left | exact Hxy].
      * destruct (IH Hin) as [before [Hb Hl]]. exists before.
        split; [now right | exact Hl].
  - exists changed. apply add_all_done in Hadd.
    splits; [exact Hadd | reflexivity |].
    intros Hnd. rewrite dict_of_distinct.
    + clear. induction changed as [|[k n] changed IH]; [reflexivity|].
      simpl. now rewrite IH.
    + assert (Hkeys : map fst changed
                      = dict_keys (networks_in (Layer.config (Layer.self w)))).
      { unfold dict_keys, networks_in. clear Hnd Hdump.
        induction Hadd as [|x y xs ys [Hxy _] Hrest IH]; [reflexivity|].
        simpl. now rewrite Hxy, IH. }
      now rewrite Hkeys.
Qed.

(** X17: when a network of the configuration names no
    ['blade_interconnect'], [prepare] raises [ContextualError] having
    written nothing and run nothing, and the layer is as prepared as it
    was; but the networks listed before that one have already been given
    their ['endpoint_ips'] in the configuration the layer holds. *)
Theorem prepare_stops_at_missing_interconnect
        (w : Layer.world) (before after : list (string * Layer.network))
        (key : string) (n : Layer.network) :
  Layer.p_networks (Layer.config (Layer.self w))
  = Some (before ++ (key, n) :: after) ->
  (forall k m, In (k, m) before -> Layer.n_interconnect m <> None) ->
  Layer.n_interconnect n = None ->
  exists before',
    fst (Layer.prepare stack w)
    = Layer.Failed (Layer.Contextual Layer.NoInterconnect)
    /\ Layer.p_networks (Layer.config (Layer.self
                                         (snd (Layer.prepare stack w))))
       = Some (before' ++ (key, n) :: after)
    /\ Forall2 (listed_endpoints stack) before before'
    /\ Layer.prepared (Layer.self (snd (Layer.prepare stack w)))
       = Layer.prepared (Layer.self w)
    /\ Layer.surroundings (snd (Layer.prepare stack w))
       = Layer.surroundings w
    /\ Layer.runs (snd (Layer.prepare stack w)) = Layer.runs w.
Proof.
  intros Hnets Hbefore Hn.
  destruct (@add_all_stops stack before after key n Hbefore Hn)
    as [before' [Hadd Hlisted]].
  exists before'. unfold Layer.prepare. simpl. rewrite Hnets, Hadd. simpl.
  now splits.
Qed.

(** *** The order of operations *)

Lemma run_logged_self (cmd : list string) (logs : string * string)
      (w : Layer.world) :
  Layer.self (snd (Layer.run_logged cmd logs w)) = Layer.self w.
Proof.
  unfold Layer.run_logged. now destruct (Layer.run cmd logs _).
Qed.

Lemma makes_calls_run_logged (c : Layer.run_call) (w : Layer.world) :
  makes_calls [c] w (Layer.run_logged (fst c) (snd c) w).
Proof.
  unfold makes_calls, Layer.run_logged.
  destruct (Layer.run (fst c) (snd c) _) as [r sur]. simpl.
  assert (Hc : (fst c, snd c) = c) by now destruct c.
  rewrite Hc. splits; [reflexivity | reflexivity |].
  intros e _. exists [], c, []. now split.
Qed.

Lemma makes_calls_then (c1 c2 : list Layer.run_call) (w : Layer.world)
      (r1 : Layer.outcome unit * Layer.world)
      (k : Layer.world -> Layer.outcome unit * Layer.world) :
  makes_calls c1 w r1 ->
  (forall w1, Layer.self w1 = Layer.self w -> makes_calls c2 w1 (k w1)) ->
  makes_calls (c1 ++ c2) w
              (match r1 with
               | (Layer.Failed e, w1) => (Layer.Failed e, w1)
               | (Layer.Done _, w1) => k w1
               end).
Proof.
  intros [Hself1 [Hdone1 Hfail1]] Hk. unfold makes_calls in *.
  destruct r1 as [[[]|e] w1]; simpl in *.
  - destruct (Hk w1 Hself1) as [Hself2 [Hdone2 Hfail2]].
    specialize (Hdone1 eq_refl). splits.
    + congruence.
    + intros Hr. rewrite (Hdone2 Hr), Hdone1. symmetry. apply List.app_assoc.
    + intros e He.
      destruct (Hfail2 e He) as [issued [failing [rest [Hc Hruns]]]].
      exists (c1 ++ issued), failing, rest. split.
      * rewrite Hc. apply List.app_assoc.
      * rewrite Hruns, Hdone1. now rewrite <- !List.app_assoc.
  - splits; [assumption | discriminate |].
    intros e0 He0.
    destruct (Hfail1 e0 He0) as [issued [failing [rest [Hc Hruns]]]].
    exists issued, failing, (rest ++ c2). split; [|assumption].
    rewrite Hc, <- List.app_assoc. reflexivity.
Qed.

Lemma makes_calls_info (calls : list Layer.run_call) (msg : string)
      (w : Layer.world) (r : Layer.outcome unit * Layer.world) :
  makes_calls calls (Layer.info_msg msg w) r -> makes_calls calls w r.
Proof.
  exact (fun H => H).
Qed.

Lemma makes_calls_deploy_blade (vb : Layer.virtual_blades)
      (c : Layer.connection) (w : Layer.world) :
  let key := snd (Layer.blade_ssh_key_paths vb (Layer.conn_blade_type c)) in
  let dir := Layer.build_dir (Layer.self w) in
  makes_calls
    [Layer.copy_config log_paths dir
                       (Layer.blade_config_path (Layer.self w)) c key
                       (Layer.ssh_options c);
     Layer.copy_script log_paths DEPLOY_SCRIPT_PATH DEPLOY_SCRIPT_NAME dir c
                       key (Layer.ssh_options c);
     Layer.run_script log_paths DEPLOY_SCRIPT_NAME dir c key
                      (Layer.ssh_options c)]
    w
    (Layer.deploy_blade log_paths DEPLOY_SCRIPT_PATH DEPLOY_SCRIPT_NAME
                        vb c w).
Proof.
  intros key dir. unfold Layer.deploy_blade. fold key. fold dir.
  apply (@makes_calls_then [_] [_; _]); [apply makes_calls_run_logged|].
  intros w1 Hself1.
  apply (@makes_calls_then [_] [_]); [apply makes_calls_run_logged|].
  intros w2 Hself2. eapply makes_calls_info. apply makes_calls_run_logged.
Qed.

Lemma makes_calls_deploy_instances (vb : Layer.virtual_blades)
      (instances : list nat) (blade_type : string) (w : Layer.world) :
  makes_calls
    (Layer.instance_calls log_paths DEPLOY_SCRIPT_PATH DEPLOY_SCRIPT_NAME
                          vb (Layer.build_dir (Layer.self w))
                          (Layer.blade_config_path (Layer.self w))
                          blade_type instances)
    w
    (Layer.deploy_instances log_paths DEPLOY_SCRIPT_PATH DEPLOY_SCRIPT_NAME
                            vb blade_type instances w).
Proof.
  revert blade_type w.
  induction instances as [|instance instances IH]; intros blade_type w.
  - simpl. unfold makes_calls. simpl. rewrite List.app_nil_r.
    splits; [reflexivity | reflexivity | discriminate].
  - simpl.
    apply (@makes_calls_then [_; _; _]); [apply makes_calls_deploy_blade|].
    intros w1 Hself. rewrite <- Hself. apply IH.
Qed.

Lemma makes_calls_deploy_types (vb : Layer.virtual_blades)
      (types : list string) (w : Layer.world) :
  makes_calls
    (flat_map
       (fun blade_type =>
          Layer.instance_calls log_paths DEPLOY_SCRIPT_PATH
                               DEPLOY_SCRIPT_NAME vb
                               (Layer.build_dir (Layer.self w))
                               (Layer.blade_config_path (Layer.self w))
                               blade_type
                               (seq 0 (Layer.blade_count vb blade_type)))
       types)
    w
    (Layer.deploy_types log_paths DEPLOY_SCRIPT_PATH DEPLOY_SCRIPT_NAME
                        vb types w).
Proof.
  revert w. induction types as [|blade_type types IH]; intros w.
  - simpl. unfold makes_calls. simpl. rewrite List.app_nil_r.
    splits; [reflexivity | reflexivity | discriminate].
  - simpl. apply makes_calls_then; [apply makes_calls_deploy_instances|].
    intros w1 Hself. rewrite <- Hself. apply IH.
Qed.

(** X18: on a prepared layer, [deploy] goes through the blades one
    after the other, type by type, and for each copies the blade
    configuration, copies the deployment script and then runs it there,
    each with a call of [run]; when it returns all these calls have been
    made, in this order, and when it raises the calls made are those up
    to the one that failed.  The layer object itself is left as it
    was. *)
Theorem deploy_follows_calls (w : Layer.world) (vb : Layer.virtual_blades) :
  Layer.prepared (Layer.self w) = true ->
  Layer.provider_api (Layer.self w) = Some vb ->
  makes_calls
    (Layer.deploy_calls log_paths DEPLOY_SCRIPT_PATH DEPLOY_SCRIPT_NAME vb
                        (Layer.build_dir (Layer.self w))
                        (Layer.blade_config_path (Layer.self w)))
    w
    (Layer.deploy log_paths DEPLOY_SCRIPT_PATH DEPLOY_SCRIPT_NAME w).
Proof.
  intros Hprep Hvb. unfold Layer.deploy. rewrite Hprep, Hvb. simpl.
  apply makes_calls_deploy_types.
Qed.

Lemma deploy_self (w : Layer.world) :
  Layer.self
    (snd (Layer.deploy log_paths DEPLOY_SCRIPT_PATH DEPLOY_SCRIPT_NAME w))
  = Layer.self w.
Proof.
  unfold Layer.deploy.
  destruct (negb _); [reflexivity|].
  destruct (Layer.provider_api (Layer.self w)) as [vb|]; [|reflexivity].
  apply makes_calls_deploy_types.
Qed.

Lemma perform_prepared (o : Layer.operation) (w : Layer.world) :
  Layer.prepared
    (Layer.self
       (snd (Layer.perform log_paths DEPLOY_SCRIPT_PATH DEPLOY_SCRIPT_NAME
                           stack o w))) = true ->
  Layer.prepared (Layer.self w) = true
  \/ (o = Layer.Prepare
      /\ fst (Layer.perform log_paths DEPLOY_SCRIPT_PATH DEPLOY_SCRIPT_NAME
                            stack o w) = Layer.Done tt).
Proof.
  destruct o; simpl.
  - unfold Layer.prepare. simpl.
    destruct (Layer.add_all stack _) as [changed [e|]]; simpl; [now left|].
    destruct (Layer.dump _ _ _) as [[[]|e] sur]; simpl; auto.
  - unfold Layer.validate. destruct (negb _); simpl; auto.
  - rewrite deploy_self. auto.
  - unfold Layer.remove. destruct (negb _); simpl; auto.
Qed.

Lemma perform_gated (o : Layer.operation) (w : Layer.world) :
  o <> Layer.Prepare ->
  fst (Layer.perform log_paths DEPLOY_SCRIPT_PATH DEPLOY_SCRIPT_NAME
                     stack o w) = Layer.Done tt ->
  Layer.prepared (Layer.self w) = true.
Proof.
  destruct o; simpl; [congruence| | |]; intros _.
  - unfold Layer.validate.
    destruct (Layer.prepared (Layer.self w)); [reflexivity | discriminate].
  - unfold Layer.deploy.
    destruct (Layer.prepared (Layer.self w)); [reflexivity | discriminate].
  - unfold Layer.remove.
    destruct (Layer.prepared (Layer.self w)); [reflexivity | discriminate].
Qed.

Lemma perform_all_gated (ops : list Layer.operation) (w : Layer.world)
      (k : nat) (o : Layer.operation) :
  nth_error ops k = Some o -> o <> Layer.Prepare ->
  nth_error
    (fst (Layer.perform_all log_paths DEPLOY_SCRIPT_PATH DEPLOY_SCRIPT_NAME
                            stack ops w)) k = Some (Layer.Done tt) ->
  Layer.prepared (Layer.self w) = true
  \/ exists j,
      (j < k)%nat /\ nth_error ops j = Some Layer.Prepare
      /\ nth_error
           (fst (Layer.perform_all log_paths DEPLOY_SCRIPT_PATH
                                   DEPLOY_SCRIPT_NAME stack ops w)) j
         = Some (Layer.Done tt).
Proof.
  revert w k. induction ops as [|o0 ops IH]; intros w k.
  - now destruct k.
  - simpl. pose proof (perform_prepared o0 w) as Hstep.
    pose proof (@perform_gated o0 w) as Hgate.
    destruct (Layer.perform log_paths DEPLOY_SCRIPT_PATH DEPLOY_SCRIPT_NAME
                            stack o0 w) as [r w1]. simpl in *.
    specialize (IH w1).
    destruct (Layer.perform_all log_paths DEPLOY_SCRIPT_PATH
                                DEPLOY_SCRIPT_NAME stack ops w1) as [rs w2].
    simpl in *.
    destruct k as [|k]; simpl.
    + intros [= ->] Hne [= ->]. left. now apply Hgate.
    + intros Hop Hne Hdone.
      destruct (IH k Hop Hne Hdone) as [Hprep|[j [Hj [Hpj Hdj]]]].
      * destruct (Hstep Hprep) as [Hw|[-> ->]]; [now left|].
        right. exists 0%nat. splits; [lia | reflexivity | reflexivity].
      * right. exists (S j). splits; [lia | assumption | assumption].
Qed.

(** X19: whatever operations are asked of a layer just constructed, one
    after the other and going on after failures, a [validate], [deploy]
    or [remove] only returns when a [prepare] asked before it has
    returned. *)
Theorem operations_gated_by_prepare (config : Layer.platform_config)
        (dir : string) (w : Layer.world) (ops : list Layer.operation)
        (k : nat) (o : Layer.operation) :
  Layer.LayerAPI path_join (Some config) dir = Layer.Done (Layer.self w) ->
  nth_error ops k = Some o -> o <> Layer.Prepare ->
  nth_error
    (fst (Layer.perform_all log_paths DEPLOY_SCRIPT_PATH DEPLOY_SCRIPT_NAME
                            stack ops w)) k = Some (Layer.Done tt) ->
  exists j,
    (j < k)%nat /\ nth_error ops j = Some Layer.Prepare
    /\ nth_error
         (fst (Layer.perform_all log_paths DEPLOY_SCRIPT_PATH
                                 DEPLOY_SCRIPT_NAME stack ops w)) j
       = Some (Layer.Done tt).
Proof.
  intros Hnew Hop Hne Hdone.
  destruct (perform_all_gated ops w k Hop Hne Hdone) as [Hprep|Hj];
    [|exact Hj].
  simpl in Hnew. injection Hnew as Hnew. rewrite <- Hnew in Hprep.
  discriminate.
Qed.

End LayerProperties.

Lemma common_perform_all_gated (ops : list Layer.operation)
      (self : Layer.Common.platform) (k : nat) (o : Layer.operation) :
  nth_error ops k = Some o -> o <> Layer.Prepare ->
  nth_error (fst (Layer.Common.perform_all ops self)) k
  = Some (Layer.Done tt) ->
  Layer.Common.prepared self = true
  \/ exists j,
      (j < k)%nat /\ nth_error ops j = Some Layer.Prepare
      /\ nth_error (fst (Layer.Common.perform_all ops self)) j
         = Some (Layer.Done tt).
Proof.
  revert self k. induction ops as [|o0 ops IH]; intros self k.
  - now destruct k.
  - simpl.
    assert (Hstep : Layer.Common.prepared
                      (snd (Layer.Common.perform o0 self)) = true ->
                    Layer.Common.prepared self = true
                    \/ (o0 = Layer.Prepare
                        /\ fst (Layer.Common.perform o0 self)
                           = Layer.Done tt)).
    { destruct o0; simpl; auto;
        unfold Layer.Common.validate, Layer.Common.deploy,
          Layer.Common.remove;
        destruct (Layer.Common.prepared self) eqn:Hp; simpl; auto;
        rewrite Hp; auto. }
    assert (Hgate : o0 <> Layer.Prepare ->
                    fst (Layer.Common.perform o0 self) = Layer.Done tt ->
                    Layer.Common.prepared self = true).
    { destruct o0; simpl; [congruence| | |]; intros _;
        unfold Layer.Common.validate, Layer.Common.deploy,
          Layer.Common.remove;
        destruct (Layer.Common.prepared self);
        simpl; congruence. }
    destruct (Layer.Common.perform o0 self) as [r s1]. simpl in *.
    specialize (IH s1).
    destruct (Layer.Common.perform_all ops s1) as [rs s2]. simpl in *.
    destruct k as [|k]; simpl.
    + intros [= ->] Hne [= ->]. left. now apply Hgate.
    + intros Hop Hne Hdone.
      destruct (IH k Hop Hne Hdone) as [Hprep|[j [Hj [Hpj Hdj]]]].
      * destruct (Hstep Hprep) as [Hw|[-> ->]]; [now left|].
        right. exists 0%nat. splits; [lia | reflexivity | reflexivity].
      * right. exists (S j). splits; [lia | assumption | assumption].
Qed.

(** X20: the common platform layer keeps the same order: whatever
    operations are asked of a layer just constructed, one after the
    other and going on after failures, a [validate], [deploy] or
    [remove] only returns when a [prepare] asked before it has
    returned. *)
Theorem common_layer_gated_by_prepare (ops : list Layer.operation)
        (k : nat) (o : Layer.operation) :
  nth_error ops k = Some o ->
  nth_error (fst (Layer.Common.perform_all ops Layer.Common.new)) k
  = Some (Layer.Done tt) ->
  o = Layer.Prepare
  \/ exists j,
      (j < k)%nat /\ nth_error ops j = Some Layer.Prepare
      /\ nth_error (fst (Layer.Common.perform_all ops Layer.Common.new)) j
         = Some (Layer.Done tt).
Proof.
  intros Hop Hdone.
  destruct o; [now left| | |]; right;
    (destruct (@common_perform_all_gated ops Layer.Common.new k _ Hop)
      as [Hprep|Hj]; [discriminate | exact Hdone | discriminate Hprep
                     | exact Hj]).
Qed.

(** ** From the layer to the blade *)

Lemma all_endpoint_ips_In (vb : Layer.virtual_blades)
      (classes : list string) (interconnect ip : string) :
  In ip (Layer.all_endpoint_ips vb classes interconnect)
  <-> exists blade_class instance,
      In blade_class classes
      /\ (instance < Layer.blade_count vb blade_class)%nat
      /\ ip = Layer.blade_ip vb blade_class instance interconnect.
Proof.
  unfold Layer.all_endpoint_ips. rewrite in_flat_map. split.
  - intros [c [Hc Hin]]. apply in_map_iff in Hin as [i [<- Hi]].
    apply in_seq in Hi. exists c, i. splits; [assumption | lia | reflexivity].
  - intros [c [i [Hc [Hi ->]]]]. exists c. split; [assumption|].
    apply in_map_iff. exists i. split; [reflexivity|].
    apply in_seq. lia.
Qed.

(** X21: the endpoint list that [prepare] gives a network lets every
    blade of a connected class find its underlay: on a blade of such a
    class whose snapshot shows the address its class and instance have
    on the interconnect of the network, [_find_underlay] on the
    ['endpoint_ips'] of the prepared network returns, with a local
    address that is on the list. *)
Theorem prepared_endpoints_reach_blade {H : Host}
        (vb : Layer.virtual_blades) (n n' : Layer.network)
        (interconnect blade_class : string) (instance : nat)
        (self : NetworkInstaller) (w : world) (device : string)
        (if_desc : iface) (infos : list addr) :
  Layer.__add_endpoint_ips vb n = Layer.Done n' ->
  Layer.n_interconnect n = Some interconnect ->
  In blade_class (classes_of vb n) ->
  (instance < Layer.blade_count vb blade_class)%nat ->
  In (device, if_desc) (interfaces self) ->
  addr_info if_desc = Some infos ->
  In {| local := Some (Layer.blade_ip vb blade_class instance interconnect) |}
     infos ->
  exists found,
    _find_underlay (endpoints_of (Layer.n_spec n')) (self, w)
    = (Ok found, (self, w))
    /\ In (snd found) (endpoints_of (Layer.n_spec n'))
    /\ endpoints_of (Layer.n_spec n')
       = Layer.all_endpoint_ips vb (classes_of vb n) interconnect.
Proof.
  intros Hadd Hic Hclass Hinst Hdev Haddrs Hlocal.
  assert (Hips : endpoints_of (Layer.n_spec n')
                 = Layer.all_endpoint_ips vb (classes_of vb n) interconnect).
  { unfold Layer.__add_endpoint_ips in Hadd. rewrite Hic in Hadd.
    now injection Hadd as <-. }
  assert (Hmine : In (Layer.blade_ip vb blade_class instance interconnect)
                     (endpoints_of (Layer.n_spec n'))).
  { rewrite Hips. apply all_endpoint_ips_In. now exists blade_class, instance. }
  assert (Hshown : In (device,
                       Layer.blade_ip vb blade_class instance interconnect)
                      (local_addrs (interfaces self))).
  { unfold local_addrs. apply in_flat_map. exists (device, if_desc).
    split; [assumption|]. simpl. rewrite Haddrs. apply in_flat_map.
    eexists. split; [exact Hlocal|]. simpl. now left. }
  unfold _find_underlay, bind, get_self. simpl.
  rewrite scan_interfaces_first. unfold first_endpoint.
  destruct (find _ (local_addrs (interfaces self))) as [found|] eqn:Hfind.
  - exists found. splits; [reflexivity | | exact Hips].
    apply find_some in Hfind as [_ Hin]. now apply str_in_In.
  - exfalso. apply (find_none _ _ Hfind) in Hshown. simpl in Hshown.
    apply str_in_false in Hshown. contradiction.
Qed.

(** ** The layer at work on the example site *)

Lemma prepare_writes_endpoints_witness :
  let w := Site.start Site.platform_yaml in
  let w' := snd (Layer.prepare Site.blades w) in
  Layer.prepare Site.blades w = (Layer.Done tt, w')
  /\ Layer.prepared (Layer.self w') = true
  /\ Layer.provider_api (Layer.self w') = Some Site.blades
  /\ Layer.runs w' = Layer.runs w
  /\ Layer.dump (Layer.blade_config_path (Layer.self w))
                (Layer.config (Layer.self w')) (Layer.surroundings w)
     = (Layer.Done tt, Layer.surroundings w')
  /\ (forall after,
         In after (networks_in (Layer.config (Layer.self w'))) ->
         exists before,
           In before (networks_in (Layer.config (Layer.self w)))
           /\ listed_endpoints Site.blades before after)
  /\ (exists changed,
         Forall2 (listed_endpoints Site.blades)
                 (networks_in (Layer.config (Layer.self w))) changed
         /\ Layer.p_networks (Layer.config (Layer.self w'))
            = Some (dict_of fst snd changed)
         /\ (NoDup (dict_keys (networks_in (Layer.config (Layer.self w)))) ->
             dict_of fst snd changed = changed))
  /\ Layer.p_packages (Layer.config (Layer.self w'))
     = Layer.p_packages (Layer.config (Layer.self w))
  /\ Layer.p_blade_class (Layer.config (Layer.self w'))
     = Layer.p_blade_class (Layer.config (Layer.self w)).
Proof.
  intros w w'.
  assert (Hrun : Layer.prepare Site.blades w = (Layer.Done tt, w'))
    by (vm_compute; reflexivity).
  split; [exact Hrun|].
  exact (@prepare_writes_endpoints Site.recording Site.blades w w' Hrun).
Defined.

Lemma prepare_stops_at_missing_interconnect_witness :
  let w := Site.start Site.faulty_yaml in
  exists before',
    fst (Layer.prepare Site.blades w)
    = Layer.Failed (Layer.Contextual Layer.NoInterconnect)
    /\ Layer.p_networks (Layer.config (Layer.self
                                         (snd (Layer.prepare Site.blades w))))
       = Some (before' ++ [("loose0", Site.loose)])
    /\ Forall2 (listed_endpoints Site.blades) [("fabric0", Site.fabric)]
               before'
    /\ Layer.prepared (Layer.self (snd (Layer.prepare Site.blades w)))
       = Layer.prepared (Layer.self w)
    /\ Layer.surroundings (snd (Layer.prepare Site.blades w))
       = Layer.surroundings w
    /\ Layer.runs (snd (Layer.prepare Site.blades w)) = Layer.runs w.
Proof.
  intros w.
  assert (Hnets : Layer.p_networks (Layer.config (Layer.self w))
                  = Some ([("fabric0", Site.fabric)]
                          ++ ("loose0", Site.loose) :: []))
    by reflexivity.
  assert (Hbefore : forall k m,
             In (k, m) [("fabric0", Site.fabric)] ->
             Layer.n_interconnect m <> None).
  { intros k m [[= <- <-]|[]]. discriminate. }
  exact (@prepare_stops_at_missing_interconnect
           Site.recording Site.blades w _ _ _ _ Hnets Hbefore eq_refl).
Defined.

Lemma deploy_follows_calls_witness :
  let w := snd (Layer.prepare Site.blades (Site.start Site.platform_yaml)) in
  Layer.prepared (Layer.self w) = true
  /\ makes_calls
       (Layer.deploy_calls Site.log_paths "/opt/deploy_to_blade.py"
                           "deploy_to_blade.py" Site.blades
                           (Layer.build_dir (Layer.self w))
                           (Layer.blade_config_path (Layer.self w)))
       w
       (Layer.deploy Site.log_paths "/opt/deploy_to_blade.py"
                     "deploy_to_blade.py" w).
Proof.
  intros w.
  assert (Hprep : Layer.prepared (Layer.self w) = true)
    by (vm_compute; reflexivity).
  assert (Hvb : Layer.provider_api (Layer.self w) = Some Site.blades)
    by reflexivity.
  split; [exact Hprep|].
  exact (@deploy_follows_calls Site.recording Site.log_paths
                               "/opt/deploy_to_blade.py" "deploy_to_blade.py"
                               w Site.blades Hprep Hvb).
Defined.

Lemma operations_gated_by_prepare_witness :
  let w := Site.start Site.platform_yaml in
  let ops := [Layer.Validate; Layer.Prepare; Layer.Deploy] in
  nth_error
    (fst (Layer.perform_all Site.log_paths "/opt/deploy_to_blade.py"
                            "deploy_to_blade.py" Site.blades ops w)) 2
  = Some (Layer.Done tt)
  /\ exists j,
      (j < 2)%nat /\ nth_error ops j = Some Layer.Prepare
      /\ nth_error
           (fst (Layer.perform_all Site.log_paths "/opt/deploy_to_blade.py"
                                   "deploy_to_blade.py" Site.blades ops w)) j
         = Some (Layer.Done tt).
Proof.
  intros w ops.
  assert (Hnew : Layer.LayerAPI Site.path_join (Some Site.platform_yaml)
                                "/build"
                 = Layer.Done (Layer.self w)) by reflexivity.
  assert (Hop : nth_error ops 2 = Some Layer.Deploy) by reflexivity.
  assert (Hne : Layer.Deploy <> Layer.Prepare) by discriminate.
  assert (Hdone : nth_error
                    (fst (Layer.perform_all Site.log_paths
                                            "/opt/deploy_to_blade.py"
                                            "deploy_to_blade.py" Site.blades
                                            ops w)) 2
                  = Some (Layer.Done tt)) by (vm_compute; reflexivity).
  split; [exact Hdone|].
  exact (@operations_gated_by_prepare
           Site.recording Site.path_join Site.log_paths
           "/opt/deploy_to_blade.py" "deploy_to_blade.py" Site.blades
           Site.platform_yaml "/build" w ops 2 Layer.Deploy
           Hnew Hop Hne Hdone).
Defined.

Lemma common_layer_gated_by_prepare_witness :
  let ops := [Layer.Validate; Layer.Prepare; Layer.Remove] in
  nth_error (fst (Layer.Common.perform_all ops Layer.Common.new)) 2
  = Some (Layer.Done tt)
  /\ (Layer.Remove = Layer.Prepare
      \/ exists j,
          (j < 2)%nat /\ nth_error ops j = Some Layer.Prepare
          /\ nth_error (fst (Layer.Common.perform_all ops Layer.Common.new)) j
             = Some (Layer.Done tt)).
Proof.
  intros ops.
  assert (Hop : nth_error ops 2 = Some Layer.Remove) by reflexivity.
  assert (Hdone : nth_error
                    (fst (Layer.Common.perform_all ops Layer.Common.new)) 2
                  = Some (Layer.Done tt)) by (vm_compute; reflexivity).
  split; [exact Hdone|].
  exact (@common_layer_gated_by_prepare ops 2 Layer.Remove Hop Hdone).
Defined.

Lemma prepared_endpoints_reach_blade_witness :
  let self := Example.snapshot Example.fresh in
  let w := Blade.running Example.fresh [] in
  let n' := Layer.set_endpoint_ips ["10.0.0.1"; "10.0.0.2"; "10.0.0.3"]
                                   Site.fabric in
  Layer.__add_endpoint_ips Site.blades Site.fabric = Layer.Done n'
  /\ exists found,
      _find_underlay (endpoints_of (Layer.n_spec n')) (self, w)
      = (Ok found, (self, w))
      /\ In (snd found) (endpoints_of (Layer.n_spec n'))
      /\ endpoints_of (Layer.n_spec n')
         = Layer.all_endpoint_ips Site.blades
                                  (classes_of Site.blades Site.fabric)
                                  "interconnect0".
Proof.
  intros self w n'.
  assert (Hadd : Layer.__add_endpoint_ips Site.blades Site.fabric
                 = Layer.Done n') by (vm_compute; reflexivity).
  assert (Hclass : In "compute" (classes_of Site.blades Site.fabric))
    by (simpl; tauto).
  assert (Hinst : (1 < Layer.blade_count Site.blades "compute")%nat)
    by (simpl; lia).
  assert (Hdev : In ("eth0", Blade.iface_of Example.eth0) (interfaces self))
    by (vm_compute; tauto).
  assert (Hlocal : In {| local := Some (Layer.blade_ip Site.blades "compute"
                                                       1 "interconnect0") |}
                      [{| local := Some "10.0.0.2" |}])
    by (vm_compute; tauto).
  split; [exact Hadd|].
  exact (@prepared_endpoints_reach_blade
           Blade.blade Site.blades Site.fabric n' "interconnect0" "compute" 1
           self w "eth0" (Blade.iface_of Example.eth0) _
           Hadd eq_refl Hclass Hinst Hdev eq_refl Hlocal).
Defined.

(** ** Reconciliation on the reference blade *)

Lemma fdb_add_kind (ip : string) (l : Blade.link) :
  Blade.l_kind (Blade.fdb_add ip l) = Blade.l_kind l.
Proof.
  unfold Blade.fdb_add. now destruct (str_in ip (Blade.l_fdb l)).
Qed.

(** *** What a construction keeps of a buildable blade *)

Lemma NoDup_distinct (xs : list string) :
  NoDup xs -> Blade.distinct xs = true.
Proof.
  induction 1 as [|x xs Hx Hnd IH]; simpl; [reflexivity|].
  apply str_in_false in Hx. now rewrite Hx, IH.
Qed.

Lemma not_named (n : string) (ls : list Blade.link) (l : Blade.link) :
  Blade.has_link n ls = false -> In l ls -> Blade.named n l = false.
Proof.
  intros Hno Hin. destruct (Blade.named n l) eqn:Hn; [|reflexivity].
  assert (Hhas : Blade.has_link n ls = true)
    by (apply existsb_exists; now exists l).
  congruence.
Qed.

Lemma del_link_In (n : string) (ls : list Blade.link) (l' : Blade.link) :
  In l' (Blade.del_link n ls)
  <-> exists l, In l ls /\ Blade.named n l = false
                /\ l' = (if Blade.mastered_by n l
                         then Blade.set_master None l else l).
Proof.
  unfold Blade.del_link. rewrite in_map_iff. split.
  - intros [l [<- Hin]]. apply filter_In in Hin as [Hin Hn].
    apply negb_true_iff in Hn. now exists l.
  - intros [l [Hin [Hn ->]]]. exists l. split; [reflexivity|].
    apply filter_In. split; [assumption | now apply negb_true_iff].
Qed.

(** Every master named by a link is a bridge among the links. *)
Lemma del_link_masters (n : string) (ls : list Blade.link) :
  (forall l m, In l ls -> Blade.l_master l = Some m ->
               existsb (fun b => Blade.named m b && Blade.is_bridge b) ls
               = true) ->
  forall l m, In l (Blade.del_link n ls) -> Blade.l_master l = Some m ->
              existsb (fun b => Blade.named m b && Blade.is_bridge b)
                      (Blade.del_link n ls) = true.
Proof.
  intros Hok l' m Hin' Hm.
  apply del_link_In in Hin' as [l [Hin [Hn ->]]].
  destruct (Blade.mastered_by n l) eqn:Hby; [discriminate|].
  assert (Hmn : String.eqb m n = false).
  { unfold Blade.mastered_by in Hby. now rewrite Hm in Hby. }
  specialize (Hok l m Hin Hm).
  apply existsb_exists in Hok as [b [Hb Hnb]].
  apply andb_prop in Hnb as [Hnamed Hbridge].
  apply existsb_exists.
  exists (if Blade.mastered_by n b then Blade.set_master None b else b).
  split.
  - apply del_link_In. exists b. splits; [assumption | | reflexivity].
    unfold Blade.named in *. apply String.eqb_eq in Hnamed.
    now rewrite Hnamed.
  - destruct (Blade.mastered_by n b); unfold Blade.named, Blade.is_bridge in *;
      simpl; now rewrite Hnamed, Hbridge.
Qed.

Lemma del_link_ports (n : string) (ls : list Blade.link) :
  (forall l, In l ls ->
             match Blade.l_kind l, Blade.l_master l with
             | Blade.Plain, Some _ => false
             | _, _ => true
             end = true) ->
  forall l, In l (Blade.del_link n ls) ->
            match Blade.l_kind l, Blade.l_master l with
            | Blade.Plain, Some _ => false
            | _, _ => true
            end = true.
Proof.
  intros Hok l' Hin'. apply del_link_In in Hin' as [l [Hin [_ ->]]].
  specialize (Hok l Hin).
  destruct (Blade.mastered_by n l); [|exact Hok].
  simpl. now destruct (Blade.l_kind l).
Qed.

Lemma cleared_keeps (P : list Blade.link -> Prop) (self : NetworkInstaller)
      (config : network_config) (ls : list Blade.link) :
  (forall n ls', P ls' -> P (Blade.del_link n ls')) ->
  P ls -> P (Blade.cleared self config ls).
Proof.
  intros Hdel Hls. unfold Blade.cleared.
  destruct (dict_mem (tunnel_of config) (interfaces self));
    destruct (dict_mem (bridge_of config) (interfaces self)); auto.
Qed.

Lemma flood_kind (ips : list string) (l : Blade.link) :
  Blade.l_kind (Blade.flood ips l) = Blade.l_kind l.
Proof.
  revert l. unfold Blade.flood.
  induction ips as [|ip ips IH]; intros l; simpl; [reflexivity|].
  now rewrite IH, fdb_add_kind.
Qed.

Lemma NoDup_map_filter {A B} (g : A -> B) (p : A -> bool) (xs : list A) :
  NoDup (map g xs) -> NoDup (map g (filter p xs)).
Proof.
  induction xs as [|x xs IH]; simpl; [auto|].
  intros Hnd. inversion Hnd as [|? ? Hx Hnd']; subst.
  destruct (p x); simpl; [|now apply IH].
  constructor; [|now apply IH].
  intros Hin. apply Hx. apply in_map_iff in Hin as [y [Hy Hin]].
  apply filter_In in Hin as [Hin _]. rewrite <- Hy. now apply in_map.
Qed.

Lemma unregistered_distinct (self : NetworkInstaller)
      (config : network_config) (vs : list Blade.vnet) :
  NoDup (map Blade.v_name vs) ->
  NoDup (map Blade.v_name (Blade.unregistered self config vs)).
Proof.
  intros Hnd. unfold Blade.unregistered.
  destruct (str_in (name_of config) (vnets self)); [|exact Hnd].
  unfold Blade.net_undefine, Blade.net_destroy.
  assert (Hkeep : forall (f : Blade.vnet -> Blade.vnet) xs,
             (forall v, Blade.v_name (f v) = Blade.v_name v) ->
             map Blade.v_name (map f xs) = map Blade.v_name xs).
  { intros f xs Hf. rewrite map_map. apply map_ext. exact Hf. }
  rewrite Hkeep by (intros v; now destruct (Blade.net_named _ v)).
  apply NoDup_map_filter.
  rewrite Hkeep by (intros v; now destruct (Blade.net_named _ v)).
  now apply NoDup_map_filter.
Qed.

Lemma not_net_named (n : string) (vs : list Blade.vnet) (v : Blade.vnet) :
  Blade.has_net n vs = false -> In v vs -> Blade.net_named n v = false.
Proof.
  intros Hno Hin. destruct (Blade.net_named n v) eqn:Hn; [|reflexivity].
  assert (Hhas : Blade.has_net n vs = true)
    by (apply existsb_exists; now exists v).
  congruence.
Qed.

(** A construction that succeeds leaves a buildable blade buildable. *)
Lemma construct_keeps_buildable (config : network_config)
      (h h' : Blade.state) :
  buildable config h = true ->
  Blade.reconcile config h = (Ok tt, h') ->
  buildable config h' = true.
Proof.
  unfold buildable. intros Hb Hrun.
  apply andb_prop in Hb as [Hb Hregistry].
  apply andb_prop in Hb as [Hb Hunderlay].
  apply andb_prop in Hb as [Hb Hne].
  apply andb_prop in Hb as [Hb Hbridge].
  apply andb_prop in Hb as [Hb Htunnel].
  apply andb_prop in Hb as [Hwf Hports].
  destruct (well_formed_links h Hwf) as [Hnd _].
  apply reconcile_ok in Hrun
    as [self [found [Hinit [Hf [Ht [Hd [Hbl [Hneq [Hn Hh']]]]]]]]].
  destruct (blade_init _ _ Hinit) as [_ [Hmem [Hvnets Hscan]]].
  rewrite (Hscan Hnd) in Hf.
  set (L := Blade.cleared self config (Blade.links h)) in *.
  set (N := Blade.unregistered self config (Blade.nets h)) in *.
  set (T := Blade.tunnel_link config found) in *.
  set (B := Blade.new_bridge (bridge_of config)) in *.
  assert (HnameT : Blade.l_name T = tunnel_of config).
  { unfold T, Blade.tunnel_link. now rewrite flood_name. }
  assert (HmasterT : Blade.l_master T = Some (bridge_of config)).
  { unfold T, Blade.tunnel_link. now rewrite flood_master. }
  assert (HaddrsT : Blade.l_addrs T = []).
  { unfold T, Blade.tunnel_link. now rewrite flood_addrs. }
  assert (HkindT : Blade.is_vxlan T = true).
  { unfold T, Blade.tunnel_link, Blade.is_vxlan. now rewrite flood_kind. }
  assert (Hlinks : Blade.links h' = L ++ [T; B]) by now rewrite Hh'.
  assert (Hnets : Blade.nets h' = N ++ [Blade.registered config])
    by now rewrite Hh'.
  assert (HnamedT : Blade.named (tunnel_of config) T = true).
  { unfold Blade.named. rewrite HnameT. apply String.eqb_refl. }
  assert (HnamedTB : Blade.named (tunnel_of config) B = false).
  { unfold Blade.named, B. simpl. apply String.eqb_neq. congruence. }
  assert (HnamedBT : Blade.named (bridge_of config) T = false).
  { unfold Blade.named. rewrite HnameT. now apply String.eqb_neq. }
  assert (HnamedB : Blade.named (bridge_of config) B = true)
    by apply String.eqb_refl.
  (* the links *)
  assert (HndL : NoDup (map Blade.l_name L)).
  { unfold L. apply (@cleared_keeps
                       (fun ls => NoDup (map Blade.l_name ls)));
      [|exact Hnd].
    intros n ls' Hls'. rewrite del_link_names. now apply NoDup_filter. }
  assert (Hwf' : Blade.well_formed h' = true).
  { unfold Blade.well_formed. rewrite Hlinks. apply andb_true_intro. split.
    - apply NoDup_distinct. rewrite map_app. simpl. rewrite HnameT.
      apply NoDup_app; [assumption| |].
      + repeat constructor; simpl; [|tauto]. intros [Heq|[]]. congruence.
      + intros x Hx [<-|[<-|[]]].
        * apply has_link_In in Hx. congruence.
        * apply has_link_In in Hx. unfold B in Hx. simpl in Hx. congruence.
    - assert (HmL : forall l m,
                 In l L -> Blade.l_master l = Some m ->
                 existsb (fun b => Blade.named m b && Blade.is_bridge b) L
                 = true).
      { unfold L.
        apply (@cleared_keeps
                 (fun ls =>
                    forall l m, In l ls -> Blade.l_master l = Some m ->
                                existsb (fun b => Blade.named m b
                                                  && Blade.is_bridge b) ls
                                = true)).
        - intros n ls'. apply del_link_masters.
        - unfold Blade.well_formed in Hwf.
          apply andb_prop in Hwf as [_ Hm]. rewrite forallb_forall in Hm.
          intros l m Hl Hlm. specialize (Hm l Hl). now rewrite Hlm in Hm. }
      apply forallb_forall. intros l Hl.
      destruct (Blade.l_master l) as [m|] eqn:Hm; [|reflexivity].
      rewrite existsb_app. apply in_app_or in Hl as [Hl|[<-|[<-|[]]]].
      + now rewrite (HmL l m Hl Hm).
      + rewrite HmasterT in Hm. injection Hm as <-.
        apply orb_true_iff. right. simpl. rewrite HnamedB. simpl.
        now rewrite ?orb_true_r.
      + discriminate. }
  assert (Hports' : no_plain_port h' = true).
  { unfold no_plain_port. rewrite Hlinks. apply forallb_forall.
    intros l Hl. apply in_app_or in Hl as [Hl|[<-|[<-|[]]]].
    - revert l Hl. unfold L.
      apply (@cleared_keeps
               (fun ls =>
                  forall l, In l ls ->
                            match Blade.l_kind l, Blade.l_master l with
                            | Blade.Plain, Some _ => false
                            | _, _ => true
                            end = true)).
      + intros n ls'. apply del_link_ports.
      + unfold no_plain_port in Hports. now rewrite forallb_forall in Hports.
    - unfold Blade.is_vxlan in HkindT. now destruct (Blade.l_kind T).
    - reflexivity. }
  assert (Htunnel' : name_kept_for (tunnel_of config) Blade.is_vxlan h'
                     = true).
  { unfold name_kept_for. rewrite Hlinks. apply forallb_forall.
    intros l Hl. apply in_app_or in Hl as [Hl|[<-|[<-|[]]]].
    - now rewrite (@not_named _ _ _ Ht Hl).
    - now rewrite HkindT, orb_true_r.
    - now rewrite HnamedTB. }
  assert (Hbridge' : name_kept_for (bridge_of config) Blade.is_bridge h'
                     = true).
  { unfold name_kept_for. rewrite Hlinks. apply forallb_forall.
    intros l Hl. apply in_app_or in Hl as [Hl|[<-|[<-|[]]]].
    - now rewrite (@not_named _ _ _ Hbl Hl).
    - now rewrite HnamedBT.
    - now rewrite orb_true_r. }
  assert (Hunderlay' : underlay_apart config h' = true).
  { unfold underlay_apart in *. rewrite Hlinks.
    rewrite (@underlay_app_bare L [T; B])
      by (constructor; [exact HaddrsT | constructor; [reflexivity|]];
          constructor).
    rewrite Hf in Hunderlay.
    assert (HfT : fst found <> tunnel_of config).
    { intros Heq. rewrite Heq, Ht in Hd. discriminate. }
    assert (HfB : fst found <> bridge_of config).
    { intros Heq. rewrite Heq, Hbl in Hd. discriminate. }
    replace (Blade.underlay L (endpoints_of config)) with (Some found);
      [exact Hunderlay|].
    symmetry. unfold L, Blade.cleared.
    destruct (dict_mem (tunnel_of config) (interfaces self));
      destruct (dict_mem (bridge_of config) (interfaces self));
      repeat apply underlay_del_link; assumption. }
  assert (Hregistry' : registry_ready config h' = true).
  { unfold registry_ready in *. rewrite Hnets.
    apply andb_prop in Hregistry as [Hregistry _].
    apply andb_prop in Hregistry as [Hname Hdistinct].
    rewrite Hname. simpl. apply andb_true_intro. split.
    - apply NoDup_distinct. rewrite map_app. simpl.
      apply NoDup_app.
      + unfold N. apply unregistered_distinct.
        now apply distinct_NoDup.
      + repeat constructor. simpl. tauto.
      + intros x Hx [<-|[]].
        assert (Hhas : Blade.has_net (name_of config) N = true);
          [|congruence].
        apply in_map_iff in Hx as [v [Hv Hin]].
        apply existsb_exists. exists v. split; [assumption|].
        unfold Blade.net_named. rewrite Hv. apply String.eqb_refl.
    - apply forallb_forall. intros v Hv.
      apply in_app_or in Hv as [Hv|[<-|[]]].
      + now rewrite (@not_net_named _ _ _ Hn Hv).
      + simpl. apply orb_true_r. }
  now rewrite Hwf', Hports', Htunnel', Hbridge', Hne, Hunderlay', Hregistry'.
Qed.

(** X22: a reconciliation of the network that succeeds on a buildable
    blade (links well formed and none a plain port of a bridge, the
    names of the tunnel and the bridge distinct and free or borne by a
    vxlan and a bridge, an endpoint address on a device other than these
    two, and the network named and, if libvirt knows it, active and
    persistent) leaves the blade buildable, so that the network can be
    reconciled again; and it leaves the tunnel enslaved to the bridge and
    flooding to the remote endpoints, the bridge, the network active,
    persistent and started automatically, and no temporary file.  Which
    reconciliations succeed is not said: the reference blade accepts
    commands that a kernel refuses. *)
Theorem reconcile_keeps_buildable (config : network_config)
        (h h' : Blade.state) :
  buildable config h = true ->
  Blade.reconcile config h = (Ok tt, h') ->
  buildable config h' = true
  /\ exists found,
      Blade.underlay (Blade.links h) (endpoints_of config) = Some found
      /\ Blade.underlay (Blade.links h') (endpoints_of config) = Some found
      /\ In (Blade.tunnel_link config found) (Blade.links h')
      /\ In (Blade.new_bridge (bridge_of config)) (Blade.links h')
      /\ In (Blade.registered config) (Blade.nets h')
      /\ Blade.tmpfile h' = None.
Proof.
  intros Hb Hrun.
  pose proof (@construct_keeps_buildable config h h' Hb Hrun) as Hb'.
  split; [exact Hb'|].
  assert (Hnd : NoDup (map Blade.l_name (Blade.links h))).
  { unfold buildable in Hb. repeat (apply andb_prop in Hb as [Hb _]).
    now apply distinct_NoDup. }
  pose proof Hrun as Hok.
  apply reconcile_ok in Hok
    as [self [found [Hinit [Hf [Ht [Hd [Hbl [_ [_ Hh']]]]]]]]].
  destruct (blade_init _ _ Hinit) as [_ [_ [_ Hscan]]].
  rewrite (Hscan Hnd) in Hf.
  exists found. splits; try assumption.
  - rewrite Hh'. simpl.
    rewrite (@underlay_app_bare _ [Blade.tunnel_link config found;
                                   Blade.new_bridge (bridge_of config)]).
    + assert (HfT : fst found <> tunnel_of config).
      { intros Heq. rewrite Heq, Ht in Hd. discriminate. }
      assert (HfB : fst found <> bridge_of config).
      { intros Heq. rewrite Heq, Hbl in Hd. discriminate. }
      unfold Blade.cleared.
      destruct (dict_mem (tunnel_of config) (interfaces self));
        destruct (dict_mem (bridge_of config) (interfaces self));
        repeat apply underlay_del_link; assumption.
    + constructor; [|constructor; [reflexivity | constructor]].
      unfold Blade.tunnel_link. now rewrite flood_addrs.
  - rewrite Hh'. simpl. apply in_or_app. right. now left.
  - rewrite Hh'. simpl. apply in_or_app. right. right. now left.
  - rewrite Hh'. simpl. apply in_or_app. right. now left.
  - now rewrite Hh'.
Qed.

Lemma cleared_In (self : NetworkInstaller) (config : network_config)
      (h : Blade.state) (l' : Blade.link) :
  Blade.well_formed h = true ->
  (forall n, dict_mem n (interfaces self)
             = Blade.has_link n (Blade.links h)) ->
  In l' (Blade.cleared self config (Blade.links h))
  <-> exists l,
      In l (Blade.links h)
      /\ Blade.l_name l <> tunnel_of config
      /\ Blade.l_name l <> bridge_of config
      /\ l' = released (tunnel_of config) (bridge_of config) l.
Proof.
  intros Hwf Hmem.
  destruct (well_formed_links h Hwf) as [_ Hmasters].
  assert (Hboth : Blade.cleared self config (Blade.links h)
                  = Blade.del_link (bridge_of config)
                      (Blade.del_link (tunnel_of config) (Blade.links h))).
  { unfold Blade.cleared. rewrite !Hmem.
    destruct (Blade.has_link (tunnel_of config) (Blade.links h)) eqn:Ht.
    - destruct (Blade.has_link (bridge_of config) (Blade.links h)) eqn:Hb;
        [reflexivity|].
      symmetry. apply del_link_absent.
      + destruct (Blade.has_link (bridge_of config) (Blade.del_link _ _))
          eqn:Hhas; [|reflexivity].
        apply has_link_del_other in Hhas as [Hhas _]. congruence.
      + apply del_link_keeps_free. now apply Hmasters.
    - rewrite (@del_link_absent (tunnel_of config) (Blade.links h) Ht)
        by now apply Hmasters.
      destruct (Blade.has_link (bridge_of config) (Blade.links h)) eqn:Hb;
        [reflexivity|].
      symmetry. apply del_link_absent; [assumption | now apply Hmasters]. }
  assert (Hname : forall n l, Blade.named n l = false <-> Blade.l_name l <> n).
  { intros n l. unfold Blade.named. apply String.eqb_neq. }
  rewrite Hboth, del_link_In. split.
  - intros [l1 [Hin1 [Hn1 ->]]].
    apply del_link_In in Hin1 as [l [Hin [Hn ->]]].
    exists l. split; [assumption|]. split; [now apply Hname|].
    unfold released.
    destruct (Blade.mastered_by (tunnel_of config) l) eqn:Hmt; simpl.
    + split; [now apply Hname in Hn1 | reflexivity].
    + split; [now apply Hname in Hn1|].
      now destruct (Blade.mastered_by (bridge_of config) l).
  - intros [l [Hin [Ht [Hb ->]]]].
    exists (if Blade.mastered_by (tunnel_of config) l
            then Blade.set_master None l else l).
    splits.
    + apply del_link_In. exists l. splits; [assumption | | reflexivity].
      now apply Hname.
    + destruct (Blade.mastered_by (tunnel_of config) l);
        now apply Hname.
    + unfold released.
      destruct (Blade.mastered_by (tunnel_of config) l) eqn:Hmt; simpl;
        [reflexivity|].
      now destruct (Blade.mastered_by (bridge_of config) l).
Qed.

Lemma unregistered_In (self : NetworkInstaller) (config : network_config)
      (vs : list Blade.vnet) (v : Blade.vnet) :
  Blade.v_name v <> name_of config ->
  In v (Blade.unregistered self config vs) <-> In v vs.
Proof.
  intros Hne.
  assert (Hn : Blade.net_named (name_of config) v = false)
    by now apply String.eqb_neq.
  assert (Hstep : forall (f : Blade.vnet -> Blade.vnet)
                         (p : Blade.vnet -> bool) xs,
             (forall x, Blade.v_name (f x) = Blade.v_name x) ->
             In v (map (fun x => if Blade.net_named (name_of config) x
                                 then f x else x)
                       (filter (fun x => negb (Blade.net_named
                                                 (name_of config) x)
                                         || p x) xs))
             <-> In v xs).
  { intros f p xs Hf. rewrite in_map_iff. split.
    - intros [x [Hx Hin]]. apply filter_In in Hin as [Hin _].
      destruct (Blade.net_named (name_of config) x) eqn:Hnx;
        [|now subst].
      exfalso. subst v. unfold Blade.net_named in *.
      rewrite Hf in Hn. congruence.
    - intros Hin. exists v. rewrite Hn. split; [reflexivity|].
      apply filter_In. split; [assumption|]. now rewrite Hn. }
  unfold Blade.unregistered.
  destruct (str_in (name_of config) (vnets self)); [|tauto].
  unfold Blade.net_undefine.
  rewrite (Hstep (fun x => Blade.set_net (Blade.v_active x) false false x)
                 Blade.v_active) by reflexivity.
  unfold Blade.net_destroy.
  now rewrite (Hstep (fun x => Blade.set_net false (Blade.v_persistent x)
                                             (Blade.v_autostart x) x)
                     Blade.v_persistent) by reflexivity.
Qed.

(** X23: a reconciliation that succeeds on a well-formed blade touches
    nothing but its own: every other link is still there, as it was
    except that a port of the old bridge or tunnel has lost its master,
    and every network of libvirt of another name is still there as it
    was; and nothing else has appeared but the tunnel, the bridge and
    the network. *)
Theorem reconcile_spares_the_rest (config : network_config)
        (h h' : Blade.state) :
  Blade.well_formed h = true ->
  Blade.reconcile config h = (Ok tt, h') ->
  (forall l, In l (Blade.links h) ->
             Blade.l_name l <> tunnel_of config ->
             Blade.l_name l <> bridge_of config ->
             In (released (tunnel_of config) (bridge_of config) l)
                (Blade.links h'))
  /\ (forall l', In l' (Blade.links h') ->
                 Blade.l_name l' = tunnel_of config
                 \/ Blade.l_name l' = bridge_of config
                 \/ exists l, In l (Blade.links h)
                              /\ l' = released (tunnel_of config)
                                               (bridge_of config) l)
  /\ (forall v, In v (Blade.nets h) -> Blade.v_name v <> name_of config ->
                In v (Blade.nets h'))
  /\ (forall v', In v' (Blade.nets h') ->
                 Blade.v_name v' = name_of config \/ In v' (Blade.nets h)).
Proof.
  intros Hwf Hrun.
  apply reconcile_ok in Hrun
    as [self [found [Hinit [_ [_ [_ [_ [_ [Hn Hh']]]]]]]]].
  destruct (blade_init _ _ Hinit) as [_ [Hmem _]].
  rewrite Hh'. simpl. splits.
  - intros l Hl Ht Hb. apply in_or_app. left.
    apply (@cleared_In self config h _ Hwf Hmem). now exists l.
  - intros l' Hl'. apply in_app_or in Hl' as [Hl'|[<-|[<-|[]]]].
    + apply (@cleared_In self config h _ Hwf Hmem) in Hl'
        as [l [Hl [_ [_ ->]]]].
      right. right. now exists l.
    + left. unfold Blade.tunnel_link. now rewrite flood_name.
    + right. now left.
  - intros v Hv Hne. apply in_or_app. left.
    now apply unregistered_In.
  - intros v' Hv'. apply in_app_or in Hv' as [Hv'|[<-|[]]]; [|now left].
    destruct (string_dec (Blade.v_name v') (name_of config)) as [Heq|Hne];
      [now left|].
    right.
    exact (proj1 (@unregistered_In self config (Blade.nets h) v' Hne) Hv').
Qed.

Lemma reconcile_keeps_buildable_witness :
  let h' := snd (Blade.reconcile Example.fabric0 Example.fresh) in
  buildable Example.fabric0 Example.fresh = true
  /\ Blade.reconcile Example.fabric0 Example.fresh = (Ok tt, h')
  /\ buildable Example.fabric0 h' = true
  /\ exists found,
      Blade.underlay (Blade.links Example.fresh)
                     (endpoints_of Example.fabric0) = Some found
      /\ Blade.underlay (Blade.links h') (endpoints_of Example.fabric0)
         = Some found
      /\ In (Blade.tunnel_link Example.fabric0 found) (Blade.links h')
      /\ In (Blade.new_bridge (bridge_of Example.fabric0)) (Blade.links h')
      /\ In (Blade.registered Example.fabric0) (Blade.nets h')
      /\ Blade.tmpfile h' = None.
Proof.
  intros h'.
  assert (Hb : buildable Example.fabric0 Example.fresh = true)
    by (vm_compute; reflexivity).
  assert (Hrun : Blade.reconcile Example.fabric0 Example.fresh = (Ok tt, h'))
    by (vm_compute; reflexivity).
  split; [exact Hb|]. split; [exact Hrun|].
  exact (@reconcile_keeps_buildable Example.fabric0 Example.fresh h' Hb Hrun).
Defined.

Lemma reconcile_spares_the_rest_witness :
  let h' := snd (Blade.reconcile Example.fabric0 Scenario.attached) in
  Blade.reconcile Example.fabric0 Scenario.attached = (Ok tt, h')
  /\ In (released "fabric0" "br-fabric0" Scenario.vxlan7) (Blade.links h')
  /\ Blade.l_master (released "fabric0" "br-fabric0" Scenario.vxlan7) = None.
Proof.
  intros h'.
  assert (Hwf : Blade.well_formed Scenario.attached = true)
    by (vm_compute; reflexivity).
  assert (Hrun : Blade.reconcile Example.fabric0 Scenario.attached
                 = (Ok tt, h')) by (vm_compute; reflexivity).
  assert (Hl : In Scenario.vxlan7 (Blade.links Scenario.attached))
    by (vm_compute; tauto).
  assert (Ht : Blade.l_name Scenario.vxlan7 <> tunnel_of Example.fabric0)
    by (vm_compute; discriminate).
  assert (Hb : Blade.l_name Scenario.vxlan7 <> bridge_of Example.fabric0)
    by (vm_compute; discriminate).
  splits; [exact Hrun | | reflexivity].
  exact (proj1 (@reconcile_spares_the_rest Example.fabric0 Scenario.attached
                                           h' Hwf Hrun)
               Scenario.vxlan7 Hl Ht Hb).
Defined.
